(** * Intelligent dual-axis solar tracking system: model and verified properties

    A shallow embedding of the Python sources

      - [core/solar_model.py]     (module [SolarModel])
      - [core/tracking_logic.py]  (module [TrackingLogic])
      - [core/ai_predictive.py]   (module [AiPredictive])
      - [simulator.py]            (module [Simulator])
      - the energy integral of [app.py] (module [App])

    Modelling conventions.

    - A Python [float] is a real number of [R]: rounding is abstracted away,
      [math.sin], [math.cos], [math.acos] are the functions of the Reals
      library, [math.radians] and [math.degrees] multiply by [PI/180] and
      [180/PI].  A Python [int] is a [Z].
    - Code that can raise returns a [result]: [math.acos] raises
      [ValueError] outside [[-1,1]], float division raises
      [ZeroDivisionError] on a zero divisor, list indexing raises
      [IndexError] out of range.
    - A [datetime] is a point of the proleptic Gregorian time line (day
      ordinal and microsecond of the day); its calendar fields are read
      back with the algorithms of CPython's [datetime] module.
    - The mutable tracker object is threaded explicitly: [update] takes the
      tracker before the call and returns the tracker after it together
      with the dictionary the method returns.
    - Where rounding decides a property, the function is embedded a second
      time over the binary64 numbers of the kernel (module [Binary64]):
      this is done for [calculate_solar_time], whose wrap-around to the
      day depends on it. *)

From Stdlib Require Import Reals ZArith String List Bool Lra Lia RNsatz.
From Stdlib Require Import Floats Uint63.
Import ListNotations.
Local Open Scope R_scope.

(* ===================================================================== *)
(** * Python primitives *)
(* ===================================================================== *)

Module Py.

(** Exceptions.  [InvalidInputError] is the error class named by the
    specification; no statement of the sources raises it. *)
Inductive exn : Set :=
| IndexError
| ValueError
| ZeroDivisionError
| InvalidInputError.

Inductive result (A : Type) : Type :=
| Ok (a : A)
| Raise (e : exn).
Arguments Ok {A} a.
Arguments Raise {A} e.

Definition bind {A B : Type} (c : result A) (k : A -> result B) : result B :=
  match c with
  | Ok a => k a
  | Raise e => Raise e
  end.

Definition is_ok {A : Type} (c : result A) : bool :=
  match c with Ok _ => true | Raise _ => false end.

(** Comparisons of floats, as booleans. *)
Definition ltb (x y : R) : bool := if Rlt_dec x y then true else false.
Definition leb (x y : R) : bool := if Rle_dec x y then true else false.
Definition gtb (x y : R) : bool := ltb y x.

(** [max(a, b)]: the first argument is kept unless the second is
    strictly greater; [min(a, b)] likewise with strictly smaller. *)
Definition max (a b : R) : R := if gtb b a then b else a.
Definition min (a b : R) : R := if ltb b a then b else a.

(** [x % y] on floats for a positive modulus: the result has the sign of
    [y], that is [x - y * floor (x / y)]. *)
Definition fmod (x y : R) : R := x - y * IZR (Zfloor (x / y)).

(** [x / y] on floats. *)
Definition div (x y : R) : result R :=
  if Req_dec_T y 0 then Raise ZeroDivisionError else Ok (x / y).

(** [math.radians], [math.degrees] (and [numpy.radians]). *)
Definition radians (x : R) : R := x * (PI / 180).
Definition degrees (x : R) : R := x * (180 / PI).

(** [math.acos]: a domain error outside [[-1, 1]]. *)
Definition math_acos (x : R) : result R :=
  if leb (-1) x && leb x 1 then Ok (acos x) else Raise ValueError.

(** [l[i]] with Python's negative indices. *)
Definition getitem {A : Type} (l : list A) (i : Z) : result A :=
  let n := Z.of_nat (length l) in
  let j := if (i <? 0)%Z then (i + n)%Z else i in
  if (j <? 0)%Z || (n <=? j)%Z then Raise IndexError
  else match nth_error l (Z.to_nat j) with
       | Some a => Ok a
       | None => Raise IndexError
       end.

(** [range(start, stop, step)] for a positive step. *)
Definition range (start stop step : Z) : list Z :=
  map (fun k => (start + step * Z.of_nat k)%Z)
      (seq 0 (Z.to_nat ((stop - start + step - 1) / step))).

End Py.

Notation "x <- c ;; k" := (Py.bind c (fun x => k))
  (at level 61, c at next level, right associativity).
Notation "' pat <- c ;; k" := (Py.bind c (fun x => match x with pat => k end))
  (at level 61, pat pattern, c at next level, right associativity).

(* ===================================================================== *)
(** * The [datetime] values the program uses *)
(* ===================================================================== *)

Module Datetime.
Local Open Scope Z_scope.

Record datetime : Set := mkDatetime {
  toordinal : Z;      (* proleptic Gregorian ordinal, 0001-01-01 is 1 *)
  day_micros : Z      (* microsecond of the day *)
}.

Record timedelta : Set := mkTimedelta {
  days : Z;
  seconds : Z;
  microseconds : Z
}.

Definition is_leap (year : Z) : bool :=
  (year mod 4 =? 0) && (negb (year mod 100 =? 0) || (year mod 400 =? 0)).

Definition days_before_year (year : Z) : Z :=
  let y := year - 1 in y * 365 + y / 4 - y / 100 + y / 400.

Definition DAYS_IN_MONTH : list Z :=
  [31; 28; 31; 30; 31; 30; 31; 31; 30; 31; 30; 31].

(** [_DAYS_BEFORE_MONTH[month]] *)
Definition DAYS_BEFORE_MONTH (month : Z) : Z :=
  fold_right Z.add 0 (firstn (Z.to_nat (month - 1)) DAYS_IN_MONTH).

Definition days_before_month (year month : Z) : Z :=
  DAYS_BEFORE_MONTH month + (if (2 <? month) && is_leap year then 1 else 0).

Definition ymd2ord (year month day : Z) : Z :=
  days_before_year year + days_before_month year month + day.

Definition DI400Y : Z := days_before_year 401.
Definition DI100Y : Z := days_before_year 101.
Definition DI4Y : Z := days_before_year 5.

(** CPython's [_ord2ymd]. *)
Definition ord2ymd (ordinal : Z) : Z * Z * Z :=
  let n := ordinal - 1 in
  let n400 := n / DI400Y in
  let n := n mod DI400Y in
  let year := n400 * 400 + 1 in
  let n100 := n / DI100Y in
  let n := n mod DI100Y in
  let n4 := n / DI4Y in
  let n := n mod DI4Y in
  let n1 := n / 365 in
  let n := n mod 365 in
  let year := year + n100 * 100 + n4 * 4 + n1 in
  if (n1 =? 4) || (n100 =? 4) then (year - 1, 12, 31)
  else
    let leapyear := (n1 =? 3) && (negb (n4 =? 24) || (n100 =? 3)) in
    let month := Z.shiftr (n + 50) 5 in
    let preceding :=
      DAYS_BEFORE_MONTH month + (if (2 <? month) && leapyear then 1 else 0) in
    if n <? preceding then
      let month := month - 1 in
      let preceding :=
        preceding - (nth (Z.to_nat (month - 1)) DAYS_IN_MONTH 0
                     + (if (month =? 2) && leapyear then 1 else 0)) in
      (year, month, n - preceding + 1)
    else (year, month, n - preceding + 1).

Definition year (dt : datetime) : Z := fst (fst (ord2ymd (toordinal dt))).
Definition month (dt : datetime) : Z := snd (fst (ord2ymd (toordinal dt))).
Definition day (dt : datetime) : Z := snd (ord2ymd (toordinal dt)).
Definition hour (dt : datetime) : Z := day_micros dt / 3600000000.
Definition minute (dt : datetime) : Z := (day_micros dt / 60000000) mod 60.
Definition second (dt : datetime) : Z := (day_micros dt / 1000000) mod 60.

(** [datetime(year, month, day, hour, minute, second)] *)
Definition make (y m d hh mm ss : Z) : datetime :=
  {| toordinal := ymd2ord y m d;
     day_micros := ((hh * 60 + mm) * 60 + ss) * 1000000 |}.

(** [dt.timetuple().tm_yday] *)
Definition tm_yday (dt : datetime) : Z :=
  days_before_month (year dt) (month dt) + day dt.

Definition DAY_MICROS : Z := 86400000000.

(** [dt + timedelta(minutes=m)] *)
Definition add_minutes (dt : datetime) (m : Z) : datetime :=
  let total := day_micros dt + m * 60000000 in
  {| toordinal := toordinal dt + total / DAY_MICROS;
     day_micros := total mod DAY_MICROS |}.

(** [a - b], a normalised [timedelta]. *)
Definition sub (a b : datetime) : timedelta :=
  let us := day_micros a - day_micros b in
  let total_s := us / 1000000 in
  {| days := toordinal a - toordinal b + total_s / 86400;
     seconds := total_s mod 86400;
     microseconds := us mod 1000000 |}.

(** [td.total_seconds()] *)
Definition total_seconds (td : timedelta) : R :=
  (IZR ((days td * 86400 + seconds td) * 1000000 + microseconds td)
   / IZR 1000000)%R.

End Datetime.

(* ===================================================================== *)
(** * core/solar_model.py *)
(* ===================================================================== *)

Module SolarModel.
Import Py Datetime.

(** Equation of time, in minutes, for day of year [n]. *)
Definition equation_of_time (n : Z) : R :=
  let B := radians ((IZR n - 1) * 360.0 / 365.0) in
  229.18 * (0.000075
            + 0.001868 * cos B
            - 0.032077 * sin B
            - 0.014615 * cos (2 * B)
            - 0.040849 * sin (2 * B)).

Definition get_day_of_year (dt : datetime) : Z := tm_yday dt.

(** Solar declination, in degrees. *)
Definition solar_declination (n : Z) : R :=
  let angle_rad := radians ((360.0 / 365.0) * (284 + IZR n)) in
  23.45 * sin angle_rad.

Definition standard_meridian (utc_offset_hours : R) : R :=
  utc_offset_hours * 15.0.

(** Time correction, in minutes. *)
Definition solar_time_correction (longitude utc_offset_hours : R) (n : Z) : R :=
  let lambda_std := standard_meridian utc_offset_hours in
  let eot := equation_of_time n in
  4.0 * (longitude - lambda_std) + eot.

(** Solar time in fractional hours, wrapped to the day. *)
Definition calculate_solar_time (dt_local : datetime)
    (longitude utc_offset_hours : R) : R :=
  let n := get_day_of_year dt_local in
  let tc_minutes := solar_time_correction longitude utc_offset_hours n in
  let local_time_hours :=
    IZR (hour dt_local) + IZR (minute dt_local) / 60.0
    + IZR (second dt_local) / 3600.0 in
  let solar_time_hours := local_time_hours + tc_minutes / 60.0 in
  fmod solar_time_hours 24.

(** Hour angle, in degrees. *)
Definition hour_angle (solar_time_hours : R) : R :=
  15.0 * (solar_time_hours - 12.0).

(** Solar zenith and azimuth, in degrees.  Over the reals the afternoon
    azimuth [360 - azimuth_deg] is below 360 whenever [azimuth_deg] is
    positive; in binary64 the subtraction rounds to 360.0 for a small
    positive [azimuth_deg] ([Binary64.afternoon_azimuth]), and the
    [% 360.0] of [update] then commits 0.0.  Statements about the
    azimuth the code returns therefore use the closed range [[0, 360]]
    and keep the modulo of [update] explicit. *)
Definition zenith_and_azimuth (latitude declination hour_angle_deg : R)
  : result (R * R) :=
  let lat_rad := radians latitude in
  let dec_rad := radians declination in
  let h_rad := radians hour_angle_deg in
  let cos_theta_z :=
    sin lat_rad * sin dec_rad + cos lat_rad * cos dec_rad * cos h_rad in
  let cos_theta_z := max (-1.0) (min 1.0 cos_theta_z) in
  zenith_rad <- math_acos cos_theta_z ;;
  let zenith_deg := degrees zenith_rad in
  let elevation_rad := PI / 2 - zenith_rad in
  let sin_theta_z := sin zenith_rad in
  if gtb sin_theta_z 0.001 then
    cos_gamma <- div (sin dec_rad * cos lat_rad
                      - cos dec_rad * sin lat_rad * cos h_rad) sin_theta_z ;;
    let cos_gamma := max (-1.0) (min 1.0 cos_gamma) in
    azimuth_rad <- math_acos cos_gamma ;;
    let azimuth_deg := degrees azimuth_rad in
    let azimuth_deg :=
      if gtb hour_angle_deg 0 then 360 - azimuth_deg else azimuth_deg in
    Ok (zenith_deg, azimuth_deg)
  else
    Ok (zenith_deg, 0.0).

(** The dictionary returned by [get_target_angles]. *)
Record TargetAngles : Type := mkTargetAngles {
  tilt : R;
  azimuth : R;
  zenith : R;
  declination : R;
  solar_time : R;
  hour_angle_of : R
}.

Definition get_target_angles (dt_local : datetime)
    (latitude longitude utc_offset_hours : R) : result TargetAngles :=
  let n := get_day_of_year dt_local in
  let declination := solar_declination n in
  let solar_time := calculate_solar_time dt_local longitude utc_offset_hours in
  let h_deg := hour_angle solar_time in
  '(zenith, azimuth) <- zenith_and_azimuth latitude declination h_deg ;;
  let tilt := zenith in
  Ok {| tilt := tilt;
        azimuth := azimuth;
        zenith := zenith;
        declination := declination;
        solar_time := solar_time;
        hour_angle_of := h_deg |}.

End SolarModel.

(* ===================================================================== *)
(** * core/tracking_logic.py *)
(* ===================================================================== *)

Module TrackingLogic.
Import Py Datetime.

(** The attributes of a [DualAxisTracker] object. *)
Record DualAxisTracker : Type := mkTracker {
  latitude : R;
  longitude : R;
  utc_offset : R;
  current_tilt : R;
  current_azimuth : R;
  last_update_time : option datetime;
  is_winter_mode_active : bool
}.

(** [DualAxisTracker.__init__] *)
Definition init (latitude longitude utc_offset_hours : R) : DualAxisTracker :=
  {| latitude := latitude;
     longitude := longitude;
     utc_offset := utc_offset_hours;
     current_tilt := 0.0;
     current_azimuth := 0.0;
     last_update_time := None;
     is_winter_mode_active := false |}.

(** The values of the ["action"] entry. *)
Inductive Action : Set := skip | track | winter_optimized | stow.

(** The dictionary returned by [update].  The skip dictionary has no
    ["zenith"] and ["solar_time"] entries; the other one has no
    ["reason"]. *)
Record Command : Type := mkCommand {
  action : Action;
  reason : option string;
  tilt : R;
  azimuth : R;
  winter_mode : bool;
  zenith : option R;
  solar_time : option R
}.

Definition default_min_update_interval_minutes : Z := 10.

Definition set_winter (self : DualAxisTracker) (b : bool) : DualAxisTracker :=
  {| latitude := latitude self;
     longitude := longitude self;
     utc_offset := utc_offset self;
     current_tilt := current_tilt self;
     current_azimuth := current_azimuth self;
     last_update_time := last_update_time self;
     is_winter_mode_active := b |}.

(** The test of the update-interval gate. *)
Definition interval_not_reached (self : DualAxisTracker) (dt_local : datetime)
    (update_interval : Z) : bool :=
  match last_update_time self with
  | Some last =>
      let time_diff := total_seconds (sub dt_local last) / 60.0 in
      ltb time_diff (IZR update_interval)
  | None => false
  end.

(** [DualAxisTracker.update]: the tracker after the call and the
    returned command.  The only statement that could raise is the call of
    [get_target_angles]; it never does ([update_cases] below), so the
    tracker an exception would leave behind is not represented. *)
Definition update (self : DualAxisTracker) (dt_local : datetime)
    (temperature_c : R) (snow_detected : bool)
    (min_update_interval_minutes : Z)
  : result (DualAxisTracker * Command) :=
  (* Winter mode check *)
  let self := set_winter self (ltb temperature_c 2.0 && snow_detected) in
  (* Determine tracking frequency based on mode *)
  let update_interval :=
    if is_winter_mode_active self then 60%Z else min_update_interval_minutes in
  (* Check if we need to update based on time *)
  if interval_not_reached self dt_local update_interval then
    Ok (self, {| action := skip;
                 reason := Some "Update interval not reached"%string;
                 tilt := current_tilt self;
                 azimuth := current_azimuth self;
                 winter_mode := is_winter_mode_active self;
                 zenith := None;
                 solar_time := None |})
  else
    (* Calculate optimal angles for current time *)
    optimal <- SolarModel.get_target_angles dt_local (latitude self)
                 (longitude self) (utc_offset self) ;;
    let target_tilt := SolarModel.tilt optimal in
    let target_azimuth := SolarModel.azimuth optimal in
    (* Apply Winter Mode Optimization *)
    let '(target_tilt, target_azimuth, action) :=
      if is_winter_mode_active self
      then (max target_tilt 65.0, current_azimuth self, winter_optimized)
      else (target_tilt, target_azimuth, track) in
    (* Night mode *)
    let '(target_tilt, target_azimuth, action) :=
      if gtb (SolarModel.zenith optimal) 90.0
      then ((if is_winter_mode_active self then 65.0 else 0.0), 180.0, stow)
      else (target_tilt, target_azimuth, action) in
    (* Limit constraints *)
    let target_tilt := max 0.0 (min 90.0 target_tilt) in
    let target_azimuth := fmod target_azimuth 360.0 in
    (* Update state *)
    let self :=
      {| latitude := latitude self;
         longitude := longitude self;
         utc_offset := utc_offset self;
         current_tilt := target_tilt;
         current_azimuth := target_azimuth;
         last_update_time := Some dt_local;
         is_winter_mode_active := is_winter_mode_active self |} in
    Ok (self, {| action := action;
                 reason := None;
                 tilt := current_tilt self;
                 azimuth := current_azimuth self;
                 winter_mode := is_winter_mode_active self;
                 zenith := Some (SolarModel.zenith optimal);
                 solar_time := Some (SolarModel.solar_time optimal) |}).

End TrackingLogic.

(* ===================================================================== *)
(** * core/ai_predictive.py *)
(* ===================================================================== *)

Module AiPredictive.
Import Py Datetime.

Section Regressor.

(** The random-forest regressor is code of scikit-learn: a fitted
    model is an abstract value, [forest_predict] is what
    [model.predict([[hour, temp, cloud_cover, zenith]])[0]] returns,
    [unfitted] is the estimator built by [__init__] and
    [synthetic] the one fitted by [train_synthetic] (its data and
    seeds are fixed).  A value of [Forest] is a model fitted on the four
    feature columns [predict] passes, as [train_synthetic] fits it: on a
    model that [train] has fitted on rows of another width (its
    docstring lists five columns) scikit-learn's [predict] raises
    [ValueError], and such a predictor is outside this model.  The
    statements about [optimize_movement] are about calls whose
    prediction returns. *)
Variable Forest : Type.
Variable forest_predict : Forest -> R -> R -> R -> R -> R.
Variable unfitted : Forest.
Variable synthetic : Forest.

Record IrradiancePredictor : Type := mkPredictor {
  model : Forest;
  is_trained : bool
}.

Definition new_predictor : IrradiancePredictor :=
  {| model := unfitted; is_trained := false |}.

(** [train]: [fitted] is the model after [self.model.fit(X, y)]. *)
Definition train (self : IrradiancePredictor) (fitted : Forest)
  : IrradiancePredictor :=
  {| model := fitted; is_trained := true |}.

Definition train_synthetic (self : IrradiancePredictor)
  : IrradiancePredictor :=
  {| model := synthetic; is_trained := true |}.

(** [predict]: trains on the synthetic data first when needed. *)
Definition predict (self : IrradiancePredictor)
    (hour temp cloud_cover zenith_angle : R)
  : IrradiancePredictor * R :=
  let self := if negb (is_trained self) then train_synthetic self else self in
  (self, forest_predict (model self) hour temp cloud_cover zenith_angle).

Record PredictiveController : Type := mkController {
  predictor : IrradiancePredictor;
  motor_energy_cost : R
}.

Definition default_motor_energy_cost_wh : R := 2.5.
Definition default_area : R := 2.0.
Definition default_efficiency : R := 0.2.

(** [PredictiveController.__init__]; [None] is the omitted argument. *)
Definition new_controller (motor_energy_cost_wh : option R)
  : PredictiveController :=
  {| predictor := new_predictor;
     motor_energy_cost :=
       match motor_energy_cost_wh with
       | Some cost => cost
       | None => default_motor_energy_cost_wh
       end |}.

(** The diagnostic text: which of the two messages, and the numbers
    it prints. *)
Inductive Reason : Type :=
| GainBelowMotorCost (energy_gain motor_cost : R)
| GainJustifiesMove (energy_gain : R).

(** The dictionary returned by [optimize_movement]. *)
Record MoveDecision : Type := mkDecision {
  move_approved : bool;
  reason : Reason;
  predicted_irradiance : R;
  final_tilt : R;
  final_azimuth : R
}.

(** The local variables of [optimize_movement] after the prediction. *)
Record Energies : Type := mkEnergies {
  expected_power_moving : R;
  incidence_cos : R;
  expected_power_staying : R;
  expected_energy_moving_wh : R;
  expected_energy_staying_wh : R;
  energy_gain : R
}.

Definition energies (predicted_irradiance current_tilt target_tilt
    current_azimuth target_azimuth area efficiency : R) : Energies :=
  let expected_power_moving := predicted_irradiance * area * efficiency in
  let tilt_diff_rad := radians (target_tilt - current_tilt) in
  let az_diff_rad := radians (target_azimuth - current_azimuth) in
  let incidence_cos := max 0.0 (cos tilt_diff_rad * cos az_diff_rad) in
  let expected_power_staying :=
    predicted_irradiance * area * efficiency * incidence_cos in
  let time_delta_h := 10.0 / 60.0 in
  let expected_energy_moving_wh := expected_power_moving * time_delta_h in
  let expected_energy_staying_wh := expected_power_staying * time_delta_h in
  let energy_gain := expected_energy_moving_wh - expected_energy_staying_wh in
  {| expected_power_moving := expected_power_moving;
     incidence_cos := incidence_cos;
     expected_power_staying := expected_power_staying;
     expected_energy_moving_wh := expected_energy_moving_wh;
     expected_energy_staying_wh := expected_energy_staying_wh;
     energy_gain := energy_gain |}.

(** The irradiance the controller predicts for a call. *)
Definition prediction (self : PredictiveController) (dt_local : datetime)
    (temp cloud_cover zenith : R) : IrradiancePredictor * R :=
  let hour := IZR (hour dt_local) + IZR (minute dt_local) / 60.0 in
  predict (predictor self) hour temp cloud_cover zenith.

(** [PredictiveController.optimize_movement]: the controller after the
    call (its predictor may have trained itself) and the decision. *)
Definition optimize_movement (self : PredictiveController)
    (current_tilt target_tilt current_azimuth target_azimuth : R)
    (dt_local : datetime) (temp cloud_cover zenith area efficiency : R)
  : PredictiveController * MoveDecision :=
  let '(predictor', predicted_irradiance) :=
    prediction self dt_local temp cloud_cover zenith in
  let self :=
    {| predictor := predictor';
       motor_energy_cost := motor_energy_cost self |} in
  let e := energies predicted_irradiance current_tilt target_tilt
             current_azimuth target_azimuth area efficiency in
  if leb (energy_gain e) (motor_energy_cost self) then
    (self, {| move_approved := false;
              reason := GainBelowMotorCost (energy_gain e)
                          (motor_energy_cost self);
              predicted_irradiance := predicted_irradiance;
              final_tilt := current_tilt;
              final_azimuth := current_azimuth |})
  else
    (self, {| move_approved := true;
              reason := GainJustifiesMove (energy_gain e);
              predicted_irradiance := predicted_irradiance;
              final_tilt := target_tilt;
              final_azimuth := target_azimuth |}).

End Regressor.

Arguments mkPredictor {Forest} _ _.
Arguments model {Forest} _.
Arguments is_trained {Forest} _.
Arguments mkController {Forest} _ _.
Arguments predictor {Forest} _.
Arguments motor_energy_cost {Forest} _.

End AiPredictive.

(* ===================================================================== *)
(** * simulator.py *)
(* ===================================================================== *)

Module Simulator.
Import Py Datetime.

(** One row of the returned data frame. *)
Record Row : Type := mkRow {
  Time : datetime;
  Hour : R;
  Zenith : R;
  Opt_Tilt : R;
  Opt_Azimuth : R;
  Dual_Tilt : R;
  Dual_Azimuth : R;
  Is_Winter : bool;
  Temp_C : R;
  Irradiance_W_m2 : R;
  Power_Dual : R;
  Power_Single : R;
  Power_Fixed : R
}.

Definition default_fixed_tilt : R := 30.0.
Definition default_fixed_azimuth : R := 180.0.

(** The body of the loop for one value of [minutes]. *)
Definition simulate_step (lat lon utc_offset : R) (temps : list R)
    (snow_detected : bool) (fixed_tilt fixed_azimuth : R)
    (start_of_day : datetime) (tracker : TrackingLogic.DualAxisTracker)
    (minutes : Z) : result (TrackingLogic.DualAxisTracker * Row) :=
  let current_time := add_minutes start_of_day minutes in
  let hour_frac := IZR (hour current_time) + IZR (minute current_time) / 60.0 in
  let hour_int := hour current_time in
  temp_now <- (if (hour_int <? Z.of_nat (length temps))%Z
               then getitem temps hour_int
               else getitem temps (-1)) ;;
  (* 1. Optimal geometry *)
  optimal <- SolarModel.get_target_angles current_time lat lon utc_offset ;;
  let zenith := SolarModel.zenith optimal in
  let irradiance_direct :=
    if ltb zenith 90 then 1000 * cos (radians zenith) else 0.0 in
  (* 2. Dual-axis tracking logic *)
  '(tracker, tracker_state) <-
     TrackingLogic.update tracker current_time temp_now snow_detected 10 ;;
  let dual_tilt := TrackingLogic.tilt tracker_state in
  let dual_azimuth := TrackingLogic.azimuth tracker_state in
  let is_winter := TrackingLogic.winter_mode tracker_state in
  let dual_inc_cos :=
    max 0.0 (cos (radians (SolarModel.tilt optimal - dual_tilt))
             * cos (radians (SolarModel.azimuth optimal - dual_azimuth))) in
  let dual_power := irradiance_direct * dual_inc_cos in
  (* 3. Fixed-axis logic *)
  let fixed_inc_cos :=
    max 0.0 (cos (radians (SolarModel.tilt optimal - fixed_tilt))
             * cos (radians (SolarModel.azimuth optimal - fixed_azimuth))) in
  let fixed_power := irradiance_direct * fixed_inc_cos in
  (* 4. Single-axis logic *)
  let single_inc_cos :=
    max 0.0 (cos (radians (SolarModel.tilt optimal - fixed_tilt))) in
  let single_power := irradiance_direct * single_inc_cos in
  Ok (tracker,
      {| Time := current_time;
         Hour := hour_frac;
         Zenith := zenith;
         Opt_Tilt := SolarModel.tilt optimal;
         Opt_Azimuth := SolarModel.azimuth optimal;
         Dual_Tilt := dual_tilt;
         Dual_Azimuth := dual_azimuth;
         Is_Winter := is_winter;
         Temp_C := temp_now;
         Irradiance_W_m2 := irradiance_direct;
         Power_Dual := dual_power;
         Power_Single := single_power;
         Power_Fixed := fixed_power |}).

(** The [for] loop: the tracker and the list of records are carried from
    one value of [minutes] to the next; an exception ends the run. *)
Fixpoint simulate_loop (lat lon utc_offset : R) (temps : list R)
    (snow_detected : bool) (fixed_tilt fixed_azimuth : R)
    (start_of_day : datetime) (ticks : list Z)
    (tracker : TrackingLogic.DualAxisTracker) (records : list Row)
  : result (TrackingLogic.DualAxisTracker * list Row) :=
  match ticks with
  | [] => Ok (tracker, records)
  | minutes :: ticks' =>
      '(tracker, row) <- simulate_step lat lon utc_offset temps snow_detected
                           fixed_tilt fixed_azimuth start_of_day tracker
                           minutes ;;
      simulate_loop lat lon utc_offset temps snow_detected fixed_tilt
        fixed_azimuth start_of_day ticks' tracker (records ++ [row])
  end.

(** [simulate_day]: the rows of the data frame, in order. *)
Definition simulate_day (date_obj : datetime) (lat lon utc_offset : R)
    (temps : list R) (snow_detected : bool) (fixed_tilt fixed_azimuth : R)
  : result (list Row) :=
  let tracker := TrackingLogic.init lat lon utc_offset in
  let records := [] in
  let start_of_day :=
    make (year date_obj) (month date_obj) (day date_obj) 0 0 0 in
  '(_, records) <- simulate_loop lat lon utc_offset temps snow_detected
                     fixed_tilt fixed_azimuth start_of_day
                     (range 0 (24 * 60) 10) tracker records ;;
  Ok records.

End Simulator.

(* ===================================================================== *)
(** * app.py: the energy integral of the dashboard *)
(* ===================================================================== *)

Module App.

(** [column.sum()] *)
Definition sum (column : list R) : R := fold_right Rplus 0 column.

(** [df[col].sum() * (10 / 60) / 1000.0], in kWh. *)
Definition energy_kwh (column : list R) : R :=
  sum column * (10 / 60) / 1000.0.

(** The [Power_*_W] columns: power scaled by panel area and efficiency. *)
Definition scaled (power : Simulator.Row -> R) (panel_area efficiency : R)
    (df : list Simulator.Row) : list R :=
  map (fun r => power r * panel_area * efficiency) df.

Definition energy_dual (df : list Simulator.Row) (panel_area efficiency : R) : R :=
  energy_kwh (scaled Simulator.Power_Dual panel_area efficiency df).

Definition energy_fixed (df : list Simulator.Row) (panel_area efficiency : R) : R :=
  energy_kwh (scaled Simulator.Power_Fixed panel_area efficiency df).

Definition energy_single (df : list Simulator.Row) (panel_area efficiency : R) : R :=
  energy_kwh (scaled Simulator.Power_Single panel_area efficiency df).

(** The percentage gains of the summary metrics; the division is guarded
    by the test on the reference energy. *)
Definition gain_vs_fixed (df : list Simulator.Row) (panel_area efficiency : R) : R :=
  let energy_dual := energy_dual df panel_area efficiency in
  let energy_fixed := energy_fixed df panel_area efficiency in
  if Py.gtb energy_fixed 0
  then (energy_dual - energy_fixed) / energy_fixed * 100
  else 0.

Definition gain_vs_single (df : list Simulator.Row) (panel_area efficiency : R) : R :=
  let energy_dual := energy_dual df panel_area efficiency in
  let energy_single := energy_single df panel_area efficiency in
  if Py.gtb energy_single 0
  then (energy_dual - energy_single) / energy_single * 100
  else 0.

(** [co2_saved = energy_dual * 0.4] *)
Definition co2_saved (df : list Simulator.Row) (panel_area efficiency : R) : R :=
  energy_dual df panel_area efficiency * 0.4.

End App.

(* ===================================================================== *)
(** * The solar time in binary64 arithmetic *)
(* ===================================================================== *)

(** [calculate_solar_time] once more, with Python's [float] as the IEEE 754
    binary64 numbers of the kernel, every operation rounded to nearest as
    CPython rounds it.  The decimal constants are read to the nearest
    binary64 number, as Python reads them. *)

#[local] Set Warnings "-inexact-float".

Module Binary64.
Import Datetime.
Local Open Scope float_scope.

(** [float(z)] for an [int] below 2^53 in magnitude. *)
Definition of_int (z : Z) : float :=
  if (z <? 0)%Z then - of_uint63 (Uint63.of_Z (- z))
  else of_uint63 (Uint63.of_Z z).

(** [math.cos] and [math.sin] call the C library, whose results are not
    fixed bit for bit by IEEE 754 except at zero: cos(+-0) = 1 and
    sin(+-0) = +-0.  The model has a value there and none elsewhere. *)
Definition libm_cos (x : float) : option float :=
  if x =? 0 then Some 1 else None.
Definition libm_sin (x : float) : option float :=
  if x =? 0 then Some x else None.

(** [math.radians]: [x * (pi / 180)] with the binary64 [pi]. *)
Definition degToRad : float := 0x1.921fb54442d18p+1 / 180.
Definition radians (x : float) : float := x * degToRad.

(** C's [fmod]: the exact remainder of the truncated division, with the
    sign of [x]. *)
Definition c_fmod (x y : float) : float :=
  match Prim2SF x, Prim2SF y with
  | S754_nan, _ => nan
  | _, S754_nan => nan
  | S754_infinity _, _ => nan
  | _, S754_zero _ => nan
  | S754_zero _, _ => x
  | S754_finite _ _ _, S754_infinity _ => x
  | S754_finite sx mx ex, S754_finite _ my ey =>
      let e := Z.min ex ey in
      let X := (Zpos mx * 2 ^ (ex - e))%Z in
      let Y := (Zpos my * 2 ^ (ey - e))%Z in
      let r := (X mod Y)%Z in
      let v := Z.ldexp (of_uint63 (Uint63.of_Z r)) e in
      if sx then - v else v
  end.

(** [vx % wx] on floats for a non-zero [wx] (CPython's [float_rem]): the
    [fmod] remainder, moved by [wx] when its sign differs from the sign
    of [wx]. *)
Definition float_rem (vx wx : float) : float :=
  let m := c_fmod vx wx in
  if negb (m =? 0) then
    if xorb (wx <? 0) (m <? 0) then m + wx else m
  else if get_sign wx then - 0 else 0.

Definition equation_of_time (n : Z) : option float :=
  let B := radians (of_int (n - 1) * 360.0 / 365.0) in
  match libm_cos B, libm_sin B, libm_cos (2 * B), libm_sin (2 * B) with
  | Some cos_B, Some sin_B, Some cos_2B, Some sin_2B =>
      Some (229.18 * (0.000075
                      + 0.001868 * cos_B
                      - 0.032077 * sin_B
                      - 0.014615 * cos_2B
                      - 0.040849 * sin_2B))
  | _, _, _, _ => None
  end.

Definition standard_meridian (utc_offset_hours : float) : float :=
  utc_offset_hours * 15.0.

Definition solar_time_correction (longitude utc_offset_hours : float)
    (n : Z) : option float :=
  let lambda_std := standard_meridian utc_offset_hours in
  match equation_of_time n with
  | Some eot => Some (4.0 * (longitude - lambda_std) + eot)
  | None => None
  end.

Definition calculate_solar_time (dt_local : datetime)
    (longitude utc_offset_hours : float) : option float :=
  let n := tm_yday dt_local in
  match solar_time_correction longitude utc_offset_hours n with
  | Some tc_minutes =>
      let local_time_hours :=
        of_int (hour dt_local) + of_int (minute dt_local) / 60.0
        + of_int (second dt_local) / 3600.0 in
      let solar_time_hours := local_time_hours + tc_minutes / 60.0 in
      Some (float_rem solar_time_hours 24)
  | None => None
  end.

(** The last operation of [zenith_and_azimuth] on an afternoon azimuth,
    [azimuth_deg = 360 - azimuth_deg], and the wrap of [update],
    [target_azimuth % 360.0]. *)
Definition afternoon_azimuth (azimuth_deg : float) : float :=
  360 - azimuth_deg.
Definition wrap_azimuth (target_azimuth : float) : float :=
  float_rem target_azimuth 360.0.

End Binary64.

(* ===================================================================== *)
(** * Auxiliary definitions used in the statements *)
(* ===================================================================== *)

Module Aux.
Import Py.

(** The dot product of the sun vector and the local vertical, before
    the clamp of [zenith_and_azimuth]. *)
Definition cos_zenith (latitude declination hour_angle_deg : R) : R :=
  sin (radians latitude) * sin (radians declination)
  + cos (radians latitude) * cos (radians declination)
    * cos (radians hour_angle_deg).

(** The numerator of the azimuth cosine. *)
Definition azimuth_numerator (latitude declination hour_angle_deg : R) : R :=
  sin (radians declination) * cos (radians latitude)
  - cos (radians declination) * sin (radians latitude)
    * cos (radians hour_angle_deg).

Definition zenith_rad_of (latitude declination hour_angle_deg : R) : R :=
  acos (cos_zenith latitude declination hour_angle_deg).

(** The position of a [datetime] on the time line, in microseconds. *)
Definition instant (dt : Datetime.datetime) : Z :=
  (Datetime.toordinal dt * Datetime.DAY_MICROS + Datetime.day_micros dt)%Z.

(** The winter-mode test of [update]. *)
Definition winter (temperature_c : R) (snow_detected : bool) : bool :=
  ltb temperature_c 2.0 && snow_detected.

(** The interval the gate of [update] compares with. *)
Definition effective_interval (temperature_c : R) (snow_detected : bool)
    (min_update_interval_minutes : Z) : Z :=
  if winter temperature_c snow_detected then 60%Z
  else min_update_interval_minutes.



(** The clear-sky irradiance [simulate_day] computes for a zenith. *)
Definition irradiance_direct (zenith : R) : R :=
  if ltb zenith 90 then 1000 * cos (radians zenith) else 0.0.

(** The incidence cosine [simulate_day] computes for a panel at
    ([tilt], [azimuth]) and the optimal angles [opt]. *)
Definition incidence (opt : SolarModel.TargetAngles) (tilt azimuth : R) : R :=
  max 0.0 (cos (radians (SolarModel.tilt opt - tilt))
           * cos (radians (SolarModel.azimuth opt - azimuth))).

(** Consecutive ticks are at least [gap] minutes apart. *)
Fixpoint spaced (gap : Z) (ticks : list Z) : Prop :=
  match ticks with
  | [] => True
  | m :: rest => Forall (fun m' => (m + gap <= m')%Z) rest /\ spaced gap rest
  end.




(** What the loop of [simulate_day] keeps true of the tracker in a run
    without winter mode: the tracker has the simulator's location, and the
    coming ticks are at least 10 minutes after its last update. *)
Definition tracking_inv (lat lon utc_offset : R)
    (start_of_day : Datetime.datetime) (ticks : list Z)
    (tracker : TrackingLogic.DualAxisTracker) : Prop :=
  spaced 10 ticks
  /\ TrackingLogic.latitude tracker = lat
  /\ TrackingLogic.longitude tracker = lon
  /\ TrackingLogic.utc_offset tracker = utc_offset
  /\ (TrackingLogic.last_update_time tracker = None
      \/ exists m0,
           TrackingLogic.last_update_time tracker
           = Some (Datetime.add_minutes start_of_day m0)
           /\ Forall (fun m => (m0 + 10 <= m)%Z) ticks).

(** Each row of such a run: the tracker is aligned with the sun whenever
    there is irradiance. *)
Definition tracking_row (r : Simulator.Row) : Prop :=
  Simulator.Power_Dual r = Simulator.Irradiance_W_m2 r
  /\ Simulator.Power_Fixed r <= Simulator.Power_Dual r.

(** The tracker of a winter run on the equator at longitude 15: its
    azimuth is the stow azimuth from the first tick on. *)
Definition frozen_inv (ticks : list Z)
    (tracker : TrackingLogic.DualAxisTracker) : Prop :=
  TrackingLogic.latitude tracker = 0
  /\ TrackingLogic.longitude tracker = 15
  /\ TrackingLogic.utc_offset tracker = 0
  /\ 0 <= TrackingLogic.current_tilt tracker <= 90
  /\ Forall (fun m => (0 <= m < 1440)%Z) ticks
  /\ (TrackingLogic.current_azimuth tracker = 180
      \/ (TrackingLogic.last_update_time tracker = None
          /\ exists rest, ticks = 0%Z :: rest)).

(** The row of tick [m] of that run: no dual-axis power; fixed-mount
    power at 08:00. *)
Definition frozen_row (m : Z) (r : Simulator.Row) : Prop :=
  Simulator.Power_Dual r = 0
  /\ 0 <= Simulator.Power_Fixed r
  /\ (m = 480%Z -> 0 < Simulator.Power_Fixed r /\ Simulator.Zenith r < 90).

(** The solar time of tick [m] on day 81 at longitude 15 and UTC offset
    0, before the wrap. *)
Definition equinox_solar_hours (m : Z) : R :=
  IZR m / 60 + 1 + SolarModel.equation_of_time 81 / 60.

(** The [start_of_day] of [simulate_day]: midnight of the date of
    [date_obj]. *)
Definition start_of_day (date_obj : Datetime.datetime) : Datetime.datetime :=
  Datetime.make (Datetime.year date_obj) (Datetime.month date_obj)
    (Datetime.day date_obj) 0 0 0.

(** The temperature [simulate_day] reads at minute [m] of the day: the
    entry of the hour, or the last entry when the list is too short. *)
Definition temperature_at (temps : list R) (m : Z) : R :=
  if (m / 60 <? Z.of_nat (length temps))%Z
  then nth (Z.to_nat (m / 60)) temps 0
  else last temps 0.

(** The tilt [update] commits in winter mode for a sun at [zenith]: the
    winter override, the night override and the limit clamp, in the
    order of the code. *)
Definition winter_tilt (zenith : R) : R :=
  max 0.0 (min 90.0 (if gtb zenith 90.0 then 65.0 else max zenith 65.0)).

(** The row [simulate_day] builds at minute [m] from the target angles
    [opt] and the command [cmd] of the tracker. *)
Definition row_of (temps : list R) (fixed_tilt fixed_azimuth : R)
    (start : Datetime.datetime) (m : Z) (opt : SolarModel.TargetAngles)
    (cmd : TrackingLogic.Command) : Simulator.Row :=
  let current_time := Datetime.add_minutes start m in
  {| Simulator.Time := current_time;
     Simulator.Hour := IZR (Datetime.hour current_time)
                       + IZR (Datetime.minute current_time) / 60.0;
     Simulator.Zenith := SolarModel.zenith opt;
     Simulator.Opt_Tilt := SolarModel.tilt opt;
     Simulator.Opt_Azimuth := SolarModel.azimuth opt;
     Simulator.Dual_Tilt := TrackingLogic.tilt cmd;
     Simulator.Dual_Azimuth := TrackingLogic.azimuth cmd;
     Simulator.Is_Winter := TrackingLogic.winter_mode cmd;
     Simulator.Temp_C := temperature_at temps m;
     Simulator.Irradiance_W_m2 := irradiance_direct (SolarModel.zenith opt);
     Simulator.Power_Dual :=
       irradiance_direct (SolarModel.zenith opt)
       * incidence opt (TrackingLogic.tilt cmd) (TrackingLogic.azimuth cmd);
     Simulator.Power_Single :=
       irradiance_direct (SolarModel.zenith opt)
       * max 0.0 (cos (radians (SolarModel.tilt opt - fixed_tilt)));
     Simulator.Power_Fixed :=
       irradiance_direct (SolarModel.zenith opt)
       * incidence opt fixed_tilt fixed_azimuth |}.

(** The rows of a day, tick by tick: each is built from the target
    angles of its instant and a command whose winter mode is the winter
    test of its temperature. *)
Definition day_row (lat lon utc_offset : R) (temps : list R)
    (snow_detected : bool) (fixed_tilt fixed_azimuth : R)
    (start : Datetime.datetime) (m : Z) (r : Simulator.Row) : Prop :=
  (0 <= m < 1440)%Z
  /\ exists opt cmd,
       SolarModel.get_target_angles (Datetime.add_minutes start m) lat lon
         utc_offset = Ok opt
       /\ TrackingLogic.winter_mode cmd
          = winter (temperature_at temps m) snow_detected
       /\ r = row_of temps fixed_tilt fixed_azimuth start m opt cmd.

(** The tracker of a winter day between two ticks: before the first tick
    it has never been updated; later its last update was at the start of
    the hour of the previous tick, with the winter tilt of that
    instant. *)
Definition hourly_inv (lat lon utc_offset : R) (start : Datetime.datetime)
    (ticks : list Z) (tracker : TrackingLogic.DualAxisTracker) : Prop :=
  TrackingLogic.latitude tracker = lat
  /\ TrackingLogic.longitude tracker = lon
  /\ TrackingLogic.utc_offset tracker = utc_offset
  /\ exists a n,
       ticks = map (fun k => (0 + 10 * Z.of_nat k)%Z) (seq a n)
       /\ (a + n <= 144)%nat
       /\ ((a = 0%nat /\ TrackingLogic.last_update_time tracker = None)
           \/ ((0 < a)%nat
               /\ exists opt,
                    let m0 := (60 * ((10 * Z.of_nat (a - 1)) / 60))%Z in
                    TrackingLogic.last_update_time tracker
                    = Some (Datetime.add_minutes start m0)
                    /\ SolarModel.get_target_angles
                         (Datetime.add_minutes start m0) lat lon utc_offset
                       = Ok opt
                    /\ TrackingLogic.current_tilt tracker
                       = winter_tilt (SolarModel.zenith opt))).

End Aux.

(* ===================================================================== *)
(** * Concrete inputs used by the examples *)
(* ===================================================================== *)

Module Scenario.
Import Datetime.

(** A tracker in Los Angeles that last moved at noon of 2025-01-15, not
    in winter mode, and a call five minutes later. *)
Definition noon : datetime := make 2025 1 15 12 0 0.
Definition five_past_noon : datetime := make 2025 1 15 12 5 0.
Definition moved_at_noon : TrackingLogic.DualAxisTracker :=
  {| TrackingLogic.latitude := 35;
     TrackingLogic.longitude := -118;
     TrackingLogic.utc_offset := -8;
     TrackingLogic.current_tilt := 30;
     TrackingLogic.current_azimuth := 180;
     TrackingLogic.last_update_time := Some noon;
     TrackingLogic.is_winter_mode_active := false |}.

(** The equator at longitude 15 degrees east on 2025-03-22 (day 81 of
    the year, declination zero), read in UTC, with -5 degrees all day
    and snow detected. *)
Definition equinox : datetime := make 2025 3 22 0 0 0.
Definition equinox_start : datetime :=
  make (year equinox) (month equinox) (day equinox) 0 0 0.
Definition equator_tracker : TrackingLogic.DualAxisTracker :=
  TrackingLogic.init 0 15 0.
Definition freezing : list R := repeat (-5) 24.

(** A regressor that predicts the constant it was fitted on. *)
Definition constant_predict (f : R) (_ _ _ _ : R) : R := f.
Definition controller_600 : AiPredictive.PredictiveController R :=
  AiPredictive.mkController (AiPredictive.mkPredictor 600 true) 2.5.
Definition solstice_noon : datetime := make 2025 6 21 12 0 0.

(** Midnight of 2025-01-01, and the binary64 longitude next below a
    quarter of the equation of time of that day, sign changed. *)
Definition new_year : datetime := make 2025 1 1 0 0 0.
Definition longitude_new_year : float := 0x1.73bbcef8a110fp-1%float.



End Scenario.

(* ===================================================================== *)
(** * Facts about the Python primitives *)
(* ===================================================================== *)

Section PrimitiveFacts.
Import Py.

Lemma ltb_true (x y : R) : ltb x y = true <-> x < y.
Proof. unfold ltb; destruct (Rlt_dec x y); split; (lra || discriminate || auto). Qed.

Lemma ltb_false (x y : R) : ltb x y = false <-> y <= x.
Proof. unfold ltb; destruct (Rlt_dec x y); split; (lra || discriminate || auto). Qed.

Lemma leb_true (x y : R) : leb x y = true <-> x <= y.
Proof. unfold leb; destruct (Rle_dec x y); split; (lra || discriminate || auto). Qed.

Lemma leb_false (x y : R) : leb x y = false <-> y < x.
Proof. unfold leb; destruct (Rle_dec x y); split; (lra || discriminate || auto). Qed.

Lemma gtb_true (x y : R) : gtb x y = true <-> y < x.
Proof. unfold gtb; apply ltb_true. Qed.

Lemma gtb_false (x y : R) : gtb x y = false <-> x <= y.
Proof. unfold gtb; apply ltb_false. Qed.

Lemma max_spec (a b : R) : (a < b /\ max a b = b) \/ (b <= a /\ max a b = a).
Proof.
  unfold max; destruct (gtb b a) eqn:E.
  - left; apply gtb_true in E; auto.
  - right; apply gtb_false in E; auto.
Qed.

Lemma min_spec (a b : R) : (b < a /\ min a b = b) \/ (a <= b /\ min a b = a).
Proof.
  unfold min; destruct (ltb b a) eqn:E.
  - left; apply ltb_true in E; auto.
  - right; apply ltb_false in E; auto.
Qed.

Lemma max_Rmax (a b : R) : max a b = Rmax a b.
Proof.
  destruct (max_spec a b) as [[H ->]|[H ->]].
  - symmetry; apply Rmax_right; lra.
  - symmetry; apply Rmax_left; lra.
Qed.

(** [max(lo, min(hi, x))] lies between the two bounds. *)
Lemma clamp_range (lo hi x : R) :
  lo <= hi -> lo <= max lo (min hi x) <= hi.
Proof.
  intro Hle.
  destruct (min_spec hi x) as [[H1 E1]|[H1 E1]];
    destruct (max_spec lo (min hi x)) as [[H2 E2]|[H2 E2]];
    rewrite E2; rewrite ?E1 in *; lra.
Qed.

(** The clamp leaves a value of the interval unchanged. *)
Lemma clamp_id (lo hi x : R) :
  lo <= x <= hi -> max lo (min hi x) = x.
Proof.
  intros [Hl Hh].
  destruct (min_spec hi x) as [[H1 E1]|[H1 E1]];
    destruct (max_spec lo (min hi x)) as [[H2 E2]|[H2 E2]];
    rewrite E2; rewrite ?E1 in *; lra.
Qed.

Lemma fmod_range (x y : R) : 0 < y -> 0 <= fmod x y < y.
Proof.
  intro Hy. unfold fmod.
  destruct (Zfloor_bound (x / y)) as [Hlo Hhi].
  assert (Hx : x = (x / y) * y) by (field; lra).
  split.
  - assert (IZR (Zfloor (x / y)) * y <= (x / y) * y)
      by (apply Rmult_le_compat_r; lra).
    lra.
  - assert ((x / y) * y < (IZR (Zfloor (x / y)) + 1) * y)
      by (apply Rmult_lt_compat_r; lra).
    lra.
Qed.

Lemma fmod_id (x y : R) : 0 <= x < y -> fmod x y = x.
Proof.
  intros [H0 Hy]. unfold fmod.
  replace (Zfloor (x / y)) with 0%Z; [lra|].
  symmetry; apply Zfloor_eq. simpl.
  assert (0 < y) by lra.
  split.
  - apply Rmult_le_reg_r with y; [lra|]. field_simplify; lra.
  - apply Rmult_lt_reg_r with y; [lra|]. field_simplify; lra.
Qed.

Lemma math_acos_ok (x : R) :
  -1 <= x <= 1 -> math_acos x = Ok (acos x).
Proof.
  intros [H1 H2]. unfold math_acos.
  destruct (leb (-1) x) eqn:E1; destruct (leb x 1) eqn:E2; simpl; auto;
    try (apply leb_false in E1; lra); apply leb_false in E2; lra.
Qed.

Lemma div_ok (x y : R) : y <> 0 -> div x y = Ok (x / y).
Proof. intro H. unfold div. destruct (Req_dec_T y 0); [contradiction|reflexivity]. Qed.

End PrimitiveFacts.

(* ===================================================================== *)
(** * Facts about the solar position model *)
(* ===================================================================== *)

Section SolarFacts.
Import Py SolarModel Aux.

(** The identity of the spherical triangle pole - zenith - sun. *)
Lemma spherical_identity (lat dec h : R) :
  (azimuth_numerator lat dec h)² + (cos (radians dec) * sin (radians h))²
  = 1 - (cos_zenith lat dec h)².
Proof.
  unfold azimuth_numerator, cos_zenith, Rsqr.
  generalize (sin2_cos2 (radians lat)) (sin2_cos2 (radians dec))
             (sin2_cos2 (radians h)).
  unfold Rsqr.
  generalize (sin (radians lat)) (cos (radians lat)) (sin (radians dec))
             (cos (radians dec)) (sin (radians h)) (cos (radians h)).
  intros sp cp sd cd sh ch H1 H2 H3. nsatz.
Qed.

Lemma cos_zenith_range (lat dec h : R) : -1 <= cos_zenith lat dec h <= 1.
Proof.
  pose proof (spherical_identity lat dec h) as H.
  pose proof (Rle_0_sqr (azimuth_numerator lat dec h)).
  pose proof (Rle_0_sqr (cos (radians dec) * sin (radians h))).
  assert (Hc : (cos_zenith lat dec h)² <= 1) by lra.
  unfold Rsqr in Hc. split; nra.
Qed.

Lemma degrees_acos_range (x : R) : 0 <= degrees (acos x) <= 180.
Proof.
  destruct (acos_bound x) as [H0 H1]. pose proof PI_RGT_0 as Hpi.
  unfold degrees. split.
  - apply Rmult_le_pos; [lra|]. apply Rlt_le, Rdiv_lt_0_compat; lra.
  - replace 180 with (PI * (180 / PI)) at 2 by (field; lra).
    apply Rmult_le_compat_r; [|lra].
    apply Rlt_le, Rdiv_lt_0_compat; lra.
Qed.

(** [zenith_and_azimuth] never raises; its value in closed form. *)
Lemma zenith_and_azimuth_eq (lat dec h : R) :
  zenith_and_azimuth lat dec h =
  Ok (degrees (zenith_rad_of lat dec h),
      if gtb (sin (zenith_rad_of lat dec h)) 0.001 then
        let a := degrees (acos (max (-1.0) (min 1.0
                   (azimuth_numerator lat dec h
                    / sin (zenith_rad_of lat dec h))))) in
        if gtb h 0 then 360 - a else a
      else 0.0).
Proof.
  unfold zenith_and_azimuth.
  fold (cos_zenith lat dec h). fold (azimuth_numerator lat dec h).
  pose proof (cos_zenith_range lat dec h) as Hc.
  rewrite (clamp_id (-1.0) 1.0) by lra.
  rewrite math_acos_ok by lra. cbn [bind].
  fold (zenith_rad_of lat dec h).
  destruct (gtb (sin (zenith_rad_of lat dec h)) 0.001) eqn:E; [|reflexivity].
  apply gtb_true in E.
  rewrite div_ok by lra. cbn [bind].
  rewrite math_acos_ok.
  - cbn [bind]. reflexivity.
  - pose proof (clamp_range (-1.0) 1.0
      (azimuth_numerator lat dec h / sin (zenith_rad_of lat dec h))).
    lra.
Qed.

Lemma acos_pos (g : R) : -1 <= g < 1 -> 0 < acos g.
Proof.
  intros [Hl Hu]. destruct (acos_bound g) as [H0 _].
  destruct H0 as [H0|H0]; [exact H0|].
  exfalso. pose proof (cos_acos g ltac:(lra)) as Hc.
  rewrite <- H0, cos_0 in Hc. lra.
Qed.

Lemma degrees_pos (x : R) : 0 < x -> 0 < degrees x.
Proof.
  intro H. pose proof PI_RGT_0. unfold degrees.
  apply Rmult_lt_0_compat; [lra|]. apply Rdiv_lt_0_compat; lra.
Qed.

(** Away from the meridian the azimuth cosine stays strictly below 1. *)
Lemma azimuth_cosine_lt_1 (lat dec h : R) :
  cos (radians dec) <> 0 -> sin (radians h) <> 0 ->
  0.001 < sin (zenith_rad_of lat dec h) ->
  max (-1.0) (min 1.0
    (azimuth_numerator lat dec h / sin (zenith_rad_of lat dec h))) < 1.
Proof.
  intros Hd Hh Hs.
  set (s := sin (zenith_rad_of lat dec h)) in *.
  set (N := azimuth_numerator lat dec h).
  pose proof (cos_zenith_range lat dec h) as Hc.
  assert (Hs2 : s² = 1 - (cos_zenith lat dec h)²).
  { pose proof (sin2_cos2 (zenith_rad_of lat dec h)) as H.
    unfold zenith_rad_of in H at 2. rewrite cos_acos in H by lra.
    fold s in H. lra. }
  assert (Hpos : 0 < (cos (radians dec) * sin (radians h))²).
  { apply Rlt_0_sqr. apply Rmult_integral_contrapositive_currified; auto. }
  pose proof (spherical_identity lat dec h) as Hid. fold N in Hid.
  assert (HN : N < s).
  { destruct (Rlt_dec N 0) as [Hneg|Hnn]; [lra|].
    apply Rsqr_incrst_0; lra. }
  assert (Hq : N / s < 1).
  { apply Rmult_lt_reg_r with s; [lra|].
    unfold Rdiv. rewrite Rmult_assoc, Rinv_l by lra. lra. }
  destruct (min_spec 1.0 (N / s)) as [[H1 E1]|[H1 E1]];
    destruct (max_spec (-1.0) (min 1.0 (N / s))) as [[H2 E2]|[H2 E2]];
    rewrite E2; rewrite ?E1 in *; lra.
Qed.

Lemma declination_range (n : Z) : -23.45 <= solar_declination n <= 23.45.
Proof.
  unfold solar_declination.
  match goal with |- context [sin ?x] => pose proof (SIN_bound x) end.
  lra.
Qed.

Lemma cos_declination_pos (n : Z) : 0 < cos (radians (solar_declination n)).
Proof.
  pose proof (declination_range n) as H. pose proof PI_RGT_0 as Hpi.
  apply cos_gt_0; unfold radians; nra.
Qed.

Lemma solar_time_range (dt : Datetime.datetime) (lon utc : R) :
  0 <= calculate_solar_time dt lon utc < 24.
Proof. unfold calculate_solar_time. apply fmod_range. lra. Qed.

Lemma hour_angle_range (st : R) :
  0 <= st < 24 -> -180 <= hour_angle st < 180.
Proof. unfold hour_angle. lra. Qed.

(** Ranges of the two angles for a declination off the poles and an
    hour angle of one day. *)
Lemma zenith_and_azimuth_ranges (lat dec h : R) :
  cos (radians dec) <> 0 -> -180 <= h < 180 ->
  exists z a,
    zenith_and_azimuth lat dec h = Ok (z, a)
    /\ 0 <= z <= 180 /\ 0 <= a < 360.
Proof.
  intros Hd Hh. rewrite zenith_and_azimuth_eq.
  eexists; eexists; split; [reflexivity|]. split.
  - apply degrees_acos_range.
  - destruct (gtb (sin (zenith_rad_of lat dec h)) 0.001) eqn:Es; [|lra].
    apply gtb_true in Es. cbv zeta.
    set (g := max (-1.0) (min 1.0 _)).
    pose proof (degrees_acos_range g) as Hr.
    destruct (gtb h 0) eqn:Eh; [|lra].
    apply gtb_true in Eh.
    assert (Hsin : sin (radians h) <> 0).
    { pose proof PI_RGT_0 as Hpi.
      assert (0 < sin (radians h)); [|lra].
      apply sin_gt_0; unfold radians; nra. }
    pose proof (azimuth_cosine_lt_1 lat dec h Hd Hsin Es) as Hg. fold g in Hg.
    assert (Hlo : -1 <= g).
    { pose proof (clamp_range (-1.0) 1.0
        (azimuth_numerator lat dec h / sin (zenith_rad_of lat dec h))).
      fold g in H. lra. }
    pose proof (degrees_pos _ (acos_pos g (conj Hlo Hg))). lra.
Qed.

(** [get_target_angles] never raises; its fields in closed form. *)
Lemma get_target_angles_eq (dt : Datetime.datetime) (lat lon utc : R) :
  exists t,
    get_target_angles dt lat lon utc = Ok t
    /\ zenith_and_azimuth lat (solar_declination (get_day_of_year dt))
         (hour_angle (calculate_solar_time dt lon utc))
       = Ok (zenith t, azimuth t)
    /\ tilt t = zenith t
    /\ declination t = solar_declination (get_day_of_year dt)
    /\ solar_time t = calculate_solar_time dt lon utc
    /\ hour_angle_of t = hour_angle (calculate_solar_time dt lon utc).
Proof.
  unfold get_target_angles.
  rewrite zenith_and_azimuth_eq. cbn [bind].
  eexists; split; [reflexivity|]. cbn. repeat split; reflexivity.
Qed.

Lemma target_angles_ranges (dt : Datetime.datetime) (lat lon utc : R) :
  exists t,
    get_target_angles dt lat lon utc = Ok t
    /\ 0 <= zenith t <= 180
    /\ 0 <= azimuth t < 360
    /\ 0 <= solar_time t < 24
    /\ tilt t = zenith t.
Proof.
  destruct (get_target_angles_eq dt lat lon utc)
    as (t & Ht & Hza & Htilt & _ & Hst & _).
  exists t. split; [exact Ht|].
  pose proof (solar_time_range dt lon utc) as Hs.
  destruct (zenith_and_azimuth_ranges lat
              (solar_declination (get_day_of_year dt))
              (hour_angle (calculate_solar_time dt lon utc)))
    as (z & a & Hza' & Hz & Ha).
  - pose proof (cos_declination_pos (get_day_of_year dt)). lra.
  - apply hour_angle_range, Hs.
  - rewrite Hza in Hza'. injection Hza' as Ez Ea.
    rewrite Hst, Ez, Ea. repeat split; try tauto; try lra.
Qed.

(** In exact real arithmetic the solar position computation returns
    normally for every latitude, longitude, UTC offset and timestamp
    (the cosine handed to [acos] is clamped to [[-1, 1]], so no domain
    error is raised), with zenith in [[0, 180]], azimuth in [[0, 360)]
    and solar time in [[0, 24)]. *)
Theorem solar_position_ranges_exact (dt : Datetime.datetime) (lat lon utc : R) :
  exists t,
    get_target_angles dt lat lon utc = Ok t
    /\ zenith_and_azimuth lat (solar_declination (get_day_of_year dt))
         (hour_angle (calculate_solar_time dt lon utc))
       = Ok (zenith t, azimuth t)
    /\ solar_time t = calculate_solar_time dt lon utc
    /\ 0 <= zenith t <= 180
    /\ 0 <= azimuth t < 360
    /\ 0 <= solar_time t < 24.
Proof.
  destruct (target_angles_ranges dt lat lon utc) as (t & Ht & Hz & Ha & Hs & _).
  destruct (get_target_angles_eq dt lat lon utc)
    as (t' & Ht' & Hza & _ & _ & Hst & _).
  rewrite Ht in Ht'. injection Ht' as <-.
  exists t. repeat split; try tauto; lra.
Qed.

End SolarFacts.

(* ===================================================================== *)
(** * Facts about the tracker state machine *)
(* ===================================================================== *)

Section TrackerFacts.
Import Py Datetime TrackingLogic Aux.

Lemma total_seconds_sub (a b : datetime) :
  total_seconds (sub a b) = IZR (instant a - instant b) / 1000000.
Proof.
  unfold total_seconds, sub, instant, DAY_MICROS. cbn [days seconds microseconds].
  f_equal. f_equal.
  set (us := (day_micros a - day_micros b)%Z).
  pose proof (Z.div_mod us 1000000 ltac:(lia)) as H1.
  pose proof (Z.div_mod (us / 1000000) 86400 ltac:(lia)) as H2.
  lia.
Qed.

(** The elapsed time the gate computes, in minutes. *)
Lemma time_diff_minutes (a b : datetime) :
  total_seconds (sub a b) / 60.0 = IZR (instant a - instant b) / 60000000.
Proof. rewrite total_seconds_sub. lra. Qed.

Lemma interval_not_reached_set_winter self b dt i :
  interval_not_reached (set_winter self b) dt i = interval_not_reached self dt i.
Proof. reflexivity. Qed.

(** The skip path. *)
Lemma update_skip self dt temp snow interval :
  interval_not_reached self dt (effective_interval temp snow interval) = true ->
  update self dt temp snow interval
  = Ok (set_winter self (winter temp snow),
        {| action := skip;
           reason := Some "Update interval not reached"%string;
           tilt := current_tilt self;
           azimuth := current_azimuth self;
           winter_mode := winter temp snow;
           zenith := None;
           solar_time := None |}).
Proof.
  intro H. unfold update. fold (winter temp snow).
  cbn [is_winter_mode_active set_winter].
  rewrite interval_not_reached_set_winter.
  unfold effective_interval in H. rewrite H. reflexivity.
Qed.

(** The commit path, with the target angles of the instant. *)
Lemma update_commit self dt temp snow interval t :
  interval_not_reached self dt (effective_interval temp snow interval) = false ->
  SolarModel.get_target_angles dt (latitude self) (longitude self)
    (utc_offset self) = Ok t ->
  let w := winter temp snow in
  let night := gtb (SolarModel.zenith t) 90.0 in
  let target_tilt :=
    max 0.0 (min 90.0
      (if night then (if w then 65.0 else 0.0)
       else if w then max (SolarModel.tilt t) 65.0 else SolarModel.tilt t)) in
  let target_azimuth :=
    fmod (if night then 180.0
          else if w then current_azimuth self else SolarModel.azimuth t)
         360.0 in
  update self dt temp snow interval
  = Ok ({| latitude := latitude self;
           longitude := longitude self;
           utc_offset := utc_offset self;
           current_tilt := target_tilt;
           current_azimuth := target_azimuth;
           last_update_time := Some dt;
           is_winter_mode_active := w |},
        {| action := if night then stow
                     else if w then winter_optimized else track;
           reason := None;
           tilt := target_tilt;
           azimuth := target_azimuth;
           winter_mode := w;
           zenith := Some (SolarModel.zenith t);
           solar_time := Some (SolarModel.solar_time t) |}).
Proof.
  intros H Ht. unfold update. fold (winter temp snow).
  cbn [is_winter_mode_active set_winter latitude longitude utc_offset
       current_azimuth current_tilt].
  rewrite interval_not_reached_set_winter.
  unfold effective_interval in H. rewrite H.
  rewrite Ht. cbn [bind].
  destruct (winter temp snow); destruct (gtb (SolarModel.zenith t) 90.0);
    reflexivity.
Qed.

(** Every call returns normally, on one of the two paths. *)
Lemma update_cases self dt temp snow interval :
  (interval_not_reached self dt (effective_interval temp snow interval) = true
   /\ exists cmd, update self dt temp snow interval
                  = Ok (set_winter self (winter temp snow), cmd)
                  /\ action cmd = skip)
  \/
  (interval_not_reached self dt (effective_interval temp snow interval) = false
   /\ exists t self' cmd,
        SolarModel.get_target_angles dt (latitude self) (longitude self)
          (utc_offset self) = Ok t
        /\ update self dt temp snow interval = Ok (self', cmd)
        /\ action cmd <> skip).
Proof.
  destruct (interval_not_reached self dt
              (effective_interval temp snow interval)) eqn:E.
  - left. split; [reflexivity|]. eexists. split.
    + apply update_skip, E.
    + reflexivity.
  - right. split; [reflexivity|].
    destruct (target_angles_ranges dt (latitude self) (longitude self)
                (utc_offset self)) as (t & Ht & _).
    pose proof (update_commit self dt temp snow interval t E Ht) as Hu.
    cbv zeta in Hu.
    exists t. eexists. eexists. split; [exact Ht|]. split; [exact Hu|].
    cbn. destruct (gtb _ _); destruct (winter _ _); discriminate.
Qed.

(** A returned action other than [skip] means the gate let the call
    through. *)
Lemma not_skip_gate self dt temp snow interval self' cmd :
  update self dt temp snow interval = Ok (self', cmd) ->
  action cmd <> skip ->
  interval_not_reached self dt (effective_interval temp snow interval) = false.
Proof.
  intros Hu Hs.
  destruct (interval_not_reached self dt
              (effective_interval temp snow interval)) eqn:E; [|reflexivity].
  rewrite (update_skip _ _ _ _ _ E) in Hu. injection Hu as _ <-.
  exfalso. apply Hs. reflexivity.
Qed.

Lemma winter_true_iff (temp : R) (snow : bool) :
  winter temp snow = true <-> temp < 2 /\ snow = true.
Proof.
  unfold winter. rewrite andb_true_iff, ltb_true. split; intros [H1 H2]; split; auto; lra.
Qed.

(** C10. The first call of [update] on a freshly constructed tracker is
    never skipped, whatever the minimum update interval: no previous
    update time exists, the gate does not apply, and the call commits
    new angles and records its timestamp.  The committed angles are the
    ones computed from the target angles of the instant: at night the
    stow position (tilt 0, or 65 in winter mode, azimuth 180); by day
    without winter mode the zenith angle and the solar azimuth modulo
    360; by day in winter mode the larger of the zenith angle and 65,
    with the initial azimuth 0 kept. *)
Theorem C10_first_update_commits (lat lon utc : R) (dt : datetime)
    (temp : R) (snow : bool) (interval : Z) :
  last_update_time (init lat lon utc) = None
  /\ exists t self' cmd,
       SolarModel.get_target_angles dt lat lon utc = Ok t
       /\ update (init lat lon utc) dt temp snow interval = Ok (self', cmd)
       /\ action cmd <> skip
       /\ last_update_time self' = Some dt
       /\ current_tilt self' = tilt cmd
       /\ current_azimuth self' = azimuth cmd
       /\ zenith cmd = Some (SolarModel.zenith t)
       /\ solar_time cmd = Some (SolarModel.solar_time t)
       /\ (90 < SolarModel.zenith t ->
           action cmd = stow
           /\ tilt cmd = (if ltb temp 2.0 && snow then 65 else 0)
           /\ azimuth cmd = 180)
       /\ (SolarModel.zenith t <= 90 -> ltb temp 2.0 && snow = false ->
           action cmd = track
           /\ tilt cmd = SolarModel.zenith t
           /\ azimuth cmd = fmod (SolarModel.azimuth t) 360)
       /\ (SolarModel.zenith t <= 90 -> ltb temp 2.0 && snow = true ->
           action cmd = winter_optimized
           /\ tilt cmd = Rmax (SolarModel.zenith t) 65
           /\ azimuth cmd = 0).
Proof.
  split; [reflexivity|].
  assert (E : interval_not_reached (init lat lon utc) dt
                (effective_interval temp snow interval) = false)
    by reflexivity.
  destruct (target_angles_ranges dt lat lon utc)
    as (t & Ht & Hz & _ & _ & Htilt).
  pose proof (update_commit (init lat lon utc) dt temp snow interval t E Ht)
    as Hu.
  cbv zeta in Hu. unfold winter in Hu. exists t. eexists. eexists.
  split; [exact Ht|]. split; [exact Hu|].
  cbn [action tilt azimuth zenith solar_time last_update_time current_tilt
       current_azimuth init].
  split; [destruct (gtb _ _); destruct (ltb temp 2.0 && snow); discriminate|].
  do 5 (split; [reflexivity|]).
  split; [|split].
  - intro Hn.
    replace (gtb (SolarModel.zenith t) 90.0) with true
      by (symmetry; apply gtb_true; lra).
    split; [reflexivity|]. split.
    + destruct (ltb temp 2.0 && snow);
        rewrite (clamp_id 0.0 90.0) by lra; lra.
    + rewrite fmod_id by lra. lra.
  - intros Hd Hw.
    replace (gtb (SolarModel.zenith t) 90.0) with false
      by (symmetry; apply gtb_false; lra).
    rewrite Hw, Htilt. split; [reflexivity|]. split.
    + apply clamp_id. lra.
    + f_equal. lra.
  - intros Hd Hw.
    replace (gtb (SolarModel.zenith t) 90.0) with false
      by (symmetry; apply gtb_false; lra).
    rewrite Hw, Htilt. split; [reflexivity|]. split.
    + assert (Hm : 65 <= max (SolarModel.zenith t) 65.0 <= 90)
        by (destruct (max_spec (SolarModel.zenith t) 65.0)
              as [[? ->]|[? ->]]; lra).
      rewrite (clamp_id 0.0 90.0) by lra.
      rewrite max_Rmax. f_equal. lra.
    + rewrite fmod_id by lra. lra.
Qed.


(** C2 (amended). With a previous update time, a call whose elapsed time
    is below the effective interval (60 minutes in winter mode, the
    caller's interval otherwise) returns the unchanged current tilt and
    azimuth with the skip action and leaves every field of the tracker
    as it was, except [is_winter_mode_active], which holds the winter
    test of this call. *)
Theorem C2_skip_frame (self : DualAxisTracker) (dt : datetime) (temp : R)
    (snow : bool) (interval : Z) (last : datetime) :
  last_update_time self = Some last ->
  total_seconds (sub dt last) / 60.0
    < IZR (if ltb temp 2.0 && snow then 60 else interval) ->
  exists self' cmd,
    update self dt temp snow interval = Ok (self', cmd)
    /\ action cmd = skip
    /\ tilt cmd = current_tilt self
    /\ azimuth cmd = current_azimuth self
    /\ latitude self' = latitude self
    /\ longitude self' = longitude self
    /\ utc_offset self' = utc_offset self
    /\ current_tilt self' = current_tilt self
    /\ current_azimuth self' = current_azimuth self
    /\ last_update_time self' = last_update_time self
    /\ is_winter_mode_active self' = (ltb temp 2.0 && snow).
Proof.
  intros Hl Hd.
  assert (E : interval_not_reached self dt
                (effective_interval temp snow interval) = true).
  { unfold interval_not_reached. rewrite Hl. apply ltb_true. exact Hd. }
  eexists. eexists. split; [apply update_skip, E|].
  cbn. repeat split; reflexivity.
Qed.

(** C1 (amended). On a call that is not skipped with winter mode active:
    if the solar zenith is at most 90 degrees the committed azimuth is
    the tracker's azimuth from before the call (taken modulo 360, which
    changes nothing for an azimuth in [[0, 360)]); if the zenith exceeds
    90 degrees the stow override commits 180 degrees instead. *)
Theorem C1_winter_azimuth (self : DualAxisTracker) (dt : datetime)
    (temp : R) (snow : bool) (interval : Z) (self' : DualAxisTracker)
    (cmd : Command) (t : SolarModel.TargetAngles) :
  temp < 2 -> snow = true ->
  update self dt temp snow interval = Ok (self', cmd) ->
  action cmd <> skip ->
  SolarModel.get_target_angles dt (latitude self) (longitude self)
    (utc_offset self) = Ok t ->
  (SolarModel.zenith t <= 90 ->
     azimuth cmd = fmod (current_azimuth self) 360
     /\ current_azimuth self' = azimuth cmd
     /\ (0 <= current_azimuth self < 360 ->
         azimuth cmd = current_azimuth self))
  /\ (90 < SolarModel.zenith t ->
        azimuth cmd = 180 /\ current_azimuth self' = 180).
Proof.
  intros Htemp Hsnow Hu Hs Ht.
  pose proof (not_skip_gate _ _ _ _ _ _ _ Hu Hs) as E.
  rewrite (update_commit _ _ _ _ _ _ E Ht) in Hu.
  injection Hu as <- <-. cbn.
  assert (Hw : winter temp snow = true) by (apply winter_true_iff; auto).
  rewrite Hw. split; intro Hz.
  - assert (Hn : gtb (SolarModel.zenith t) 90.0 = false)
      by (apply gtb_false; lra).
    rewrite Hn. replace 360.0 with 360 by lra.
    repeat split. intro Hr. apply fmod_id, Hr.
  - assert (Hn : gtb (SolarModel.zenith t) 90.0 = true)
      by (apply gtb_true; lra).
    rewrite Hn. rewrite fmod_id by lra. split; lra.
Qed.





End TrackerFacts.

(* ===================================================================== *)
(** * Facts about the predictive movement controller *)
(* ===================================================================== *)

Section ControllerFacts.
Import Py Datetime AiPredictive.

Variable Forest : Type.
Variable forest_predict : Forest -> R -> R -> R -> R -> R.
Variable unfitted : Forest.
Variable synthetic : Forest.

Let prediction := prediction Forest forest_predict synthetic.
Let optimize_movement := optimize_movement Forest forest_predict synthetic.

(** The decision in terms of the energies the function computes. *)
Lemma optimize_movement_decision (self : PredictiveController Forest)
    (current_tilt target_tilt current_azimuth target_azimuth : R)
    (dt : datetime) (temp cloud_cover zenith area efficiency : R) :
  let irr := snd (prediction self dt temp cloud_cover zenith) in
  let e := energies irr current_tilt target_tilt current_azimuth
             target_azimuth area efficiency in
  let d := snd (optimize_movement self current_tilt target_tilt
                  current_azimuth target_azimuth dt temp cloud_cover zenith
                  area efficiency) in
  predicted_irradiance d = irr
  /\ (energy_gain e <= motor_energy_cost self ->
      move_approved d = false
      /\ final_tilt d = current_tilt /\ final_azimuth d = current_azimuth)
  /\ (motor_energy_cost self < energy_gain e ->
      move_approved d = true
      /\ final_tilt d = target_tilt /\ final_azimuth d = target_azimuth).
Proof.
  cbv zeta. unfold optimize_movement, AiPredictive.optimize_movement.
  fold prediction.
  destruct (prediction self dt temp cloud_cover zenith) as [p irr].
  cbn [snd motor_energy_cost].
  set (e := energies irr _ _ _ _ _ _).
  destruct (leb (energy_gain e) (motor_energy_cost self)) eqn:E;
    cbn [snd move_approved final_tilt final_azimuth predicted_irradiance].
  - apply leb_true in E. split; [reflexivity|]. split; intro H.
    + repeat split; reflexivity.
    + lra.
  - apply leb_false in E. split; [reflexivity|]. split; intro H.
    + lra.
    + repeat split; reflexivity.
Qed.

(** C3. The move is approved if and only if the computed energy gain
    (energy when moving minus energy when staying) strictly exceeds the
    configured actuator energy cost, whose default is 2.5 Wh; a gain
    equal to the cost is rejected; every rejection returns the unchanged
    current tilt and azimuth. *)
Theorem C3_strict_threshold (self : PredictiveController Forest)
    (current_tilt target_tilt current_azimuth target_azimuth : R)
    (dt : datetime) (temp cloud_cover zenith area efficiency : R) :
  let irr := snd (prediction self dt temp cloud_cover zenith) in
  let e := energies irr current_tilt target_tilt current_azimuth
             target_azimuth area efficiency in
  let d := snd (optimize_movement self current_tilt target_tilt
                  current_azimuth target_azimuth dt temp cloud_cover zenith
                  area efficiency) in
  energy_gain e = expected_energy_moving_wh e - expected_energy_staying_wh e
  /\ (move_approved d = true <-> motor_energy_cost self < energy_gain e)
  /\ (energy_gain e = motor_energy_cost self -> move_approved d = false)
  /\ (move_approved d = false ->
      final_tilt d = current_tilt /\ final_azimuth d = current_azimuth)
  /\ motor_energy_cost (new_controller Forest unfitted None) = 2.5.
Proof.
  pose proof (optimize_movement_decision self current_tilt target_tilt
                current_azimuth target_azimuth dt temp cloud_cover zenith
                area efficiency) as H.
  cbv zeta in *. destruct H as (_ & Hrej & Hacc).
  set (d := snd (optimize_movement _ _ _ _ _ _ _ _ _ _ _)) in *.
  set (e := energies _ _ _ _ _ _ _) in *.
  split; [reflexivity|].
  destruct (Rle_lt_dec (energy_gain e) (motor_energy_cost self)) as [Hle|Hlt].
  - destruct (Hrej Hle) as (Hm & Ht & Ha).
    split; [|split; [|split]].
    + rewrite Hm. split; [discriminate|intro; lra].
    + intros _. exact Hm.
    + intros _. split; assumption.
    + reflexivity.
  - destruct (Hacc Hlt) as (Hm & Ht & Ha).
    split; [|split; [|split]].
    + rewrite Hm. split; [intros _; exact Hlt|reflexivity].
    + intro. lra.
    + rewrite Hm. discriminate.
    + reflexivity.
Qed.

(** C4 (amended). The expected energy when moving is
    predicted_irradiance x area x efficiency x (10/60), and the expected
    energy when staying is that value times
    max(0, cos(delta tilt) x cos(delta azimuth)): the panel area and the
    efficiency (defaults 2.0 and 0.2) are applied inside the decision. *)
Theorem C4_expected_energies
    (irr current_tilt target_tilt current_azimuth target_azimuth
     area efficiency : R) :
  let e := energies irr current_tilt target_tilt current_azimuth
             target_azimuth area efficiency in
  expected_energy_moving_wh e = irr * area * efficiency * (10 / 60)
  /\ expected_energy_staying_wh e
     = irr * area * efficiency
       * Rmax 0 (cos (radians (target_tilt - current_tilt))
                 * cos (radians (target_azimuth - current_azimuth)))
       * (10 / 60)
  /\ default_area = 2.0 /\ default_efficiency = 0.2.
Proof.
  cbv zeta. unfold energies. cbn.
  rewrite max_Rmax. replace 0.0 with 0 by lra.
  repeat split; lra.
Qed.

End ControllerFacts.

(** C4, counterexample.  A controller whose regressor predicts 600 W/m2,
    called with the default area 2.0 and efficiency 0.2: the expected
    energy when moving is 40 Wh, not 600 x (10/60) = 100 Wh. *)
Lemma C4_counterexample :
  AiPredictive.predicted_irradiance
    (snd (AiPredictive.optimize_movement R Scenario.constant_predict 0
            Scenario.controller_600 0 90 180 180 Scenario.solstice_noon
            20 0 30 AiPredictive.default_area AiPredictive.default_efficiency))
  = 600
  /\ AiPredictive.expected_energy_moving_wh
       (AiPredictive.energies 600 0 90 180 180
          AiPredictive.default_area AiPredictive.default_efficiency)
     = 40
  /\ AiPredictive.expected_energy_moving_wh
       (AiPredictive.energies 600 0 90 180 180
          AiPredictive.default_area AiPredictive.default_efficiency)
     <> 600 * (10 / 60).
Proof.
  split; [|split].
  - unfold AiPredictive.optimize_movement, AiPredictive.prediction,
      AiPredictive.predict, Scenario.controller_600,
      Scenario.constant_predict.
    cbn [AiPredictive.predictor AiPredictive.is_trained AiPredictive.model
         negb].
    destruct (Py.leb _ _); reflexivity.
  - cbn. unfold AiPredictive.default_area, AiPredictive.default_efficiency. lra.
  - cbn. unfold AiPredictive.default_area, AiPredictive.default_efficiency. lra.
Qed.

(* ===================================================================== *)
(** * Facts about the day simulator *)
(* ===================================================================== *)

Section SimulatorFacts.
Import Py Datetime Simulator Aux.

Lemma getitem_in {A : Type} (l : list A) (i : Z) (a : A) :
  getitem l i = Ok a -> In a l.
Proof.
  unfold getitem. destruct (_ || _); [discriminate|].
  destruct (nth_error l _) eqn:E; [|discriminate].
  intro H; injection H as <-. eapply nth_error_In, E.
Qed.

Lemma getitem_nil {A : Type} (i : Z) : getitem (@nil A) i = Raise IndexError.
Proof.
  unfold getitem. cbn [length Z.of_nat].
  destruct (i <? 0)%Z eqn:E.
  - replace ((i + 0 <? 0)%Z) with true; [reflexivity|].
    symmetry. apply Z.ltb_lt. apply Z.ltb_lt in E. lia.
  - replace ((0 <=? i)%Z) with true.
    + rewrite orb_true_r. reflexivity.
    + symmetry. apply Z.leb_le. apply Z.ltb_ge in E. lia.
Qed.

Lemma getitem_ok {A : Type} (l : list A) (i : Z) :
  (0 <= i < Z.of_nat (length l))%Z -> exists a, getitem l i = Ok a.
Proof.
  intros [H0 H1]. unfold getitem.
  replace (i <? 0)%Z with false by (symmetry; apply Z.ltb_ge; lia).
  replace (i <? 0)%Z with false by (symmetry; apply Z.ltb_ge; lia).
  replace (Z.of_nat (length l) <=? i)%Z with false
    by (symmetry; apply Z.leb_gt; lia).
  cbn [orb].
  destruct (nth_error l (Z.to_nat i)) eqn:E; [eauto|].
  apply nth_error_None in E. lia.
Qed.

Lemma getitem_last_ok {A : Type} (l : list A) :
  l <> [] -> exists a, getitem l (-1) = Ok a.
Proof.
  intro Hl. unfold getitem.
  assert (Hlen : (0 < Z.of_nat (length l))%Z).
  { destruct l; [contradiction|]. cbn [length]. lia. }
  replace (-1 <? 0)%Z with true by reflexivity.
  replace (-1 + Z.of_nat (length l) <? 0)%Z with false
    by (symmetry; apply Z.ltb_ge; lia).
  replace (Z.of_nat (length l) <=? -1 + Z.of_nat (length l))%Z with false
    by (symmetry; apply Z.leb_gt; lia).
  cbn [orb].
  destruct (nth_error l _) eqn:E; [eauto|].
  apply nth_error_None in E. lia.
Qed.

Lemma hour_nonneg (dt : datetime) (m : Z) : (0 <= hour (add_minutes dt m))%Z.
Proof.
  unfold hour, add_minutes, DAY_MICROS. cbn [day_micros].
  apply Z.div_pos; [|lia].
  apply Z.mod_pos_bound. lia.
Qed.

(** The temperature lookup of the loop body. *)
Lemma temp_lookup (temps : list R) (h : Z) :
  temps <> [] -> (0 <= h)%Z ->
  exists a,
    (if (h <? Z.of_nat (length temps))%Z
     then getitem temps h else getitem temps (-1)) = Ok a
    /\ In a temps.
Proof.
  intros Hne Hh. destruct (h <? Z.of_nat (length temps))%Z eqn:E.
  - apply Z.ltb_lt in E. destruct (getitem_ok temps h) as [a Ha]; [lia|].
    exists a. split; [exact Ha|]. eapply getitem_in, Ha.
  - destruct (getitem_last_ok temps Hne) as [a Ha].
    exists a. split; [exact Ha|]. eapply getitem_in, Ha.
Qed.

Section Run.
Variables lat lon utc_offset : R.
Variable temps : list R.
Variable snow_detected : bool.
Variables fixed_tilt fixed_azimuth : R.
Variable start_of_day : datetime.

Let step := simulate_step lat lon utc_offset temps snow_detected
              fixed_tilt fixed_azimuth start_of_day.
Let loop := simulate_loop lat lon utc_offset temps snow_detected
              fixed_tilt fixed_azimuth start_of_day.

(** With an empty temperature list the loop body raises. *)
Lemma simulate_step_nil tracker minutes :
  temps = [] -> step tracker minutes = Raise IndexError.
Proof.
  intros ->. unfold step, simulate_step.
  cbn [length Z.of_nat].
  destruct (_ <? 0)%Z; rewrite getitem_nil; reflexivity.
Qed.

(** Otherwise it returns normally; the row in closed form. *)
Lemma simulate_step_eq tracker minutes :
  temps <> [] ->
  let current_time := add_minutes start_of_day minutes in
  exists temp_now opt tracker' cmd,
    In temp_now temps
    /\ SolarModel.get_target_angles current_time lat lon utc_offset = Ok opt
    /\ TrackingLogic.update tracker current_time temp_now snow_detected 10
       = Ok (tracker', cmd)
    /\ step tracker minutes
       = Ok (tracker',
             {| Time := current_time;
                Hour := IZR (hour current_time)
                        + IZR (minute current_time) / 60.0;
                Zenith := SolarModel.zenith opt;
                Opt_Tilt := SolarModel.tilt opt;
                Opt_Azimuth := SolarModel.azimuth opt;
                Dual_Tilt := TrackingLogic.tilt cmd;
                Dual_Azimuth := TrackingLogic.azimuth cmd;
                Is_Winter := TrackingLogic.winter_mode cmd;
                Temp_C := temp_now;
                Irradiance_W_m2 := irradiance_direct (SolarModel.zenith opt);
                Power_Dual :=
                  irradiance_direct (SolarModel.zenith opt)
                  * incidence opt (TrackingLogic.tilt cmd)
                      (TrackingLogic.azimuth cmd);
                Power_Single :=
                  irradiance_direct (SolarModel.zenith opt)
                  * max 0.0 (cos (radians (SolarModel.tilt opt - fixed_tilt)));
                Power_Fixed :=
                  irradiance_direct (SolarModel.zenith opt)
                  * incidence opt fixed_tilt fixed_azimuth |}).
Proof.
  intros Hne current_time.
  destruct (temp_lookup temps (hour current_time) Hne
              (hour_nonneg start_of_day minutes)) as (temp_now & Hl & Hin).
  destruct (target_angles_ranges current_time lat lon utc_offset)
    as (opt & Hopt & _).
  assert (Hu : exists tracker' cmd,
             TrackingLogic.update tracker current_time temp_now
               snow_detected 10 = Ok (tracker', cmd)).
  { destruct (update_cases tracker current_time temp_now snow_detected 10)
      as [(_ & cmd & H & _)|(_ & t & s' & cmd & _ & H & _)]; eauto. }
  destruct Hu as (tracker' & cmd & Hu).
  exists temp_now, opt, tracker', cmd.
  split; [exact Hin|]. split; [exact Hopt|]. split; [exact Hu|].
  unfold step, simulate_step. fold current_time.
  rewrite Hl. cbn [bind]. rewrite Hopt. cbn [bind]. rewrite Hu. cbn [bind].
  reflexivity.
Qed.

(** The loop: an invariant [I] of the tracker, indexed by the ticks
    still to come, and a property [Q] of the row of each tick. *)
Lemma simulate_loop_inv
    (I : list Z -> TrackingLogic.DualAxisTracker -> Prop)
    (Q : Z -> Row -> Prop) :
  (forall m rest tracker,
      I (m :: rest) tracker ->
      exists tracker' row,
        step tracker m = Ok (tracker', row)
        /\ I rest tracker' /\ Q m row) ->
  forall ticks tracker records,
    I ticks tracker ->
    exists tracker' rows,
      loop ticks tracker records = Ok (tracker', records ++ rows)
      /\ Forall2 Q ticks rows
      /\ I [] tracker'.
Proof.
  intros Hstep ticks.
  induction ticks as [|m rest IH]; intros tracker records HI.
  - exists tracker, []. cbn. rewrite app_nil_r. auto.
  - destruct (Hstep m rest tracker HI) as (tracker1 & row & Hs & HI1 & HQ).
    destruct (IH tracker1 (records ++ [row]) HI1)
      as (tracker' & rows & Hl & HQs & HI').
    exists tracker', (row :: rows).
    unfold loop in *. cbn [simulate_loop]. fold step. rewrite Hs.
    cbn [bind]. rewrite Hl. rewrite <- app_assoc. cbn [app].
    repeat split; auto.
Qed.

End Run.

(** The result of [simulate_day] from the result of its loop. *)
Lemma simulate_day_of_loop date_obj lat lon utc temps snow ft fa tracker' rows :
  simulate_loop lat lon utc temps snow ft fa
    (make (year date_obj) (month date_obj) (day date_obj) 0 0 0)
    (range 0 (24 * 60) 10) (TrackingLogic.init lat lon utc) []
  = Ok (tracker', rows) ->
  simulate_day date_obj lat lon utc temps snow ft fa = Ok rows.
Proof. intro H. unfold simulate_day. rewrite H. reflexivity. Qed.

Lemma range_day_length : length (range 0 (24 * 60) 10) = 144%nat.
Proof. reflexivity. Qed.

(** A run with a non-empty temperature list completes its 144 ticks. *)
Lemma simulate_day_total date_obj lat lon utc temps snow ft fa :
  temps <> [] ->
  exists rows,
    simulate_day date_obj lat lon utc temps snow ft fa = Ok rows
    /\ length rows = 144%nat.
Proof.
  intro Hne.
  set (start := make (year date_obj) (month date_obj) (day date_obj) 0 0 0).
  destruct (simulate_loop_inv lat lon utc temps snow ft fa start
              (fun _ _ => True) (fun _ _ => True))
    with (ticks := range 0 (24 * 60) 10)
         (tracker := TrackingLogic.init lat lon utc)
         (records := @nil Row)
    as (tracker' & rows & Hl & HQ & _).
  - intros m rest tracker _.
    destruct (simulate_step_eq lat lon utc temps snow ft fa start tracker m
                Hne) as (tn & opt & tr' & cmd & _ & _ & _ & Hs).
    eexists. eexists. split; [exact Hs|]. auto.
  - exact I.
  - exists rows. split.
    + eapply simulate_day_of_loop. exact Hl.
    + apply Forall2_length in HQ. rewrite <- HQ. apply range_day_length.
Qed.

(** With an empty temperature list the first tick raises. *)
Lemma simulate_day_empty date_obj lat lon utc snow ft fa :
  simulate_day date_obj lat lon utc [] snow ft fa = Raise IndexError.
Proof.
  unfold simulate_day.
  replace (range 0 (24 * 60) 10) with (0%Z :: tl (range 0 (24 * 60) 10))
    by reflexivity.
  cbn [simulate_loop]. rewrite simulate_step_nil by reflexivity.
  reflexivity.
Qed.

(** C6 (amended). With an empty temperature list [simulate_day] fails at
    its first tick with the built-in [IndexError] of the list access (no
    [InvalidInputError] exists in the program); latitude and longitude
    are not validated: with a non-empty temperature list the run
    returns its 144 rows for every latitude and longitude. *)
Theorem C6_simulate_day_errors date_obj lat lon utc snow ft fa :
  simulate_day date_obj lat lon utc [] snow ft fa = Raise IndexError
  /\ forall (t : R) (temps : list R),
       exists rows,
         simulate_day date_obj lat lon utc (t :: temps) snow ft fa = Ok rows
         /\ length rows = 144%nat.
Proof.
  split.
  - apply simulate_day_empty.
  - intros t temps. apply simulate_day_total. discriminate.
Qed.

End SimulatorFacts.

Section DualVersusFixed.
Import Py Datetime Simulator Aux.

Lemma instant_add_minutes (dt : datetime) (m : Z) :
  instant (add_minutes dt m) = (instant dt + m * 60000000)%Z.
Proof.
  unfold instant, add_minutes, DAY_MICROS. cbn [toordinal day_micros].
  pose proof (Z.div_mod (day_micros dt + m * 60000000) 86400000000
                ltac:(lia)).
  lia.
Qed.

Lemma spaced_range (start step : Z) (a n : nat) :
  (0 < step)%Z ->
  spaced step (map (fun k => (start + step * Z.of_nat k)%Z) (seq a n)).
Proof.
  intro Hs. revert a. induction n as [|n IH]; intro a; cbn; [exact I|].
  split; [|apply IH].
  apply Forall_forall. intros m' Hin.
  apply in_map_iff in Hin. destruct Hin as (k & <- & Hk).
  apply in_seq in Hk. nia.
Qed.

Lemma spaced_day : spaced 10 (range 0 (24 * 60) 10).
Proof. unfold range. apply spaced_range. lia. Qed.

(** A tick at least as far from the last update as the interval passes
    the gate. *)
Lemma gate_open (tracker : TrackingLogic.DualAxisTracker) (start : datetime)
    (m0 m interval : Z) :
  TrackingLogic.last_update_time tracker = Some (add_minutes start m0) ->
  (m0 + interval <= m)%Z ->
  TrackingLogic.interval_not_reached tracker (add_minutes start m) interval
  = false.
Proof.
  intros Hl Hm. unfold TrackingLogic.interval_not_reached. rewrite Hl.
  apply ltb_false. rewrite time_diff_minutes, !instant_add_minutes.
  replace (instant start + m * 60000000 - (instant start + m0 * 60000000))%Z
    with ((m - m0) * 60000000)%Z by lia.
  rewrite mult_IZR.
  assert (H : IZR interval <= IZR (m - m0)) by (apply IZR_le; lia).
  lra.
Qed.

Lemma incidence_le_1 opt tilt azimuth : 0 <= incidence opt tilt azimuth <= 1.
Proof.
  unfold incidence.
  set (a := cos _). set (b := cos _).
  assert (Ha : -1 <= a <= 1) by apply COS_bound.
  assert (Hb : -1 <= b <= 1) by apply COS_bound.
  assert (Hab : a * b <= 1) by nra.
  destruct (max_spec 0.0 (a * b)) as [[H ->]|[H ->]]; lra.
Qed.

Lemma irradiance_nonneg (z : R) : 0 <= z -> 0 <= irradiance_direct z.
Proof.
  intro Hz. unfold irradiance_direct.
  destruct (ltb z 90) eqn:E; [|lra].
  apply ltb_true in E. pose proof PI_RGT_0.
  assert (0 < cos (radians z)); [|lra].
  apply cos_gt_0; unfold radians; nra.
Qed.

Lemma irradiance_night (z : R) : 90 <= z -> irradiance_direct z = 0.
Proof.
  intro Hz. unfold irradiance_direct.
  destruct (ltb z 90) eqn:E; [apply ltb_true in E|]; lra.
Qed.

(** Aligned with the sun, the incidence cosine is 1. *)
Lemma incidence_aligned opt :
  incidence opt (SolarModel.tilt opt) (SolarModel.azimuth opt) = 1.
Proof.
  unfold incidence. rewrite !Rminus_diag.
  unfold radians. rewrite Rmult_0_l, cos_0.
  destruct (max_spec 0.0 (1 * 1)) as [[H ->]|[H ->]]; lra.
Qed.

Lemma sum_le {A : Type} (f g : A -> R) (l : list A) :
  Forall (fun a => f a <= g a) l -> App.sum (map f l) <= App.sum (map g l).
Proof.
  induction 1 as [|a l Ha _ IH]; cbn; [lra|].
  unfold App.sum in IH. lra.
Qed.

(** The dashboard's energies are the integrals of the unscaled powers
    times panel area and efficiency. *)
Lemma sum_scaled (power : Row -> R) (a e : R) (df : list Row) :
  App.sum (App.scaled power a e df) = App.sum (map power df) * (a * e).
Proof.
  unfold App.scaled. induction df as [|r df IH]; cbn; [lra|].
  unfold App.sum in IH. rewrite IH. lra.
Qed.

Lemma energy_dual_scaled (df : list Row) (a e : R) :
  App.energy_dual df a e = App.energy_kwh (map Power_Dual df) * (a * e).
Proof. unfold App.energy_dual, App.energy_kwh. rewrite sum_scaled. lra. Qed.

Lemma energy_fixed_scaled (df : list Row) (a e : R) :
  App.energy_fixed df a e = App.energy_kwh (map Power_Fixed df) * (a * e).
Proof. unfold App.energy_fixed, App.energy_kwh. rewrite sum_scaled. lra. Qed.

Lemma Forall2_right {A B : Type} (P : B -> Prop) (la : list A) (lb : list B) :
  Forall2 (fun _ b => P b) la lb -> Forall P lb.
Proof. induction 1; constructor; auto. Qed.

Section NoWinter.
Variables lat lon utc_offset : R.
Variable temps : list R.
Variable snow_detected : bool.
Variables fixed_tilt fixed_azimuth : R.
Variable start_of_day : datetime.
Hypothesis temps_nonempty : temps <> [].
Hypothesis no_winter :
  snow_detected = false \/ Forall (fun t => 2 <= t) temps.

Lemma no_winter_test temp_now :
  In temp_now temps -> winter temp_now snow_detected = false.
Proof.
  intro Hin. unfold winter. destruct no_winter as [->|Hall].
  - apply andb_false_r.
  - rewrite Forall_forall in Hall. specialize (Hall _ Hin).
    replace (ltb temp_now 2.0) with false; [reflexivity|].
    symmetry. apply ltb_false. lra.
Qed.

Lemma no_winter_step m rest tracker :
  tracking_inv lat lon utc_offset start_of_day (m :: rest) tracker ->
  exists tracker' row,
    simulate_step lat lon utc_offset temps snow_detected fixed_tilt
      fixed_azimuth start_of_day tracker m = Ok (tracker', row)
    /\ tracking_inv lat lon utc_offset start_of_day rest tracker'
    /\ tracking_row row.
Proof.
  intros ((Hsp & Hrest) & Hlat & Hlon & Hutc & Hlast).
  destruct (simulate_step_eq lat lon utc_offset temps snow_detected
              fixed_tilt fixed_azimuth start_of_day tracker m
              temps_nonempty)
    as (temp_now & opt & tracker' & cmd & Hin & Hopt & Hu & Hs).
  exists tracker'. eexists. split; [exact Hs|].
  pose proof (no_winter_test _ Hin) as Hw.
  assert (E : TrackingLogic.interval_not_reached tracker
                (add_minutes start_of_day m)
                (effective_interval temp_now snow_detected 10) = false).
  { unfold effective_interval. rewrite Hw.
    destruct Hlast as [Hn|(m0 & Hl & Hm0)].
    - unfold TrackingLogic.interval_not_reached. rewrite Hn. reflexivity.
    - eapply gate_open; [exact Hl|]. inversion Hm0; assumption. }
  assert (Hopt' : SolarModel.get_target_angles (add_minutes start_of_day m)
                    (TrackingLogic.latitude tracker)
                    (TrackingLogic.longitude tracker)
                    (TrackingLogic.utc_offset tracker) = Ok opt)
    by (rewrite Hlat, Hlon, Hutc; exact Hopt).
  rewrite (update_commit _ _ _ _ _ _ E Hopt') in Hu.
  rewrite Hw in Hu. injection Hu as <- <-.
  destruct (target_angles_ranges (add_minutes start_of_day m) lat lon
              utc_offset) as (opt2 & Hopt2 & Hz & Ha & _ & Htilt).
  rewrite Hopt in Hopt2. injection Hopt2 as <-.
  split.
  - repeat split; try assumption.
    right. exists m. split; [reflexivity|exact Hsp].
  - unfold tracking_row.
    cbn [Power_Dual Power_Fixed Irradiance_W_m2 TrackingLogic.tilt
         TrackingLogic.azimuth].
    destruct (Rlt_le_dec (SolarModel.zenith opt) 90) as [Hday|Hnight].
    + assert (Hn : gtb (SolarModel.zenith opt) 90.0 = false)
        by (apply gtb_false; lra).
      rewrite Hn. rewrite (clamp_id 0.0 90.0) by lra.
      rewrite fmod_id by lra. rewrite incidence_aligned.
      pose proof (irradiance_nonneg (SolarModel.zenith opt) ltac:(lra)).
      pose proof (incidence_le_1 opt fixed_tilt fixed_azimuth).
      split; nra.
    + rewrite (irradiance_night _ Hnight). split; lra.
Qed.

Lemma no_winter_loop tracker' rows :
  simulate_loop lat lon utc_offset temps snow_detected fixed_tilt
    fixed_azimuth start_of_day (range 0 (24 * 60) 10)
    (TrackingLogic.init lat lon utc_offset) [] = Ok (tracker', rows) ->
  Forall tracking_row rows.
Proof.
  intro Hl.
  destruct (simulate_loop_inv lat lon utc_offset temps snow_detected
              fixed_tilt fixed_azimuth start_of_day
              (tracking_inv lat lon utc_offset start_of_day)
              (fun _ => tracking_row) no_winter_step
              (range 0 (24 * 60) 10)
              (TrackingLogic.init lat lon utc_offset) [])
    as (tr & rows' & Hl' & HQ & _).
  - split; [apply spaced_day|]. repeat split. left. reflexivity.
  - rewrite Hl in Hl'. injection Hl' as _ ->.
    eapply Forall2_right, HQ.
Qed.

End NoWinter.

(** C9 (amended). In every [simulate_day] run in which winter mode is
    never active (no snow is detected, or no hourly temperature is below
    2 degrees), the dual-axis power of each of the 144 records equals the
    irradiance and is at least the fixed-mount power, so the dual-axis
    energy integral, sum of power x (10/60) / 1000 kWh, is greater than
    or equal to the fixed-mount one. *)
Theorem C9_dual_ge_fixed_without_winter date_obj lat lon utc temps snow
    fixed_tilt fixed_azimuth rows :
  snow = false \/ Forall (fun t => 2 <= t) temps ->
  simulate_day date_obj lat lon utc temps snow fixed_tilt fixed_azimuth
  = Ok rows ->
  length rows = 144%nat
  /\ Forall (fun r => Power_Dual r = Irradiance_W_m2 r
                      /\ Power_Fixed r <= Power_Dual r) rows
  /\ App.energy_kwh (map Power_Fixed rows)
     <= App.energy_kwh (map Power_Dual rows).
Proof.
  intros Hnw Hrun.
  assert (Hne : temps <> []).
  { intros ->.
    rewrite simulate_day_empty in Hrun. discriminate. }
  destruct (simulate_day_total date_obj lat lon utc temps snow fixed_tilt
              fixed_azimuth Hne) as (rows' & Hrun' & Hlen).
  rewrite Hrun in Hrun'. injection Hrun' as <-.
  split; [exact Hlen|].
  assert (Hrows : Forall (tracking_row) rows).
  { unfold simulate_day in Hrun.
    destruct (simulate_loop _ _ _ _ _ _ _ _ _ _ _) as [[tr rs]|e] eqn:El;
      cbn [bind] in Hrun; [|discriminate].
    injection Hrun as ->.
    eapply no_winter_loop; eauto. }
  split; [exact Hrows|].
  unfold App.energy_kwh.
  assert (App.sum (map Power_Fixed rows) <= App.sum (map Power_Dual rows)).
  { apply sum_le. eapply Forall_impl; [|exact Hrows].
    intros r [_ H]. exact H. }
  lra.
Qed.

End DualVersusFixed.

(* ===================================================================== *)
(** * The equator on the day of zero declination *)
(* ===================================================================== *)

Section Equinox.
Import Py Datetime SolarModel Aux Scenario.

Lemma degrees_radians (x : R) : degrees (radians x) = x.
Proof. unfold radians, degrees. field. apply PI_neq0. Qed.

Lemma radians_0 : radians 0 = 0.
Proof. unfold radians. lra. Qed.

Lemma solar_declination_81 : solar_declination 81 = 0.
Proof.
  unfold solar_declination.
  replace (radians (360.0 / 365.0 * (284 + 81))) with (2 * PI)
    by (unfold radians; lra).
  rewrite sin_2PI. lra.
Qed.

(** The equation of time stays within 21 minutes. *)
Lemma equation_of_time_bound (n : Z) : -21 < equation_of_time n < 21.
Proof.
  unfold equation_of_time. cbv zeta.
  set (B := radians _).
  pose proof (COS_bound B). pose proof (SIN_bound B).
  pose proof (COS_bound (2 * B)). pose proof (SIN_bound (2 * B)).
  lra.
Qed.

Lemma cos_zenith_equinox (h : R) : cos_zenith 0 0 h = cos (radians h).
Proof. unfold cos_zenith. rewrite radians_0, sin_0, cos_0. lra. Qed.

Lemma azimuth_numerator_equinox (h : R) : azimuth_numerator 0 0 h = 0.
Proof. unfold azimuth_numerator. rewrite radians_0, sin_0, cos_0. lra. Qed.

Lemma zenith_rad_equinox (h : R) :
  -180 <= h <= 180 -> zenith_rad_of 0 0 h = radians (Rabs h).
Proof.
  intro Hh. unfold zenith_rad_of. rewrite cos_zenith_equinox.
  pose proof PI_RGT_0 as Hpi.
  assert (Hc : cos (radians h) = cos (radians (Rabs h))).
  { unfold Rabs. destruct (Rcase_abs h); [|reflexivity].
    unfold radians. rewrite <- cos_neg. f_equal. lra. }
  rewrite Hc. apply acos_cos.
  assert (0 <= Rabs h <= 180).
  { unfold Rabs. destruct (Rcase_abs h); lra. }
  unfold radians. split; nra.
Qed.

(** On the equator with zero declination the zenith is the absolute
    hour angle and the sun stands due east or due west. *)
Lemma zenith_and_azimuth_equinox (h : R) :
  -180 <= h <= 180 ->
  zenith_and_azimuth 0 0 h
  = Ok (Rabs h,
        if gtb (sin (radians (Rabs h))) 0.001
        then (if gtb h 0 then 270 else 90) else 0.0).
Proof.
  intro Hh. rewrite zenith_and_azimuth_eq.
  rewrite (zenith_rad_equinox h Hh), degrees_radians.
  rewrite azimuth_numerator_equinox.
  destruct (gtb (sin (radians (Rabs h))) 0.001) eqn:E; [|reflexivity].
  cbv zeta. replace (0 / sin (radians (Rabs h))) with 0
    by (unfold Rdiv; rewrite Rmult_0_l; reflexivity).
  rewrite (clamp_id (-1.0) 1.0) by lra.
  rewrite acos_0.
  replace (degrees (PI / 2)) with 90
    by (unfold degrees; field; apply PI_neq0).
  destruct (gtb h 0); f_equal; f_equal; lra.
Qed.

(** The ticks of the day of the scenario. *)
Lemma equinox_tick (m : Z) :
  (0 <= m < 1440)%Z ->
  add_minutes equinox_start m
  = {| toordinal := 739332; day_micros := m * 60000000 |}.
Proof.
  intro Hm. unfold add_minutes.
  replace (toordinal equinox_start) with 739332%Z by reflexivity.
  replace (day_micros equinox_start) with 0%Z by reflexivity.
  unfold DAY_MICROS. cbn [Z.add].
  rewrite Z.div_small, Z.mod_small by lia.
  f_equal.
Qed.

Lemma equinox_day_of_year (m : Z) :
  (0 <= m < 1440)%Z ->
  get_day_of_year (add_minutes equinox_start m) = 81%Z.
Proof. intro Hm. rewrite equinox_tick by exact Hm. reflexivity. Qed.

(** The local clock time of a tick, in hours. *)
Lemma equinox_clock (m : Z) :
  (0 <= m < 1440)%Z ->
  let dt := add_minutes equinox_start m in
  IZR (hour dt) + IZR (minute dt) / 60.0 + IZR (second dt) / 3600.0
  = IZR m / 60.
Proof.
  intros Hm dt. unfold dt. rewrite equinox_tick by exact Hm.
  unfold hour, minute, second. cbn [day_micros].
  replace (m * 60000000 / 3600000000)%Z with (m / 60)%Z.
  2:{ replace 3600000000%Z with (60000000 * 60)%Z by reflexivity.
      rewrite <- Z.div_div by lia. rewrite Z.div_mul by lia. reflexivity. }
  replace (m * 60000000 / 60000000)%Z with m by (rewrite Z.div_mul; lia).
  replace (m * 60000000 / 1000000)%Z with (m * 60)%Z.
  2:{ replace 60000000%Z with (60 * 1000000)%Z by reflexivity.
      rewrite Z.mul_assoc, Z.div_mul by lia. reflexivity. }
  rewrite Z.mod_mul by lia.
  pose proof (Z.div_mod m 60 ltac:(lia)) as Hdm.
  assert (HR : IZR m = 60 * IZR (m / 60) + IZR (m mod 60)).
  { rewrite Hdm at 1. rewrite plus_IZR, mult_IZR. reflexivity. }
  rewrite HR. lra.
Qed.

Lemma equinox_solar_time (m : Z) :
  (0 <= m < 1440)%Z ->
  calculate_solar_time (add_minutes equinox_start m) 15 0
  = fmod (equinox_solar_hours m) 24.
Proof.
  intro Hm. unfold calculate_solar_time.
  rewrite equinox_day_of_year by exact Hm.
  pose proof (equinox_clock m Hm) as Hc. cbv zeta in Hc. rewrite Hc.
  f_equal. unfold solar_time_correction, standard_meridian,
    equinox_solar_hours. lra.
Qed.

(** The target angles of a tick of the scenario. *)
Lemma equinox_target_angles (m : Z) :
  (0 <= m < 1440)%Z ->
  exists opt,
    get_target_angles (add_minutes equinox_start m) 0 15 0 = Ok opt
    /\ (let h := hour_angle (fmod (equinox_solar_hours m) 24) in
        zenith opt = Rabs h
        /\ tilt opt = Rabs h
        /\ azimuth opt
           = if gtb (sin (radians (Rabs h))) 0.001
             then (if gtb h 0 then 270 else 90) else 0.0).
Proof.
  intro Hm. unfold get_target_angles.
  rewrite equinox_day_of_year by exact Hm.
  rewrite solar_declination_81, equinox_solar_time by exact Hm.
  pose proof (fmod_range (equinox_solar_hours m) 24 ltac:(lra)) as Hr.
  pose proof (hour_angle_range _ Hr) as Hh.
  rewrite zenith_and_azimuth_equinox by lra.
  cbn [bind]. eexists. split; [reflexivity|]. cbn. auto.
Qed.

(** Midnight: the sun is below the horizon. *)
Lemma equinox_midnight :
  exists opt,
    get_target_angles (add_minutes equinox_start 0) 0 15 0 = Ok opt
    /\ 90 < zenith opt.
Proof.
  destruct (equinox_target_angles 0 ltac:(lia)) as (opt & Hopt & Hz & _).
  exists opt. split; [exact Hopt|]. rewrite Hz.
  pose proof (equation_of_time_bound 81) as He.
  assert (Hx : 0.65 < equinox_solar_hours 0 < 1.35)
    by (unfold equinox_solar_hours; lra).
  rewrite fmod_id by lra.
  unfold hour_angle. unfold Rabs. destruct (Rcase_abs _); lra.
Qed.

(** Eight o'clock: the sun is up, due east, 40 to 50 degrees from the
    zenith. *)
Lemma equinox_morning :
  exists opt,
    get_target_angles (add_minutes equinox_start 480) 0 15 0 = Ok opt
    /\ 39 < zenith opt < 51 /\ tilt opt = zenith opt /\ azimuth opt = 90.
Proof.
  destruct (equinox_target_angles 480 ltac:(lia))
    as (opt & Hopt & Hz & Ht & Ha).
  exists opt. split; [exact Hopt|].
  pose proof (equation_of_time_bound 81) as He.
  assert (Hx : 8.65 < equinox_solar_hours 480 < 9.35)
    by (unfold equinox_solar_hours; lra).
  rewrite fmod_id in * by lra.
  set (h := hour_angle (equinox_solar_hours 480)) in *.
  assert (Hh : -51 < h < -39) by (unfold h, hour_angle; lra).
  assert (Habs : Rabs h = - h)
    by (unfold Rabs; destruct (Rcase_abs h); lra).
  rewrite Habs in *.
  split; [lra|]. split; [congruence|].
  rewrite Ha.
  assert (Hs : gtb (sin (radians (- h))) 0.001 = true).
  { apply gtb_true. pose proof PI_RGT_0 as Hpi.
    assert (sin (PI / 6) <= sin (radians (- h))).
    { apply sin_incr_1; unfold radians; nra. }
    rewrite sin_PI6 in H. lra. }
  rewrite Hs.
  replace (gtb h 0) with false; [reflexivity|].
  symmetry. apply gtb_false. lra.
Qed.

End Equinox.

(* ===================================================================== *)
(** * A freezing day on the equator: the tracker loses to a fixed mount *)
(* ===================================================================== *)

Section FrozenEquinox.
Import Py Datetime Simulator Aux Scenario.

Lemma freezing_temp (t : R) : In t freezing -> t = -5.
Proof. intro H. apply repeat_spec in H. exact H. Qed.

Lemma winter_freezing : winter (-5) true = true.
Proof. apply winter_true_iff. split; [lra|reflexivity]. Qed.

(** A panel facing south at any tilt receives nothing from a sun that
    stands due east or due west. *)
Lemma south_panel_dark (m : Z) opt (T : R) :
  (0 <= m < 1440)%Z ->
  SolarModel.get_target_angles (add_minutes equinox_start m) 0 15 0 = Ok opt ->
  0 <= T <= 90 ->
  irradiance_direct (SolarModel.zenith opt) * incidence opt T 180 = 0.
Proof.
  intros Hm Hopt HT.
  destruct (equinox_target_angles m Hm) as (opt' & Hopt' & Hz & Ht & Ha).
  rewrite Hopt in Hopt'. injection Hopt' as <-.
  cbv zeta in *.
  set (h := SolarModel.hour_angle _) in *.
  destruct (Rlt_le_dec (SolarModel.zenith opt) 90) as [Hday|Hnight];
    [|rewrite (irradiance_night _ Hnight); lra].
  assert (Hinc : incidence opt T 180 = 0); [|rewrite Hinc; lra].
  unfold incidence. rewrite Ht, Ha.
  assert (Hpos : 0 <= Rabs h) by apply Rabs_pos.
  pose proof PI_RGT_0 as Hpi.
  destruct (gtb (sin (radians (Rabs h))) 0.001).
  - assert (Hc : cos (radians ((if gtb h 0 then 270 else 90) - 180)) = 0).
    { destruct (gtb h 0).
      - replace (radians (270 - 180)) with (PI / 2)
          by (unfold radians; lra).
        apply cos_PI2.
      - replace (radians (90 - 180)) with (- (PI / 2))
          by (unfold radians; lra).
        rewrite cos_neg. apply cos_PI2. }
    rewrite Hc, Rmult_0_r.
    destruct (max_spec 0.0 0) as [[H ->]|[H ->]]; lra.
  - replace (radians (0.0 - 180)) with (- PI) by (unfold radians; lra).
    rewrite cos_neg, cos_PI.
    assert (0 <= cos (radians (Rabs h - T))).
    { rewrite Hz in Hday. apply cos_ge_0; unfold radians; nra. }
    destruct (max_spec 0.0 (cos (radians (Rabs h - T)) * -1))
      as [[H1 ->]|[H1 ->]]; lra.
Qed.

Lemma fixed_power_nonneg opt (ft fa : R) :
  0 <= SolarModel.zenith opt ->
  0 <= irradiance_direct (SolarModel.zenith opt) * incidence opt ft fa.
Proof.
  intro Hz. apply Rmult_le_pos.
  - apply irradiance_nonneg, Hz.
  - apply incidence_le_1.
Qed.

(** At 08:00 a panel tilted 45 degrees to the east receives power. *)
Lemma east_panel_lit opt :
  SolarModel.get_target_angles (add_minutes equinox_start 480) 0 15 0
  = Ok opt ->
  0 < irradiance_direct (SolarModel.zenith opt) * incidence opt 45 90
  /\ SolarModel.zenith opt < 90.
Proof.
  intro Hopt.
  destruct equinox_morning as (opt' & Hopt' & Hz & Ht & Ha).
  rewrite Hopt in Hopt'. injection Hopt' as <-.
  pose proof PI_RGT_0 as Hpi.
  split; [|lra].
  apply Rmult_lt_0_compat.
  - unfold irradiance_direct.
    replace (ltb (SolarModel.zenith opt) 90) with true
      by (symmetry; apply ltb_true; lra).
    assert (0 < cos (radians (SolarModel.zenith opt))); [|lra].
    apply cos_gt_0; unfold radians; nra.
  - unfold incidence. rewrite Ht, Ha.
    replace (radians (90 - 90)) with 0 by (unfold radians; lra).
    rewrite cos_0.
    assert (0 < cos (radians (SolarModel.zenith opt - 45))).
    { apply cos_gt_0; unfold radians; nra. }
    destruct (max_spec 0.0 (cos (radians (SolarModel.zenith opt - 45)) * 1))
      as [[H1 ->]|[H1 ->]]; lra.
Qed.

Lemma frozen_step m rest tracker :
  frozen_inv (m :: rest) tracker ->
  exists tracker' row,
    simulate_step 0 15 0 freezing true 45 90 equinox_start tracker m
    = Ok (tracker', row)
    /\ frozen_inv rest tracker' /\ frozen_row m row.
Proof.
  intros (Hlat & Hlon & Hutc & Htilt & Hticks & Haz).
  assert (Hm : (0 <= m < 1440)%Z) by (inversion Hticks; assumption).
  assert (Hrest : Forall (fun m => (0 <= m < 1440)%Z) rest)
    by (inversion Hticks; assumption).
  destruct (simulate_step_eq 0 15 0 freezing true 45 90 equinox_start
              tracker m ltac:(discriminate))
    as (temp_now & opt & tracker' & cmd & Hin & Hopt & Hu & Hs).
  apply freezing_temp in Hin. subst temp_now.
  exists tracker'. eexists. split; [exact Hs|].
  assert (Hopt' : SolarModel.get_target_angles (add_minutes equinox_start m)
                    (TrackingLogic.latitude tracker)
                    (TrackingLogic.longitude tracker)
                    (TrackingLogic.utc_offset tracker) = Ok opt)
    by (rewrite Hlat, Hlon, Hutc; exact Hopt).
  (* the command of the tick *)
  assert (Hcmd : TrackingLogic.azimuth cmd = 180
                 /\ 0 <= TrackingLogic.tilt cmd <= 90
                 /\ TrackingLogic.latitude tracker' = 0
                 /\ TrackingLogic.longitude tracker' = 15
                 /\ TrackingLogic.utc_offset tracker' = 0
                 /\ TrackingLogic.current_tilt tracker' = TrackingLogic.tilt cmd
                 /\ TrackingLogic.current_azimuth tracker'
                    = TrackingLogic.azimuth cmd).
  { destruct (TrackingLogic.interval_not_reached tracker
                (add_minutes equinox_start m)
                (effective_interval (-5) true 10)) eqn:E.
    - rewrite (update_skip _ _ _ _ _ E) in Hu. injection Hu as <- <-.
      cbn. destruct Haz as [Haz|[Hnone _]].
      + repeat split; auto; lra.
      + unfold TrackingLogic.interval_not_reached in E.
        rewrite Hnone in E. discriminate.
    - rewrite (update_commit _ _ _ _ _ _ E Hopt') in Hu.
      injection Hu as <- <-.
      cbn [TrackingLogic.azimuth TrackingLogic.tilt TrackingLogic.latitude
           TrackingLogic.longitude TrackingLogic.utc_offset
           TrackingLogic.current_tilt TrackingLogic.current_azimuth].
      rewrite winter_freezing.
      assert (Hfm : fmod (if gtb (SolarModel.zenith opt) 90.0 then 180.0
                          else TrackingLogic.current_azimuth tracker) 360.0
                    = 180).
      { destruct Haz as [Haz|[_ [rest' Hr]]].
        - rewrite Haz. destruct (gtb _ _); rewrite fmod_id; lra.
        - injection Hr as -> _.
          destruct equinox_midnight as (opt0 & Hopt0 & Hz0).
          rewrite Hopt in Hopt0. injection Hopt0 as <-.
          replace (gtb (SolarModel.zenith opt) 90.0) with true
            by (symmetry; apply gtb_true; lra).
          rewrite fmod_id; lra. }
      rewrite Hfm. split; [reflexivity|]. split.
      + match goal with |- 0 <= max 0.0 (min 90.0 ?x) <= 90 =>
          pose proof (clamp_range 0.0 90.0 x) end. lra.
      + repeat split; auto. }
  destruct Hcmd as (Hca & Hct & Hlat' & Hlon' & Hutc' & Hct' & Hca').
  split.
  - repeat split; auto; try lra.
  - unfold frozen_row. cbn [Power_Dual Power_Fixed Zenith].
    rewrite Hca.
    destruct (target_angles_ranges (add_minutes equinox_start m) 0 15 0)
      as (opt2 & Hopt2 & Hz2 & _).
    rewrite Hopt in Hopt2. injection Hopt2 as <-.
    split; [apply (south_panel_dark m opt _ Hm Hopt Hct)|].
    split; [apply fixed_power_nonneg; lra|].
    intros ->. apply east_panel_lit, Hopt.
Qed.

Lemma day_ticks_range : Forall (fun m => (0 <= m < 1440)%Z) (range 0 (24 * 60) 10).
Proof.
  unfold range. change (Z.to_nat _) with 144%nat.
  apply Forall_forall. intros m Hin.
  apply in_map_iff in Hin. destruct Hin as (k & <- & Hk).
  apply in_seq in Hk. lia.
Qed.

Lemma Forall2_In_l {A B : Type} (Q : A -> B -> Prop) la lb a :
  Forall2 Q la lb -> In a la -> exists b, In b lb /\ Q a b.
Proof.
  induction 1 as [|x y la lb Hxy _ IH]; intro Hin; [contradiction|].
  destruct Hin as [->|Hin].
  - exists y. split; [left; reflexivity|exact Hxy].
  - destruct (IH Hin) as (b & Hb & HQ). exists b. split; [right|]; auto.
Qed.

Lemma Forall2_Forall_r {A B : Type} (Q : A -> B -> Prop) (P : B -> Prop) la lb :
  (forall a b, Q a b -> P b) -> Forall2 Q la lb -> Forall P lb.
Proof. intros H. induction 1; constructor; eauto. Qed.

Lemma sum_zero {A : Type} (f : A -> R) (l : list A) :
  Forall (fun a => f a = 0) l -> App.sum (map f l) = 0.
Proof.
  induction 1 as [|a l Ha _ IH]; cbn; [reflexivity|].
  unfold App.sum in IH. lra.
Qed.

Lemma sum_nonneg {A : Type} (f : A -> R) (l : list A) :
  Forall (fun a => 0 <= f a) l -> 0 <= App.sum (map f l).
Proof.
  induction 1 as [|a l Ha _ IH]; cbn; [lra|].
  unfold App.sum in IH. lra.
Qed.

Lemma sum_pos {A : Type} (f : A -> R) (l : list A) (b : A) :
  Forall (fun a => 0 <= f a) l -> In b l -> 0 < f b ->
  0 < App.sum (map f l).
Proof.
  induction 1 as [|a l Ha Hl IH]; intros Hin Hb; [contradiction|].
  cbn. pose proof (sum_nonneg f l Hl) as Hs. unfold App.sum in *.
  destruct Hin as [->|Hin]; [lra|].
  specialize (IH Hin Hb). lra.
Qed.

(** The run of the scenario. *)
Lemma frozen_run :
  exists rows,
    simulate_day equinox 0 15 0 freezing true 45 90 = Ok rows
    /\ Forall2 frozen_row (range 0 (24 * 60) 10) rows.
Proof.
  destruct (simulate_loop_inv 0 15 0 freezing true 45 90 equinox_start
              frozen_inv frozen_row frozen_step
              (range 0 (24 * 60) 10) equator_tracker [])
    as (tr & rows & Hl & HQ & _).
  - unfold frozen_inv, equator_tracker. cbn.
    repeat split; try lra.
    + apply day_ticks_range.
    + right. split; [reflexivity|].
      exists (tl (range 0 (24 * 60) 10)). reflexivity.
  - exists rows. split; [|exact HQ].
    eapply simulate_day_of_loop. exact Hl.
Qed.

End FrozenEquinox.

(** C9, counterexample.  On the equator at 15 degrees east, on 2025-03-22,
    with -5 degrees all day and snow detected, against a fixed mount
    tilted 45 degrees and facing east (azimuth 90): the sun rises (its
    zenith is below 90 degrees at 08:00), the dual-axis energy integral
    is zero and the fixed-mount one is positive. *)
Lemma C9_counterexample :
  exists rows,
    Simulator.simulate_day Scenario.equinox 0 15 0 Scenario.freezing true 45 90
    = Py.Ok rows
    /\ (exists r, In r rows /\ Simulator.Zenith r < 90)
    /\ App.energy_kwh (map Simulator.Power_Dual rows) = 0
    /\ 0 < App.energy_kwh (map Simulator.Power_Fixed rows)
    /\ ~ (App.energy_kwh (map Simulator.Power_Fixed rows)
          <= App.energy_kwh (map Simulator.Power_Dual rows)).
Proof.
  destruct frozen_run as (rows & Hrun & HQ).
  exists rows. split; [exact Hrun|].
  assert (Hin : In 480%Z (Py.range 0 (24 * 60) 10)).
  { unfold Py.range. apply in_map_iff. exists 48%nat.
    split; [reflexivity|]. apply in_seq. cbn. lia. }
  destruct (Forall2_In_l _ _ _ _ HQ Hin) as (r & Hr & _ & _ & H480).
  destruct (H480 eq_refl) as [Hpos Hzen].
  assert (Hd : App.sum (map Simulator.Power_Dual rows) = 0).
  { apply sum_zero. eapply Forall2_Forall_r; [|exact HQ].
    intros a b (H & _). exact H. }
  assert (Hf : 0 < App.sum (map Simulator.Power_Fixed rows)).
  { eapply sum_pos; [|exact Hr|exact Hpos].
    eapply Forall2_Forall_r; [|exact HQ]. intros a b (_ & H & _). exact H. }
  split; [exists r; auto|].
  unfold App.energy_kwh. rewrite Hd.
  repeat split; try lra.
Qed.

(** C1, counterexample.  A fresh tracker on the equator (azimuth 0), called
    at midnight of 2025-03-22 with -5 degrees and snow detected: winter
    mode is active, the call is not skipped, the zenith exceeds 90
    degrees, and the committed azimuth is 180, not the azimuth 0 from
    before the call. *)
Lemma C1_counterexample :
  exists self' cmd,
    TrackingLogic.update Scenario.equator_tracker Scenario.equinox (-5) true 10
    = Py.Ok (self', cmd)
    /\ TrackingLogic.winter_mode cmd = true
    /\ TrackingLogic.action cmd <> TrackingLogic.skip
    /\ TrackingLogic.current_azimuth Scenario.equator_tracker = 0
    /\ TrackingLogic.azimuth cmd = 180
    /\ TrackingLogic.azimuth cmd
       <> TrackingLogic.current_azimuth Scenario.equator_tracker.
Proof.
  destruct equinox_midnight as (opt & Hopt & Hz).
  replace (Datetime.add_minutes Scenario.equinox_start 0)
    with Scenario.equinox in Hopt by reflexivity.
  assert (E : TrackingLogic.interval_not_reached Scenario.equator_tracker
                Scenario.equinox (Aux.effective_interval (-5) true 10) = false)
    by reflexivity.
  pose proof (update_commit Scenario.equator_tracker Scenario.equinox (-5)
                true 10 opt E Hopt) as Hu.
  cbv zeta in Hu. rewrite winter_freezing in Hu.
  replace (Py.gtb (SolarModel.zenith opt) 90.0) with true in Hu
    by (symmetry; apply gtb_true; lra).
  eexists. eexists. split; [exact Hu|]. cbn.
  rewrite fmod_id by lra.
  repeat split; try lra; discriminate.
Qed.

(** C2, counterexample.  A tracker that moved at noon with winter mode off
    is called five minutes later with -5 degrees and snow detected: the
    call is skipped, and [is_winter_mode_active] has changed from false
    to true. *)
Lemma C2_counterexample :
  exists self' cmd,
    TrackingLogic.update Scenario.moved_at_noon Scenario.five_past_noon
      (-5) true 10 = Py.Ok (self', cmd)
    /\ TrackingLogic.action cmd = TrackingLogic.skip
    /\ TrackingLogic.is_winter_mode_active Scenario.moved_at_noon = false
    /\ TrackingLogic.is_winter_mode_active self' = true
    /\ TrackingLogic.is_winter_mode_active self'
       <> TrackingLogic.is_winter_mode_active Scenario.moved_at_noon.
Proof.
  assert (E : TrackingLogic.interval_not_reached Scenario.moved_at_noon
                Scenario.five_past_noon
                (Aux.effective_interval (-5) true 10) = true).
  { unfold Aux.effective_interval. rewrite winter_freezing.
    unfold TrackingLogic.interval_not_reached. cbn [TrackingLogic.last_update_time Scenario.moved_at_noon].
    apply ltb_true. rewrite time_diff_minutes.
    replace (Aux.instant Scenario.five_past_noon - Aux.instant Scenario.noon)%Z
      with 300000000%Z by reflexivity.
    lra. }
  eexists. eexists. split; [apply update_skip, E|].
  cbn. rewrite winter_freezing. repeat split; discriminate.
Qed.

(** C6, counterexample.  An empty temperature list makes [simulate_day]
    raise [IndexError], which is not [InvalidInputError]; a latitude of
    100 degrees and a longitude of 200 degrees raise nothing. *)
Lemma C6_counterexample :
  Simulator.simulate_day (Datetime.make 2025 1 15 0 0 0) 35 (-118) (-8) []
    true 30 180 = Py.Raise Py.IndexError
  /\ Simulator.simulate_day (Datetime.make 2025 1 15 0 0 0) 35 (-118) (-8) []
       true 30 180 <> Py.Raise Py.InvalidInputError
  /\ Py.is_ok (Simulator.simulate_day (Datetime.make 2025 1 15 0 0 0)
                 100 200 (-8) [-5] true 30 180) = true.
Proof.
  assert (H : Simulator.simulate_day (Datetime.make 2025 1 15 0 0 0) 35 (-118)
                (-8) [] true 30 180 = Py.Raise Py.IndexError)
    by apply simulate_day_empty.
  split; [exact H|]. split.
  - rewrite H. discriminate.
  - destruct (simulate_day_total (Datetime.make 2025 1 15 0 0 0) 100 200 (-8)
                [-5] true 30 180) as (rows & -> & _); [discriminate|].
    reflexivity.
Qed.

(* ===================================================================== *)
(** * The solar time in binary64 arithmetic *)
(* ===================================================================== *)

(** C7.  The claim bounds the solar time strictly below 24.  In binary64
    arithmetic [calculate_solar_time] returns exactly 24.0 at midnight of
    2025-01-01 for UTC offset 0 and longitude 0.7260422399999998: the
    time correction is -4.4e-16 minutes, the sum to be wrapped is
    -7.4e-18 hours, and 24 plus that remainder rounds to 24.  (In exact
    arithmetic the three ranges hold: [solar_position_ranges_exact].) *)
Theorem C7_solar_time_reaches_24 :
  Binary64.calculate_solar_time Scenario.new_year
    Scenario.longitude_new_year 0%float = Some 24%float
  /\ PrimFloat.ltb 24 24 = false
  /\ Datetime.tm_yday Scenario.new_year = 1%Z.
Proof. vm_compute. repeat split. Qed.

(* ===================================================================== *)
(** * The theorems at concrete inputs *)
(* ===================================================================== *)


(** [C1_winter_azimuth] at 08:00 on the equator, in winter mode: the
    azimuth of the fresh tracker is kept. *)
Lemma C1_winter_azimuth_witness :
  exists self' cmd,
    TrackingLogic.update Scenario.equator_tracker
      (Datetime.add_minutes Scenario.equinox_start 480) (-5) true 10
    = Py.Ok (self', cmd)
    /\ TrackingLogic.azimuth cmd
       = TrackingLogic.current_azimuth Scenario.equator_tracker.
Proof.
  destruct equinox_morning as (opt & Hopt & Hz & _).
  assert (E : TrackingLogic.interval_not_reached Scenario.equator_tracker
                (Datetime.add_minutes Scenario.equinox_start 480)
                (Aux.effective_interval (-5) true 10) = false)
    by reflexivity.
  pose proof (update_commit Scenario.equator_tracker
                (Datetime.add_minutes Scenario.equinox_start 480) (-5)
                true 10 opt E Hopt) as Hu.
  cbv zeta in Hu.
  eexists. eexists. split; [exact Hu|].
  refine (proj2 (proj2 (proj1 (C1_winter_azimuth Scenario.equator_tracker
            (Datetime.add_minutes Scenario.equinox_start 480) (-5) true 10
            _ _ opt _ eq_refl Hu _ Hopt) _)) _).
  - lra.
  - cbn. destruct (Py.gtb _ _); destruct (Aux.winter _ _); discriminate.
  - lra.
  - cbn. lra.
Defined.

(** [C2_skip_frame] five minutes after an update, in winter mode. *)
Lemma C2_skip_frame_witness :
  exists self' cmd,
    TrackingLogic.update Scenario.moved_at_noon Scenario.five_past_noon
      (-5) true 10 = Py.Ok (self', cmd)
    /\ TrackingLogic.action cmd = TrackingLogic.skip
    /\ TrackingLogic.current_tilt self' = 30
    /\ TrackingLogic.last_update_time self' = Some Scenario.noon.
Proof.
  destruct (C2_skip_frame Scenario.moved_at_noon Scenario.five_past_noon (-5)
              true 10 Scenario.noon eq_refl)
    as (self' & cmd & Hu & Hs & _ & _ & _ & _ & _ & Ht & _ & Hl & _).
  - rewrite time_diff_minutes.
    replace (Aux.instant Scenario.five_past_noon - Aux.instant Scenario.noon)%Z
      with 300000000%Z by reflexivity.
    replace (Py.ltb (-5) 2.0) with true by (symmetry; apply ltb_true; lra).
    cbn [andb]. lra.
  - exists self', cmd. repeat split; assumption.
Defined.


(** [C9_dual_ge_fixed_without_winter] on the equator without snow. *)
Lemma C9_dual_ge_fixed_without_winter_witness :
  exists rows,
    Simulator.simulate_day Scenario.equinox 0 15 0 Scenario.freezing false
      45 90 = Py.Ok rows
    /\ App.energy_kwh (map Simulator.Power_Fixed rows)
       <= App.energy_kwh (map Simulator.Power_Dual rows).
Proof.
  destruct (simulate_day_total Scenario.equinox 0 15 0 Scenario.freezing false
              45 90) as (rows & Hrun & _).
  - discriminate.
  - exists rows. split; [exact Hrun|].
    exact (proj2 (proj2 (C9_dual_ge_fixed_without_winter Scenario.equinox 0 15
                           0 Scenario.freezing false 45 90 rows
                           (or_introl eq_refl) Hrun))).
Defined.

(* ===================================================================== *)
(** * Further properties of the solar position model *)
(* ===================================================================== *)

Section SolarExtras.
Import Py SolarModel Aux.

(** X1. The solar declination stays within 23.45 degrees of the equator
    for every day number, also outside 1..366. *)
Theorem X1_declination_bounded (n : Z) :
  -23.45 <= solar_declination n <= 23.45.
Proof.
  unfold solar_declination. cbv zeta.
  set (a := radians _). pose proof (SIN_bound a). lra.
Qed.

(** X2. The equation of time stays within 20.51 minutes for every day
    number, so the time correction differs from four minutes per degree
    of longitude east of the standard meridian by at most that much. *)
Theorem X2_equation_of_time_bounded (n : Z) (longitude utc_offset_hours : R) :
  -20.51 <= equation_of_time n <= 20.51
  /\ Rabs (solar_time_correction longitude utc_offset_hours n
           - 4 * (longitude - 15 * utc_offset_hours)) <= 20.51.
Proof.
  assert (H : -20.51 <= equation_of_time n <= 20.51).
  { unfold equation_of_time. cbv zeta. set (B := radians _).
    pose proof (COS_bound B). pose proof (SIN_bound B).
    pose proof (COS_bound (2 * B)). pose proof (SIN_bound (2 * B)). lra. }
  split; [exact H|].
  unfold solar_time_correction, standard_meridian. cbv zeta.
  apply Rabs_le. lra.
Qed.

(** X3. The solar time depends on longitude and UTC offset only through
    the distance to the standard meridian: one hour more of UTC offset
    together with 15 degrees more of longitude leaves it unchanged
    (floats read as real numbers). *)
Theorem X3_solar_time_time_zone (dt : Datetime.datetime) (lon utc : R) :
  calculate_solar_time dt (lon + 15) (utc + 1) = calculate_solar_time dt lon utc.
Proof.
  unfold calculate_solar_time, solar_time_correction, standard_meridian.
  cbv zeta. f_equal. lra.
Qed.

Lemma acos_cos_abs (d : R) :
  -180 <= d <= 180 -> acos (cos (radians d)) = radians (Rabs d).
Proof.
  intro Hd. pose proof PI_RGT_0 as Hpi.
  assert (Hc : cos (radians d) = cos (radians (Rabs d))).
  { unfold Rabs. destruct (Rcase_abs d); [|reflexivity].
    unfold radians. rewrite <- cos_neg. f_equal. lra. }
  rewrite Hc. apply acos_cos.
  assert (0 <= Rabs d <= 180) by (unfold Rabs; destruct (Rcase_abs d); lra).
  unfold radians. split; nra.
Qed.

Lemma cos_zenith_noon (lat dec : R) :
  cos_zenith lat dec 0 = cos (radians (lat - dec)).
Proof.
  unfold cos_zenith.
  replace (radians 0) with 0 by (unfold radians; lra).
  replace (radians (lat - dec)) with (radians lat - radians dec)
    by (unfold radians; lra).
  rewrite cos_0, cos_minus. lra.
Qed.

(** X4. At solar noon (hour angle 0) the zenith angle is the absolute
    difference of latitude and declination (floats read as real
    numbers). *)
Theorem X4_noon_zenith (lat dec : R) :
  -180 <= lat - dec <= 180 ->
  exists azimuth,
    zenith_and_azimuth lat dec 0 = Ok (Rabs (lat - dec), azimuth).
Proof.
  intro Hd. rewrite zenith_and_azimuth_eq.
  unfold zenith_rad_of. rewrite cos_zenith_noon, acos_cos_abs by exact Hd.
  rewrite degrees_radians. eexists. reflexivity.
Qed.

(** X5. With the sun overhead (latitude equal to declination, hour angle
    0) the zenith is 0 (floats read as real numbers) and the azimuth,
    whose direction is undefined there, is 0 by the convention of the
    else-branch. *)
Theorem X5_overhead_sun (x : R) :
  zenith_and_azimuth x x 0 = Ok (0, 0).
Proof.
  rewrite zenith_and_azimuth_eq.
  unfold zenith_rad_of. rewrite cos_zenith_noon.
  replace (radians (x - x)) with 0 by (unfold radians; lra).
  rewrite cos_0, acos_1, sin_0.
  replace (gtb 0 0.001) with false by (symmetry; apply gtb_false; lra).
  f_equal. f_equal; [unfold degrees|]; lra.
Qed.

(** X6. Morning and afternoon are mirror images: for an hour angle h > 0
    the zenith at h equals the zenith at -h, the morning azimuth lies in
    [0, 180], and the afternoon azimuth is 360 minus the morning one
    (on the else-branch, where the sine of the zenith is at most 0.001,
    both are 0). *)
Theorem X6_afternoon_mirror (lat dec h : R) :
  0 < h ->
  exists zenith morning,
    zenith_and_azimuth lat dec (- h) = Ok (zenith, morning)
    /\ 0 <= morning <= 180
    /\ (zenith_and_azimuth lat dec h = Ok (zenith, 360 - morning)
        \/ (morning = 0 /\ zenith_and_azimuth lat dec h = Ok (zenith, 0))).
Proof.
  intro Hh. rewrite !zenith_and_azimuth_eq.
  assert (Hz : zenith_rad_of lat dec (- h) = zenith_rad_of lat dec h).
  { unfold zenith_rad_of, cos_zenith.
    replace (radians (- h)) with (- radians h) by (unfold radians; lra).
    rewrite cos_neg. reflexivity. }
  assert (Hn : azimuth_numerator lat dec (- h) = azimuth_numerator lat dec h).
  { unfold azimuth_numerator.
    replace (radians (- h)) with (- radians h) by (unfold radians; lra).
    rewrite cos_neg. reflexivity. }
  rewrite Hz, Hn.
  replace (gtb (- h) 0) with false by (symmetry; apply gtb_false; lra).
  replace (gtb h 0) with true by (symmetry; apply gtb_true; lra).
  eexists. eexists. split; [reflexivity|].
  destruct (gtb (sin (zenith_rad_of lat dec h)) 0.001).
  - cbv zeta. split; [apply degrees_acos_range|]. left. reflexivity.
  - split; [lra|]. right. split; [lra|]. f_equal. f_equal. lra.
Qed.

(** X7. [zenith_and_azimuth] returns normally for all real arguments,
    also for latitudes, declinations and hour angles out of their
    geographic ranges: the clamps keep [acos] in its domain and the test
    on sin(zenith) keeps the divisor away from zero.  The zenith is in
    [0, 180] and the azimuth in [0, 360]. *)
Theorem X7_zenith_and_azimuth_total (lat dec h : R) :
  exists zenith azimuth,
    zenith_and_azimuth lat dec h = Ok (zenith, azimuth)
    /\ 0 <= zenith <= 180
    /\ 0 <= azimuth <= 360.
Proof.
  rewrite zenith_and_azimuth_eq. eexists. eexists.
  split; [reflexivity|]. split; [apply degrees_acos_range|].
  destruct (gtb (sin (zenith_rad_of lat dec h)) 0.001); [|lra].
  cbv zeta. set (g := max (-1.0) (min 1.0 _)).
  pose proof (degrees_acos_range g).
  destruct (gtb h 0); lra.
Qed.

End SolarExtras.

(** [X4_noon_zenith] in Los Angeles at the winter solstice declination. *)
Lemma X4_noon_zenith_witness :
  exists azimuth,
    SolarModel.zenith_and_azimuth 35 (-23) 0 = Py.Ok (Rabs (35 - -23), azimuth).
Proof. apply X4_noon_zenith. lra. Defined.

(** [X6_afternoon_mirror] three hours from solar noon. *)
Lemma X6_afternoon_mirror_witness :
  exists zenith morning,
    SolarModel.zenith_and_azimuth 35 (-23) (- 45) = Py.Ok (zenith, morning)
    /\ 0 <= morning <= 180
    /\ (SolarModel.zenith_and_azimuth 35 (-23) 45 = Py.Ok (zenith, 360 - morning)
        \/ (morning = 0
            /\ SolarModel.zenith_and_azimuth 35 (-23) 45 = Py.Ok (zenith, 0))).
Proof. apply (X6_afternoon_mirror 35 (-23) 45). lra. Defined.

(* ===================================================================== *)
(** * Further properties of the tracker state machine *)
(* ===================================================================== *)

Section TrackerExtras.
Import Py Datetime TrackingLogic Aux.

(** X8. Every call of [update] returns normally.  The winter flag of the
    tracker after the call is decided by the temperature and the snow
    flag of this call alone (below 2 degrees with snow), whatever the
    flag was before and also when the call is skipped; the returned
    winter mode, tilt and azimuth are those stored in the tracker after
    the call; the location of the tracker never changes. *)
Theorem X8_update_reports_state (self : DualAxisTracker) (dt : datetime)
    (temp : R) (snow : bool) (interval : Z) :
  exists self' cmd,
    update self dt temp snow interval = Ok (self', cmd)
    /\ (is_winter_mode_active self' = true <-> temp < 2 /\ snow = true)
    /\ winter_mode cmd = is_winter_mode_active self'
    /\ tilt cmd = current_tilt self'
    /\ azimuth cmd = current_azimuth self'
    /\ latitude self' = latitude self
    /\ longitude self' = longitude self
    /\ utc_offset self' = utc_offset self.
Proof.
  destruct (interval_not_reached self dt
              (effective_interval temp snow interval)) eqn:E.
  - eexists. eexists. split; [apply update_skip, E|].
    cbn. split; [apply winter_true_iff|]. repeat split; reflexivity.
  - destruct (target_angles_ranges dt (latitude self) (longitude self)
                (utc_offset self)) as (t & Ht & _).
    pose proof (update_commit self dt temp snow interval t E Ht) as Hu.
    cbv zeta in Hu. eexists. eexists. split; [exact Hu|].
    cbn. split; [apply winter_true_iff|]. repeat split; reflexivity.
Qed.

(** X9. A call that is not skipped is classified by the sun and the
    winter test: the action is [stow] exactly when the zenith exceeds 90
    degrees, [winter_optimized] exactly when the sun is up and winter
    mode is active, and [track] exactly when the sun is up and winter
    mode is inactive; the night override wins over winter mode. *)
Theorem X9_action_classification (self : DualAxisTracker) (dt : datetime)
    (temp : R) (snow : bool) (interval : Z) (self' : DualAxisTracker)
    (cmd : Command) (t : SolarModel.TargetAngles) :
  update self dt temp snow interval = Ok (self', cmd) ->
  action cmd <> skip ->
  SolarModel.get_target_angles dt (latitude self) (longitude self)
    (utc_offset self) = Ok t ->
  (action cmd = stow <-> 90 < SolarModel.zenith t)
  /\ (action cmd = winter_optimized
      <-> SolarModel.zenith t <= 90 /\ temp < 2 /\ snow = true)
  /\ (action cmd = track
      <-> SolarModel.zenith t <= 90 /\ ~ (temp < 2 /\ snow = true)).
Proof.
  intros Hu Hs Ht.
  pose proof (not_skip_gate _ _ _ _ _ _ _ Hu Hs) as E.
  rewrite (update_commit _ _ _ _ _ _ E Ht) in Hu.
  injection Hu as <- <-. cbn [action].
  pose proof (winter_true_iff temp snow) as Hw.
  destruct (gtb (SolarModel.zenith t) 90.0) eqn:En.
  - apply gtb_true in En.
    repeat split; try discriminate; intros; try lra.
  - apply gtb_false in En.
    destruct (winter temp snow).
    + repeat split; try discriminate; intros; try lra; try tauto.
    + assert (Hnw : ~ (temp < 2 /\ snow = true))
        by (intro Hc; apply Hw in Hc; discriminate).
      repeat split; try discriminate; intros; try lra; try tauto.
Qed.

(** X10. With winter mode inactive and the sun up (zenith at most 90
    degrees), a call that is not skipped points the panel at the sun: the
    action is [track], the committed tilt is the zenith angle (the limit
    clamp changes nothing) and the committed azimuth is the solar azimuth
    taken modulo 360: the solar azimuth itself when it is below 360, and
    0 for a solar azimuth of exactly 360, which the float computation
    of [zenith_and_azimuth] can return. *)
Theorem X10_tracking_points_at_sun (self : DualAxisTracker) (dt : datetime)
    (temp : R) (snow : bool) (interval : Z) (self' : DualAxisTracker)
    (cmd : Command) (t : SolarModel.TargetAngles) :
  2 <= temp \/ snow = false ->
  update self dt temp snow interval = Ok (self', cmd) ->
  action cmd <> skip ->
  SolarModel.get_target_angles dt (latitude self) (longitude self)
    (utc_offset self) = Ok t ->
  SolarModel.zenith t <= 90 ->
  action cmd = track
  /\ tilt cmd = SolarModel.zenith t
  /\ azimuth cmd = fmod (SolarModel.azimuth t) 360
  /\ (0 <= SolarModel.azimuth t < 360 -> azimuth cmd = SolarModel.azimuth t)
  /\ current_tilt self' = tilt cmd
  /\ current_azimuth self' = azimuth cmd
  /\ zenith cmd = Some (SolarModel.zenith t).
Proof.
  intros Hnw Hu Hs Ht Hz.
  pose proof (not_skip_gate _ _ _ _ _ _ _ Hu Hs) as E.
  rewrite (update_commit _ _ _ _ _ _ E Ht) in Hu.
  injection Hu as <- <-.
  cbn [action tilt azimuth current_tilt current_azimuth zenith].
  assert (Hw : winter temp snow = false).
  { destruct (winter temp snow) eqn:Ew; [|reflexivity].
    apply winter_true_iff in Ew. destruct Ew as [H1 H2].
    destruct Hnw as [Hn|Hn]; [lra|congruence]. }
  assert (Hn : gtb (SolarModel.zenith t) 90.0 = false)
    by (apply gtb_false; lra).
  rewrite Hw, Hn.
  destruct (target_angles_ranges dt (latitude self) (longitude self)
              (utc_offset self)) as (t' & Ht' & Hzr & _ & _ & Htilt).
  rewrite Ht in Ht'. injection Ht' as <-.
  rewrite Htilt.
  rewrite (clamp_id 0.0 90.0) by lra.
  replace 360.0 with 360 by lra.
  split; [reflexivity|]. split; [reflexivity|]. split; [reflexivity|].
  split; [intro Ha; apply fmod_id, Ha|].
  repeat split; reflexivity.
Qed.

(** X11. With winter mode active, a call that is not skipped commits a
    tilt of at least 65 and at most 90 degrees: the larger of the zenith
    angle and 65 while the sun is up, and 65 at night. *)
Theorem X11_winter_tilt_floor (self : DualAxisTracker) (dt : datetime)
    (temp : R) (snow : bool) (interval : Z) (self' : DualAxisTracker)
    (cmd : Command) (t : SolarModel.TargetAngles) :
  temp < 2 -> snow = true ->
  update self dt temp snow interval = Ok (self', cmd) ->
  action cmd <> skip ->
  SolarModel.get_target_angles dt (latitude self) (longitude self)
    (utc_offset self) = Ok t ->
  65 <= tilt cmd <= 90
  /\ current_tilt self' = tilt cmd
  /\ (SolarModel.zenith t <= 90 -> tilt cmd = Rmax (SolarModel.zenith t) 65)
  /\ (90 < SolarModel.zenith t -> tilt cmd = 65).
Proof.
  intros Htemp Hsnow Hu Hs Ht.
  pose proof (not_skip_gate _ _ _ _ _ _ _ Hu Hs) as E.
  rewrite (update_commit _ _ _ _ _ _ E Ht) in Hu.
  injection Hu as <- <-. cbn [tilt current_tilt].
  assert (Hw : winter temp snow = true) by (apply winter_true_iff; auto).
  rewrite Hw.
  destruct (target_angles_ranges dt (latitude self) (longitude self)
              (utc_offset self)) as (t' & Ht' & Hzr & _ & _ & Htilt).
  rewrite Ht in Ht'. injection Ht' as <-.
  rewrite Htilt.
  destruct (gtb (SolarModel.zenith t) 90.0) eqn:En.
  - apply gtb_true in En.
    rewrite (clamp_id 0.0 90.0) by lra.
    repeat split; intros; lra.
  - apply gtb_false in En.
    assert (Hm : 65 <= max (SolarModel.zenith t) 65.0 <= 90)
      by (destruct (max_spec (SolarModel.zenith t) 65.0) as [[? ->]|[? ->]]; lra).
    rewrite (clamp_id 0.0 90.0) by lra.
    repeat split; intros; try lra.
    rewrite max_Rmax. f_equal. lra.
Qed.

(** X12. Rate limiting across two calls: after a call that was not
    skipped at time [dt], a second call earlier than the effective
    interval of the second call after [dt] (60 minutes if the second call
    is in winter mode, its own interval otherwise) is skipped and returns
    the angles the first call committed. *)
Theorem X12_second_call_skipped (self : DualAxisTracker) (dt : datetime)
    (temp : R) (snow : bool) (interval : Z) (self1 : DualAxisTracker)
    (cmd1 : Command) (dt2 : datetime) (temp2 : R) (snow2 : bool)
    (interval2 : Z) :
  update self dt temp snow interval = Ok (self1, cmd1) ->
  action cmd1 <> skip ->
  total_seconds (sub dt2 dt) / 60.0
    < IZR (if ltb temp2 2.0 && snow2 then 60 else interval2) ->
  exists self2 cmd2,
    update self1 dt2 temp2 snow2 interval2 = Ok (self2, cmd2)
    /\ action cmd2 = skip
    /\ tilt cmd2 = tilt cmd1
    /\ azimuth cmd2 = azimuth cmd1
    /\ last_update_time self2 = Some dt.
Proof.
  intros Hu Hs Hd.
  pose proof (not_skip_gate _ _ _ _ _ _ _ Hu Hs) as E.
  destruct (target_angles_ranges dt (latitude self) (longitude self)
              (utc_offset self)) as (t & Ht & _).
  rewrite (update_commit _ _ _ _ _ _ E Ht) in Hu.
  injection Hu as <- <-.
  eexists. eexists. split.
  - apply update_skip. unfold interval_not_reached.
    cbn [last_update_time]. apply ltb_true. exact Hd.
  - cbn. repeat split; reflexivity.
Qed.

End TrackerExtras.

(** [X9_action_classification] at midnight on the equator: the panel is
    stowed although winter mode is active. *)
Lemma X9_action_classification_witness :
  exists self' cmd,
    TrackingLogic.update Scenario.equator_tracker Scenario.equinox (-5) true 10
    = Py.Ok (self', cmd)
    /\ TrackingLogic.action cmd = TrackingLogic.stow.
Proof.
  destruct equinox_midnight as (opt & Hopt & Hz).
  replace (Datetime.add_minutes Scenario.equinox_start 0)
    with Scenario.equinox in Hopt by reflexivity.
  assert (E : TrackingLogic.interval_not_reached Scenario.equator_tracker
                Scenario.equinox (Aux.effective_interval (-5) true 10) = false)
    by reflexivity.
  pose proof (update_commit Scenario.equator_tracker Scenario.equinox (-5)
                true 10 opt E Hopt) as Hu.
  cbv zeta in Hu.
  eexists. eexists. split; [exact Hu|].
  refine (proj2 (proj1 (X9_action_classification Scenario.equator_tracker
                          Scenario.equinox (-5) true 10 _ _ opt Hu _ Hopt)) Hz).
  cbn. destruct (Py.gtb _ _); destruct (Aux.winter _ _); discriminate.
Defined.

(** [X10_tracking_points_at_sun] at 08:00 on the equator without snow:
    the panel faces due east. *)
Lemma X10_tracking_points_at_sun_witness :
  exists self' cmd,
    TrackingLogic.update Scenario.equator_tracker
      (Datetime.add_minutes Scenario.equinox_start 480) 20 false 10
    = Py.Ok (self', cmd)
    /\ TrackingLogic.action cmd = TrackingLogic.track
    /\ TrackingLogic.azimuth cmd = 90.
Proof.
  destruct equinox_morning as (opt & Hopt & Hz & _ & Ha).
  assert (E : TrackingLogic.interval_not_reached Scenario.equator_tracker
                (Datetime.add_minutes Scenario.equinox_start 480)
                (Aux.effective_interval 20 false 10) = false)
    by reflexivity.
  pose proof (update_commit Scenario.equator_tracker
                (Datetime.add_minutes Scenario.equinox_start 480) 20
                false 10 opt E Hopt) as Hu.
  cbv zeta in Hu.
  eexists. eexists. split; [exact Hu|].
  destruct (X10_tracking_points_at_sun Scenario.equator_tracker
              (Datetime.add_minutes Scenario.equinox_start 480) 20 false 10
              _ _ opt (or_intror eq_refl) Hu) as (H1 & _ & _ & H3 & _).
  - cbn. destruct (Py.gtb _ _); destruct (Aux.winter _ _); discriminate.
  - exact Hopt.
  - lra.
  - split; [exact H1|]. rewrite H3 by lra. exact Ha.
Defined.

(** [X11_winter_tilt_floor] at midnight on the equator in winter mode. *)
Lemma X11_winter_tilt_floor_witness :
  exists self' cmd,
    TrackingLogic.update Scenario.equator_tracker Scenario.equinox (-5) true 10
    = Py.Ok (self', cmd)
    /\ 65 <= TrackingLogic.tilt cmd <= 90.
Proof.
  destruct equinox_midnight as (opt & Hopt & Hz).
  replace (Datetime.add_minutes Scenario.equinox_start 0)
    with Scenario.equinox in Hopt by reflexivity.
  assert (E : TrackingLogic.interval_not_reached Scenario.equator_tracker
                Scenario.equinox (Aux.effective_interval (-5) true 10) = false)
    by reflexivity.
  pose proof (update_commit Scenario.equator_tracker Scenario.equinox (-5)
                true 10 opt E Hopt) as Hu.
  cbv zeta in Hu.
  eexists. eexists. split; [exact Hu|].
  refine (proj1 (X11_winter_tilt_floor Scenario.equator_tracker
                   Scenario.equinox (-5) true 10 _ _ opt _ eq_refl Hu _ Hopt)).
  - lra.
  - cbn. destruct (Py.gtb _ _); destruct (Aux.winter _ _); discriminate.
Defined.

(** [X12_second_call_skipped]: a fresh tracker is updated at midnight and
    called again five minutes later. *)
Lemma X12_second_call_skipped_witness :
  exists self1 cmd1 self2 cmd2,
    TrackingLogic.update Scenario.equator_tracker Scenario.equinox (-5) true 10
    = Py.Ok (self1, cmd1)
    /\ TrackingLogic.update self1 (Datetime.add_minutes Scenario.equinox 5)
         (-5) true 10 = Py.Ok (self2, cmd2)
    /\ TrackingLogic.action cmd2 = TrackingLogic.skip
    /\ TrackingLogic.tilt cmd2 = TrackingLogic.tilt cmd1.
Proof.
  destruct equinox_midnight as (opt & Hopt & Hz).
  replace (Datetime.add_minutes Scenario.equinox_start 0)
    with Scenario.equinox in Hopt by reflexivity.
  assert (E : TrackingLogic.interval_not_reached Scenario.equator_tracker
                Scenario.equinox (Aux.effective_interval (-5) true 10) = false)
    by reflexivity.
  pose proof (update_commit Scenario.equator_tracker Scenario.equinox (-5)
                true 10 opt E Hopt) as Hu.
  cbv zeta in Hu.
  eexists. eexists.
  destruct (X12_second_call_skipped Scenario.equator_tracker Scenario.equinox
              (-5) true 10 _ _ (Datetime.add_minutes Scenario.equinox 5)
              (-5) true 10 Hu)
    as (self2 & cmd2 & Hu2 & Hs2 & Ht2 & _).
  - cbn. destruct (Py.gtb _ _); destruct (Aux.winter _ _); discriminate.
  - rewrite time_diff_minutes.
    replace (Aux.instant (Datetime.add_minutes Scenario.equinox 5)
             - Aux.instant Scenario.equinox)%Z
      with 300000000%Z by reflexivity.
    replace (Py.ltb (-5) 2.0) with true by (symmetry; apply ltb_true; lra).
    cbn [andb]. lra.
  - exists self2, cmd2. split; [exact Hu|]. split; [exact Hu2|].
    split; [exact Hs2|exact Ht2].
Defined.

(* ===================================================================== *)
(** * Further properties of the predictive controller *)
(* ===================================================================== *)

Section ControllerExtras.
Import Py Datetime AiPredictive.

Variable Forest : Type.
Variable forest_predict : Forest -> R -> R -> R -> R -> R.
Variable unfitted : Forest.
Variable synthetic : Forest.

Lemma incidence_cos_range (irr ct tt ca ta area eff : R) :
  0 <= incidence_cos (energies irr ct tt ca ta area eff) <= 1.
Proof.
  unfold energies. cbn [incidence_cos].
  set (x := cos (radians (tt - ct))). set (y := cos (radians (ta - ca))).
  pose proof (COS_bound (radians (tt - ct))) as Hx.
  pose proof (COS_bound (radians (ta - ca))) as Hy.
  fold x in Hx. fold y in Hy.
  destruct (max_spec 0.0 (x * y)) as [[H ->]|[H ->]]; [|lra].
  split; [lra|]. nra.
Qed.

Lemma energy_gain_eq (irr ct tt ca ta area eff : R) :
  energy_gain (energies irr ct tt ca ta area eff)
  = irr * area * eff * (10 / 60)
    * (1 - incidence_cos (energies irr ct tt ca ta area eff)).
Proof. unfold energies. cbn [energy_gain incidence_cos]. lra. Qed.

(** X13. With a non-negative motor energy cost the controller never
    approves a move that gains nothing: when the target angles equal the
    current angles, or when the predicted irradiance is 0, the energy
    gain is 0, the move is rejected and the current angles are
    returned. *)
Theorem X13_no_move_without_gain (self : PredictiveController Forest)
    (current_tilt target_tilt current_azimuth target_azimuth : R)
    (dt : datetime) (temp cloud_cover zenith area efficiency : R) :
  0 <= motor_energy_cost self ->
  (target_tilt = current_tilt /\ target_azimuth = current_azimuth)
  \/ snd (prediction Forest forest_predict synthetic self dt temp
            cloud_cover zenith) = 0 ->
  let d := snd (optimize_movement Forest forest_predict synthetic self
                  current_tilt target_tilt current_azimuth target_azimuth
                  dt temp cloud_cover zenith area efficiency) in
  move_approved d = false
  /\ final_tilt d = current_tilt
  /\ final_azimuth d = current_azimuth.
Proof.
  intros Hc Hcase.
  pose proof (optimize_movement_decision Forest forest_predict synthetic self
                current_tilt target_tilt current_azimuth target_azimuth dt
                temp cloud_cover zenith area efficiency) as H.
  cbv zeta in *. destruct H as (_ & Hrej & _). apply Hrej.
  rewrite energy_gain_eq.
  destruct Hcase as [[-> ->] | ->]; [|lra].
  unfold energies. cbn [incidence_cos].
  replace (radians (current_tilt - current_tilt)) with 0
    by (unfold radians; lra).
  replace (radians (current_azimuth - current_azimuth)) with 0
    by (unfold radians; lra).
  rewrite cos_0.
  destruct (max_spec 0.0 (1 * 1)) as [[_ ->]|[? _]]; lra.
Qed.

(** X14. With a non-negative motor energy cost, an approved move means
    that the energy the panel is predicted to collect in ten minutes when
    aligned (predicted irradiance x area x efficiency x 10/60) is itself
    above the motor cost, whatever the angles: the gain is never larger
    than that energy. *)
Theorem X14_approval_needs_energy (self : PredictiveController Forest)
    (current_tilt target_tilt current_azimuth target_azimuth : R)
    (dt : datetime) (temp cloud_cover zenith area efficiency : R) :
  0 <= motor_energy_cost self ->
  let irr := snd (prediction Forest forest_predict synthetic self dt temp
                    cloud_cover zenith) in
  let d := snd (optimize_movement Forest forest_predict synthetic self
                  current_tilt target_tilt current_azimuth target_azimuth
                  dt temp cloud_cover zenith area efficiency) in
  move_approved d = true ->
  motor_energy_cost self < irr * area * efficiency * (10 / 60).
Proof.
  intros Hc irr d Hm.
  pose proof (optimize_movement_decision Forest forest_predict synthetic self
                current_tilt target_tilt current_azimuth target_azimuth dt
                temp cloud_cover zenith area efficiency) as H.
  cbv zeta in H. fold irr d in H. destruct H as (_ & Hrej & _).
  destruct (Rle_lt_dec
              (energy_gain (energies irr current_tilt target_tilt
                              current_azimuth target_azimuth area efficiency))
              (motor_energy_cost self)) as [Hle|Hlt].
  - destruct (Hrej Hle) as (Hf & _). congruence.
  - rewrite energy_gain_eq in Hlt.
    pose proof (incidence_cos_range irr current_tilt target_tilt
                  current_azimuth target_azimuth area efficiency) as Hr.
    set (c := incidence_cos _) in *.
    set (P := irr * area * efficiency * (10 / 60)) in *.
    nra.
Qed.

(** X16. Calls of [optimize_movement] are repeatable: the controller
    after a call keeps its motor energy cost and has a trained predictor,
    and calling it again with the same arguments returns the same
    decision and leaves the controller as it is. *)
Theorem X16_optimize_movement_repeatable (self : PredictiveController Forest)
    (current_tilt target_tilt current_azimuth target_azimuth : R)
    (dt : datetime) (temp cloud_cover zenith area efficiency : R) :
  let r := optimize_movement Forest forest_predict synthetic self
             current_tilt target_tilt current_azimuth target_azimuth
             dt temp cloud_cover zenith area efficiency in
  motor_energy_cost (fst r) = motor_energy_cost self
  /\ is_trained (predictor (fst r)) = true
  /\ optimize_movement Forest forest_predict synthetic (fst r)
       current_tilt target_tilt current_azimuth target_azimuth
       dt temp cloud_cover zenith area efficiency = r.
Proof.
  cbv zeta. unfold optimize_movement, prediction, predict, train_synthetic.
  destruct self as [[m [|]] cost];
    cbn [predictor is_trained model negb motor_energy_cost train_synthetic];
    destruct (leb _ _) eqn:E; cbn [fst predictor is_trained model negb
                                   motor_energy_cost];
    rewrite ?E; repeat split; reflexivity.
Qed.

End ControllerExtras.

(** [X13_no_move_without_gain] for a panel already at its target. *)
Lemma X13_no_move_without_gain_witness :
  AiPredictive.move_approved
    (snd (AiPredictive.optimize_movement R Scenario.constant_predict 0
            Scenario.controller_600 30 30 180 180 Scenario.solstice_noon
            20 0 30 AiPredictive.default_area AiPredictive.default_efficiency))
  = false.
Proof.
  refine (proj1 (X13_no_move_without_gain R Scenario.constant_predict 0
                   Scenario.controller_600 30 30 180 180
                   Scenario.solstice_noon 20 0 30 AiPredictive.default_area
                   AiPredictive.default_efficiency _ _)).
  - cbn. lra.
  - left. split; reflexivity.
Defined.

(** [X14_approval_needs_energy] for a flat panel whose target is
    vertical: the move is approved, and 40 Wh exceed the cost of 2.5 Wh. *)
Lemma X14_approval_needs_energy_witness :
  AiPredictive.motor_energy_cost Scenario.controller_600
  < snd (AiPredictive.prediction R Scenario.constant_predict 0
           Scenario.controller_600 Scenario.solstice_noon 20 0 30)
    * AiPredictive.default_area * AiPredictive.default_efficiency * (10 / 60).
Proof.
  refine (X14_approval_needs_energy R Scenario.constant_predict 0
            Scenario.controller_600 0 90 180 180 Scenario.solstice_noon 20 0
            30 AiPredictive.default_area AiPredictive.default_efficiency _ _).
  - cbn. lra.
  - pose proof (optimize_movement_decision R Scenario.constant_predict 0
                  Scenario.controller_600 0 90 180 180 Scenario.solstice_noon
                  20 0 30 AiPredictive.default_area
                  AiPredictive.default_efficiency) as H.
    cbv zeta in H. destruct H as (_ & _ & Hacc). apply Hacc.
    rewrite energy_gain_eq.
    assert (Hc : AiPredictive.incidence_cos
                   (AiPredictive.energies
                      (snd (AiPredictive.prediction R Scenario.constant_predict
                              0 Scenario.controller_600 Scenario.solstice_noon
                              20 0 30))
                      0 90 180 180 AiPredictive.default_area
                      AiPredictive.default_efficiency) = 0).
    { unfold AiPredictive.energies. cbn [AiPredictive.incidence_cos].
      replace (Py.radians (90 - 0)) with (PI / 2) by (unfold Py.radians; lra).
      rewrite cos_PI2.
      destruct (max_spec 0.0 (0 * cos (Py.radians (180 - 180))))
        as [[? _]|[_ ->]]; lra. }
    rewrite Hc. cbn.
    unfold AiPredictive.default_area, AiPredictive.default_efficiency. lra.
Defined.

(* ===================================================================== *)
(** * Further properties of the day simulator *)
(* ===================================================================== *)

Section SimulatorExtras.
Import Py Datetime Simulator Aux.

Lemma tick_time (y mo d m : Z) :
  (0 <= m < 1440)%Z ->
  add_minutes (make y mo d 0 0 0) m
  = {| toordinal := ymd2ord y mo d; day_micros := m * 60000000 |}.
Proof.
  intro Hm. unfold add_minutes, make, DAY_MICROS. cbn [toordinal day_micros].
  cbn [Z.mul Z.add].
  rewrite Z.div_small, Z.mod_small by lia.
  f_equal. lia.
Qed.

Lemma tick_hour (y mo d m : Z) :
  (0 <= m < 1440)%Z ->
  hour (add_minutes (make y mo d 0 0 0) m) = (m / 60)%Z
  /\ minute (add_minutes (make y mo d 0 0 0) m) = (m mod 60)%Z.
Proof.
  intro Hm. rewrite tick_time by exact Hm.
  unfold hour, minute. cbn [day_micros]. split.
  - replace 3600000000%Z with (60000000 * 60)%Z by reflexivity.
    rewrite <- Z.div_div by lia. rewrite Z.div_mul by lia. reflexivity.
  - rewrite Z.div_mul by lia. reflexivity.
Qed.

Lemma tick_hour_frac (y mo d m : Z) :
  (0 <= m < 1440)%Z ->
  let dt := add_minutes (make y mo d 0 0 0) m in
  IZR (hour dt) + IZR (minute dt) / 60.0 = IZR m / 60.
Proof.
  intros Hm dt. unfold dt.
  destruct (tick_hour y mo d m Hm) as [-> ->].
  pose proof (Z.div_mod m 60 ltac:(lia)) as Hdm.
  assert (HR : IZR m = 60 * IZR (m / 60) + IZR (m mod 60)).
  { rewrite Hdm at 1. rewrite plus_IZR, mult_IZR. reflexivity. }
  rewrite HR. lra.
Qed.

Lemma nth_error_last {A : Type} (l : list A) (d : A) :
  l <> [] -> nth_error l (length l - 1) = Some (last l d).
Proof.
  induction l as [|a l IH]; [contradiction|]. intros _.
  destruct l as [|b l]; [reflexivity|].
  change (last (a :: b :: l) d) with (last (b :: l) d).
  replace (length (a :: b :: l) - 1)%nat with (S (length (b :: l) - 1))
    by (cbn [length]; lia).
  cbn [nth_error]. apply IH. discriminate.
Qed.

(** The temperature lookup of the loop body, as a value. *)
Lemma temp_lookup_at (temps : list R) (m : Z) :
  temps <> [] -> (0 <= m)%Z ->
  (if (m / 60 <? Z.of_nat (length temps))%Z
   then getitem temps (m / 60) else getitem temps (-1))
  = Ok (temperature_at temps m)
  /\ In (temperature_at temps m) temps.
Proof.
  intros Hne Hm.
  assert (Hh : (0 <= m / 60)%Z) by (apply Z.div_pos; lia).
  assert (Hlen : (0 < length temps)%nat)
    by (destruct temps; [contradiction|cbn; lia]).
  unfold temperature_at.
  destruct (m / 60 <? Z.of_nat (length temps))%Z eqn:E.
  - apply Z.ltb_lt in E. unfold getitem.
    replace (m / 60 <? 0)%Z with false by (symmetry; apply Z.ltb_ge; lia).
    replace (m / 60 <? 0)%Z with false by (symmetry; apply Z.ltb_ge; lia).
    replace (Z.of_nat (length temps) <=? m / 60)%Z with false
      by (symmetry; apply Z.leb_gt; lia).
    cbn [orb].
    rewrite (nth_error_nth' temps 0) by lia.
    split; [reflexivity|]. apply nth_In. lia.
  - unfold getitem.
    replace (-1 <? 0)%Z with true by reflexivity.
    replace (-1 + Z.of_nat (length temps) <? 0)%Z with false
      by (symmetry; apply Z.ltb_ge; lia).
    replace (Z.of_nat (length temps) <=? -1 + Z.of_nat (length temps))%Z
      with false by (symmetry; apply Z.leb_gt; lia).
    cbn [orb].
    replace (Z.to_nat (-1 + Z.of_nat (length temps)))
      with (length temps - 1)%nat by lia.
    rewrite (nth_error_last temps 0 Hne).
    split; [reflexivity|].
    eapply nth_error_In. apply (nth_error_last temps 0 Hne).
Qed.

(** What every call of [update] reports about the winter mode. *)
Lemma update_winter_mode self dt temp snow interval self' cmd :
  TrackingLogic.update self dt temp snow interval = Ok (self', cmd) ->
  TrackingLogic.winter_mode cmd = winter temp snow
  /\ TrackingLogic.latitude self' = TrackingLogic.latitude self
  /\ TrackingLogic.longitude self' = TrackingLogic.longitude self
  /\ TrackingLogic.utc_offset self' = TrackingLogic.utc_offset self.
Proof.
  intro Hu.
  destruct (TrackingLogic.interval_not_reached self dt
              (effective_interval temp snow interval)) eqn:E.
  - rewrite (update_skip _ _ _ _ _ E) in Hu. injection Hu as <- <-.
    cbn. repeat split; reflexivity.
  - destruct (target_angles_ranges dt (TrackingLogic.latitude self)
                (TrackingLogic.longitude self) (TrackingLogic.utc_offset self))
      as (t & Ht & _).
    rewrite (update_commit _ _ _ _ _ _ E Ht) in Hu. injection Hu as <- <-.
    cbn. repeat split; reflexivity.
Qed.

Section Day.
Variables lat lon utc_offset : R.
Variable temps : list R.
Variable snow_detected : bool.
Variables fixed_tilt fixed_azimuth : R.
Variable date_obj : datetime.
Hypothesis temps_nonempty : temps <> [].

(** The loop body at a tick of the day. *)
Lemma simulate_step_at tracker m :
  (0 <= m < 1440)%Z ->
  exists opt tracker' cmd,
    SolarModel.get_target_angles (add_minutes (start_of_day date_obj) m)
      lat lon utc_offset = Ok opt
    /\ TrackingLogic.update tracker (add_minutes (start_of_day date_obj) m)
         (temperature_at temps m) snow_detected 10 = Ok (tracker', cmd)
    /\ simulate_step lat lon utc_offset temps snow_detected fixed_tilt
         fixed_azimuth (start_of_day date_obj) tracker m
       = Ok (tracker',
             row_of temps fixed_tilt fixed_azimuth (start_of_day date_obj)
               m opt cmd).
Proof.
  intro Hm.
  destruct (temp_lookup_at temps m temps_nonempty ltac:(lia)) as [Hl _].
  destruct (target_angles_ranges (add_minutes (start_of_day date_obj) m)
              lat lon utc_offset) as (opt & Hopt & _).
  assert (Hu : exists tracker' cmd,
             TrackingLogic.update tracker
               (add_minutes (start_of_day date_obj) m)
               (temperature_at temps m) snow_detected 10
             = Ok (tracker', cmd)).
  { destruct (update_cases tracker (add_minutes (start_of_day date_obj) m)
                (temperature_at temps m) snow_detected 10)
      as [(_ & cmd & H & _)|(_ & t & s' & cmd & _ & H & _)]; eauto. }
  destruct Hu as (tracker' & cmd & Hu).
  exists opt, tracker', cmd.
  split; [exact Hopt|]. split; [exact Hu|].
  unfold simulate_step.
  unfold start_of_day at 1 2.
  destruct (tick_hour (year date_obj) (month date_obj) (day date_obj) m Hm)
    as [Hh _].
  rewrite Hh. fold (start_of_day date_obj).
  rewrite Hl. cbn [bind]. rewrite Hopt. cbn [bind]. rewrite Hu. cbn [bind].
  reflexivity.
Qed.

(** The rows of the day, whatever the tracker does. *)
Lemma day_rows :
  exists rows,
    simulate_day date_obj lat lon utc_offset temps snow_detected fixed_tilt
      fixed_azimuth = Ok rows
    /\ Forall2 (day_row lat lon utc_offset temps snow_detected fixed_tilt
                  fixed_azimuth (start_of_day date_obj))
         (range 0 (24 * 60) 10) rows.
Proof.
  destruct (simulate_loop_inv lat lon utc_offset temps snow_detected
              fixed_tilt fixed_azimuth (start_of_day date_obj)
              (fun ticks _ => Forall (fun m => (0 <= m < 1440)%Z) ticks)
              (day_row lat lon utc_offset temps snow_detected fixed_tilt
                 fixed_azimuth (start_of_day date_obj)))
    with (ticks := range 0 (24 * 60) 10)
         (tracker := TrackingLogic.init lat lon utc_offset)
         (records := @nil Row)
    as (tracker' & rows & Hl & HQ & _).
  - intros m rest tracker Hall.
    inversion Hall as [|? ? Hm Hrest]; subst.
    destruct (simulate_step_at tracker m Hm)
      as (opt & tracker' & cmd & Hopt & Hu & Hs).
    exists tracker'. eexists. split; [exact Hs|]. split; [exact Hrest|].
    split; [exact Hm|]. exists opt, cmd. split; [exact Hopt|].
    split; [|reflexivity].
    apply (update_winter_mode _ _ _ _ _ _ _ Hu).
  - apply day_ticks_range.
  - exists rows. split; [|exact HQ].
    eapply simulate_day_of_loop. exact Hl.
Qed.

End Day.

Lemma irradiance_le_1000 (z : R) : 0 <= z -> 0 <= irradiance_direct z <= 1000.
Proof.
  intro Hz. split; [apply irradiance_nonneg, Hz|].
  unfold irradiance_direct. destruct (ltb z 90); [|lra].
  pose proof (COS_bound (radians z)). lra.
Qed.

Lemma single_incidence_range (x : R) : 0 <= max 0.0 (cos x) <= 1.
Proof.
  pose proof (COS_bound x).
  destruct (max_spec 0.0 (cos x)) as [[? ->]|[? ->]]; lra.
Qed.

(** The target angles of a row are in range. *)
Lemma day_row_angles lat lon utc start m opt :
  SolarModel.get_target_angles (add_minutes start m) lat lon utc = Ok opt ->
  0 <= SolarModel.zenith opt <= 180
  /\ 0 <= SolarModel.azimuth opt < 360
  /\ SolarModel.tilt opt = SolarModel.zenith opt.
Proof.
  intro Hopt.
  destruct (target_angles_ranges (add_minutes start m) lat lon utc)
    as (opt' & Hopt' & Hz & Ha & _ & Ht).
  rewrite Hopt in Hopt'. injection Hopt' as <-. auto.
Qed.

(** X17. With a non-empty temperature list [simulate_day] returns one
    record per tick of [range(0, 1440, 10)], in order: 144 records, all
    on the date of [date_obj] (its time of day is ignored), the record of
    minute m stamped m minutes after midnight with [Hour] equal to
    m / 60. *)
Theorem X17_simulate_day_timeline (date_obj : datetime) (lat lon utc : R)
    (t : R) (temps : list R) (snow : bool) (ft fa : R) :
  exists rows,
    simulate_day date_obj lat lon utc (t :: temps) snow ft fa = Ok rows
    /\ length rows = 144%nat
    /\ Forall2
         (fun m r =>
            Time r = {| toordinal := ymd2ord (year date_obj) (month date_obj)
                                       (day date_obj);
                        day_micros := m * 60000000 |}
            /\ Hour r = IZR m / 60)
         (range 0 (24 * 60) 10) rows.
Proof.
  destruct (day_rows lat lon utc (t :: temps) snow ft fa date_obj
              ltac:(discriminate)) as (rows & Hrun & Hrows).
  exists rows. split; [exact Hrun|]. split.
  - apply Forall2_length in Hrows. rewrite <- Hrows. apply range_day_length.
  - eapply Forall2_impl; [|exact Hrows].
    intros m r (Hm & opt & cmd & _ & _ & ->).
    unfold row_of. cbn [Time Hour]. split.
    + unfold start_of_day. apply tick_time, Hm.
    + unfold start_of_day. apply tick_hour_frac, Hm.
Qed.

(** X18. In every record of a simulated day the optimal tilt is the
    zenith angle, within [0, 180], and the optimal azimuth is within
    [0, 360] (the float computation can return an afternoon azimuth of
    exactly 360); the irradiance is between 0 and 1000 W/m2; each of the
    three powers (dual-axis, single-axis, fixed) is between 0 and the
    irradiance; and with the sun at or below the horizon (zenith at least
    90) the irradiance and the three powers are 0. *)
Theorem X18_row_bounds (date_obj : datetime) (lat lon utc : R)
    (t : R) (temps : list R) (snow : bool) (ft fa : R) :
  exists rows,
    simulate_day date_obj lat lon utc (t :: temps) snow ft fa = Ok rows
    /\ Forall
         (fun r =>
            Opt_Tilt r = Zenith r
            /\ 0 <= Zenith r <= 180
            /\ 0 <= Opt_Azimuth r <= 360
            /\ 0 <= Irradiance_W_m2 r <= 1000
            /\ 0 <= Power_Dual r <= Irradiance_W_m2 r
            /\ 0 <= Power_Single r <= Irradiance_W_m2 r
            /\ 0 <= Power_Fixed r <= Irradiance_W_m2 r
            /\ (90 <= Zenith r ->
                Irradiance_W_m2 r = 0 /\ Power_Dual r = 0
                /\ Power_Single r = 0 /\ Power_Fixed r = 0))
         rows.
Proof.
  destruct (day_rows lat lon utc (t :: temps) snow ft fa date_obj
              ltac:(discriminate)) as (rows & Hrun & Hrows).
  exists rows. split; [exact Hrun|].
  eapply Forall2_Forall_r; [|exact Hrows].
  intros m r (Hm & opt & cmd & Hopt & _ & ->).
  destruct (day_row_angles _ _ _ _ _ _ Hopt) as (Hz & Ha & Ht).
  unfold row_of.
  cbn [Opt_Tilt Zenith Opt_Azimuth Irradiance_W_m2 Power_Dual Power_Single
       Power_Fixed].
  pose proof (irradiance_le_1000 (SolarModel.zenith opt) (proj1 Hz)) as Hi.
  pose proof (incidence_le_1 opt (TrackingLogic.tilt cmd)
                (TrackingLogic.azimuth cmd)) as Hd.
  pose proof (incidence_le_1 opt ft fa) as Hf.
  pose proof (single_incidence_range
                (radians (SolarModel.tilt opt - ft))) as Hs.
  split; [exact Ht|]. split; [exact Hz|]. split; [lra|].
  split; [exact Hi|].
  split; [split; nra|]. split; [split; nra|]. split; [split; nra|].
  intro Hn. rewrite (irradiance_night _ Hn). repeat split; lra.
Qed.

(** X19. For a fixed tilt between 0 and 90 degrees the single-axis power
    of every record is at least the fixed-mount power, so over the day
    the single-axis energy is at least the fixed-mount energy. *)
Theorem X19_single_axis_ge_fixed (date_obj : datetime) (lat lon utc : R)
    (t : R) (temps : list R) (snow : bool) (ft fa : R) :
  0 <= ft <= 90 ->
  exists rows,
    simulate_day date_obj lat lon utc (t :: temps) snow ft fa = Ok rows
    /\ Forall (fun r => Power_Fixed r <= Power_Single r) rows
    /\ App.energy_kwh (map Power_Fixed rows)
       <= App.energy_kwh (map Power_Single rows).
Proof.
  intro Hft.
  destruct (day_rows lat lon utc (t :: temps) snow ft fa date_obj
              ltac:(discriminate)) as (rows & Hrun & Hrows).
  exists rows. split; [exact Hrun|].
  assert (Hall : Forall (fun r => Power_Fixed r <= Power_Single r) rows).
  { eapply Forall2_Forall_r; [|exact Hrows].
    intros m r (Hm & opt & cmd & Hopt & _ & ->).
    destruct (day_row_angles _ _ _ _ _ _ Hopt) as (Hz & Ha & Ht).
    unfold row_of. cbn [Power_Single Power_Fixed].
    destruct (Rlt_le_dec (SolarModel.zenith opt) 90) as [Hday|Hnight].
    - pose proof (irradiance_nonneg (SolarModel.zenith opt) (proj1 Hz)) as Hi.
      unfold incidence. rewrite Ht.
      set (c := cos (radians (SolarModel.zenith opt - ft))).
      set (c2 := cos (radians (SolarModel.azimuth opt - fa))).
      assert (Hc : 0 <= c).
      { unfold c. pose proof PI_RGT_0 as Hpi.
        apply cos_ge_0; unfold radians; nra. }
      assert (Hc2 : -1 <= c2 <= 1) by apply COS_bound.
      assert (Hle : max 0.0 (c * c2) <= max 0.0 c).
      { destruct (max_spec 0.0 (c * c2)) as [[? ->]|[? ->]];
          destruct (max_spec 0.0 c) as [[? ->]|[? ->]]; nra. }
      nra.
    - rewrite (irradiance_night _ Hnight). lra. }
  split; [exact Hall|].
  unfold App.energy_kwh.
  pose proof (sum_le Power_Fixed Power_Single rows Hall). lra.
Qed.

(** X20. The temperature of the record of minute m is the entry of the
    temperature list at index m // 60, or the last entry when the list
    has no such index (a short list is extended by its last value), and
    the winter flag of the record is the winter test of that temperature:
    below 2 degrees with snow detected. *)
Theorem X20_row_temperature (date_obj : datetime) (lat lon utc : R)
    (t : R) (temps : list R) (snow : bool) (ft fa : R) :
  exists rows,
    simulate_day date_obj lat lon utc (t :: temps) snow ft fa = Ok rows
    /\ Forall2
         (fun m r =>
            Temp_C r
            = (if (m / 60 <? Z.of_nat (length (t :: temps)))%Z
               then nth (Z.to_nat (m / 60)) (t :: temps) 0
               else last (t :: temps) 0)
            /\ Is_Winter r = (ltb (Temp_C r) 2.0 && snow))
         (range 0 (24 * 60) 10) rows.
Proof.
  destruct (day_rows lat lon utc (t :: temps) snow ft fa date_obj
              ltac:(discriminate)) as (rows & Hrun & Hrows).
  exists rows. split; [exact Hrun|].
  eapply Forall2_impl; [|exact Hrows].
  intros m r (Hm & opt & cmd & _ & Hw & ->).
  unfold row_of. cbn [Temp_C Is_Winter]. split; [reflexivity|exact Hw].
Qed.

End SimulatorExtras.

(** [X19_single_axis_ge_fixed] for the default mount in Los Angeles. *)
Lemma X19_single_axis_ge_fixed_witness :
  exists rows,
    Simulator.simulate_day Scenario.noon 35 (-118) (-8) (20 :: nil) false
      30 180 = Py.Ok rows
    /\ App.energy_kwh (map Simulator.Power_Fixed rows)
       <= App.energy_kwh (map Simulator.Power_Single rows).
Proof.
  destruct (X19_single_axis_ge_fixed Scenario.noon 35 (-118) (-8) 20 nil
              false 30 180) as (rows & Hrun & _ & He).
  - lra.
  - exists rows. split; assumption.
Defined.

(* ===================================================================== *)
(** * Simulated days and the update-interval gate *)
(* ===================================================================== *)

Section GateExtras.
Import Py Datetime Simulator Aux.

(** A tick closer to the last update than the interval is stopped by the
    gate. *)
Lemma gate_closed (tracker : TrackingLogic.DualAxisTracker) (start : datetime)
    (m0 m interval : Z) :
  TrackingLogic.last_update_time tracker = Some (add_minutes start m0) ->
  (m < m0 + interval)%Z ->
  TrackingLogic.interval_not_reached tracker (add_minutes start m) interval
  = true.
Proof.
  intros Hl Hm. unfold TrackingLogic.interval_not_reached. rewrite Hl.
  apply ltb_true. rewrite time_diff_minutes, !instant_add_minutes.
  replace (instant start + m * 60000000 - (instant start + m0 * 60000000))%Z
    with ((m - m0) * 60000000)%Z by lia.
  rewrite mult_IZR.
  assert (H : IZR (m - m0) < IZR interval) by (apply IZR_lt; lia).
  lra.
Qed.

Lemma winter_tilt_range (z : R) : 65 <= winter_tilt z <= 90.
Proof.
  unfold winter_tilt.
  destruct (gtb z 90.0) eqn:E.
  - rewrite (clamp_id 0.0 90.0) by lra. lra.
  - apply gtb_false in E.
    assert (Hm : 65 <= max z 65.0 <= 90)
      by (destruct (max_spec z 65.0) as [[? ->]|[? ->]]; lra).
    rewrite (clamp_id 0.0 90.0) by lra. exact Hm.
Qed.

Section FollowsSun.
Variables lat lon utc_offset : R.
Variable temps : list R.
Variable snow_detected : bool.
Variables fixed_tilt fixed_azimuth : R.
Variable start : datetime.
Hypothesis temps_nonempty : temps <> [].
Hypothesis no_winter :
  snow_detected = false \/ Forall (fun t => 2 <= t) temps.

Let follows (r : Row) : Prop :=
  Is_Winter r = false
  /\ (Zenith r <= 90 ->
      Dual_Tilt r = Zenith r /\ Dual_Azimuth r = fmod (Opt_Azimuth r) 360)
  /\ (90 < Zenith r -> Dual_Tilt r = 0 /\ Dual_Azimuth r = 180).

Lemma follows_step m rest tracker :
  tracking_inv lat lon utc_offset start (m :: rest) tracker ->
  exists tracker' row,
    simulate_step lat lon utc_offset temps snow_detected fixed_tilt
      fixed_azimuth start tracker m = Ok (tracker', row)
    /\ tracking_inv lat lon utc_offset start rest tracker'
    /\ follows row.
Proof.
  intros ((Hsp & Hrest) & Hlat & Hlon & Hutc & Hlast).
  destruct (simulate_step_eq lat lon utc_offset temps snow_detected
              fixed_tilt fixed_azimuth start tracker m temps_nonempty)
    as (temp_now & opt & tracker' & cmd & Hin & Hopt & Hu & Hs).
  exists tracker'. eexists. split; [exact Hs|].
  pose proof (no_winter_test temps snow_detected no_winter _ Hin) as Hw.
  assert (E : TrackingLogic.interval_not_reached tracker
                (add_minutes start m)
                (effective_interval temp_now snow_detected 10) = false).
  { unfold effective_interval. rewrite Hw.
    destruct Hlast as [Hn|(m0 & Hl & Hm0)].
    - unfold TrackingLogic.interval_not_reached. rewrite Hn. reflexivity.
    - eapply gate_open; [exact Hl|]. inversion Hm0; assumption. }
  assert (Hopt' : SolarModel.get_target_angles (add_minutes start m)
                    (TrackingLogic.latitude tracker)
                    (TrackingLogic.longitude tracker)
                    (TrackingLogic.utc_offset tracker) = Ok opt)
    by (rewrite Hlat, Hlon, Hutc; exact Hopt).
  rewrite (update_commit _ _ _ _ _ _ E Hopt') in Hu.
  rewrite Hw in Hu. injection Hu as <- <-.
  destruct (target_angles_ranges (add_minutes start m) lat lon
              utc_offset) as (opt2 & Hopt2 & Hz & Ha & _ & Htilt).
  rewrite Hopt in Hopt2. injection Hopt2 as <-.
  split.
  - repeat split; try assumption.
    right. exists m. split; [reflexivity|exact Hsp].
  - unfold follows.
    cbn [Is_Winter Zenith Dual_Tilt Dual_Azimuth Opt_Azimuth
         TrackingLogic.tilt TrackingLogic.azimuth TrackingLogic.winter_mode].
    split; [reflexivity|]. split; intro Hc.
    + assert (Hn : gtb (SolarModel.zenith opt) 90.0 = false)
        by (apply gtb_false; lra).
      rewrite Hn, Htilt. rewrite (clamp_id 0.0 90.0) by lra.
      split; [reflexivity|]. f_equal. lra.
    + assert (Hn : gtb (SolarModel.zenith opt) 90.0 = true)
        by (apply gtb_true; lra).
      rewrite Hn. rewrite (clamp_id 0.0 90.0) by lra.
      rewrite fmod_id by lra. split; lra.
Qed.

Lemma follows_loop tracker' rows :
  simulate_loop lat lon utc_offset temps snow_detected fixed_tilt
    fixed_azimuth start (range 0 (24 * 60) 10)
    (TrackingLogic.init lat lon utc_offset) [] = Ok (tracker', rows) ->
  Forall follows rows.
Proof.
  intro Hl.
  destruct (simulate_loop_inv lat lon utc_offset temps snow_detected
              fixed_tilt fixed_azimuth start
              (tracking_inv lat lon utc_offset start)
              (fun _ => follows) follows_step
              (range 0 (24 * 60) 10)
              (TrackingLogic.init lat lon utc_offset) [])
    as (tr & rows' & Hl' & HQ & _).
  - split; [apply spaced_day|]. repeat split. left. reflexivity.
  - rewrite Hl in Hl'. injection Hl' as _ ->.
    eapply Forall2_right, HQ.
Qed.

End FollowsSun.

(** X21. In a simulated day without winter mode (no snow detected, or no
    temperature below 2 degrees) no tick is held back by the 10-minute
    update interval: in every record the tracker has just been re-aimed;
    while the zenith is at most 90 degrees its tilt is the optimal tilt
    and its azimuth is the optimal azimuth taken modulo 360 (so an
    optimal azimuth of exactly 360 is recorded beside a dual-axis
    azimuth of 0), and it is stowed flat facing south (tilt 0, azimuth
    180) while the sun is below the horizon. *)
Theorem X21_day_without_winter_follows_sun (date_obj : datetime)
    (lat lon utc : R) (temps : list R) (snow : bool) (ft fa : R)
    (rows : list Row) :
  snow = false \/ Forall (fun t => 2 <= t) temps ->
  simulate_day date_obj lat lon utc temps snow ft fa = Ok rows ->
  Forall
    (fun r =>
       Is_Winter r = false
       /\ (Zenith r <= 90 ->
           Dual_Tilt r = Zenith r
           /\ Dual_Azimuth r = fmod (Opt_Azimuth r) 360)
       /\ (90 < Zenith r -> Dual_Tilt r = 0 /\ Dual_Azimuth r = 180))
    rows.
Proof.
  intros Hnw Hrun.
  assert (Hne : temps <> []).
  { intros ->. rewrite simulate_day_empty in Hrun. discriminate. }
  unfold simulate_day in Hrun.
  destruct (simulate_loop _ _ _ _ _ _ _ _ _ _ _) as [[tr rs]|e] eqn:El;
    cbn [bind] in Hrun; [|discriminate].
  injection Hrun as ->.
  pose proof (follows_loop lat lon utc temps snow ft fa _ Hne Hnw tr rows El)
    as H.
  cbv zeta in H. exact H.
Qed.

Section WinterDay.
Variables lat lon utc_offset : R.
Variable temps : list R.
Variables fixed_tilt fixed_azimuth : R.
Variable date_obj : datetime.
Hypothesis temps_nonempty : temps <> [].
Hypothesis all_cold : Forall (fun t => t < 2) temps.

Let start := start_of_day date_obj.

Let hourly (m : Z) (r : Row) : Prop :=
  Is_Winter r = true
  /\ 65 <= Dual_Tilt r <= 90
  /\ exists opt,
       SolarModel.get_target_angles (add_minutes start (60 * (m / 60)))
         lat lon utc_offset = Ok opt
       /\ Dual_Tilt r = winter_tilt (SolarModel.zenith opt).

Lemma cold_winter (m : Z) :
  (0 <= m)%Z -> winter (temperature_at temps m) true = true.
Proof.
  intro Hm.
  destruct (temp_lookup_at temps m temps_nonempty Hm) as [_ Hin].
  rewrite Forall_forall in all_cold. specialize (all_cold _ Hin).
  apply winter_true_iff. split; [exact all_cold|reflexivity].
Qed.

Lemma hourly_step m rest tracker :
  hourly_inv lat lon utc_offset start (m :: rest) tracker ->
  exists tracker' row,
    simulate_step lat lon utc_offset temps true fixed_tilt fixed_azimuth
      start tracker m = Ok (tracker', row)
    /\ hourly_inv lat lon utc_offset start rest tracker'
    /\ hourly m row.
Proof.
  intros (Hlat & Hlon & Hutc & a & n & Hticks & Han & Hlast).
  destruct n as [|n]; [discriminate|].
  pose proof (f_equal (hd 0%Z) Hticks) as Hm.
  pose proof (f_equal (@tl Z) Hticks) as Hrest.
  cbn [seq map hd tl] in Hm, Hrest. clear Hticks.
  assert (Hr : (0 <= m < 1440)%Z) by lia.
  destruct (simulate_step_at lat lon utc_offset temps true fixed_tilt
              fixed_azimuth date_obj temps_nonempty tracker m Hr)
    as (opt & tracker' & cmd & Hopt & Hu & Hs).
  fold start in Hopt, Hu, Hs.
  exists tracker'. eexists. split; [exact Hs|].
  pose proof (cold_winter m ltac:(lia)) as Hw.
  assert (Hopt' : SolarModel.get_target_angles (add_minutes start m)
                    (TrackingLogic.latitude tracker)
                    (TrackingLogic.longitude tracker)
                    (TrackingLogic.utc_offset tracker) = Ok opt)
    by (rewrite Hlat, Hlon, Hutc; exact Hopt).
  destruct (day_row_angles _ _ _ _ _ _ Hopt) as (Hz & _ & Htilt).
  assert (Hcommit :
            TrackingLogic.interval_not_reached tracker (add_minutes start m)
              (effective_interval (temperature_at temps m) true 10) = false ->
            (60 * (m / 60))%Z = m ->
            hourly_inv lat lon utc_offset start rest tracker'
            /\ hourly m (row_of temps fixed_tilt fixed_azimuth start m opt cmd)).
  { intros E Hhour.
    rewrite (update_commit _ _ _ _ _ _ E Hopt') in Hu.
    rewrite Hw in Hu. injection Hu as <- <-.
    assert (Ht : max 0.0 (min 90.0
                   (if gtb (SolarModel.zenith opt) 90.0 then 65.0
                    else max (SolarModel.tilt opt) 65.0))
                 = winter_tilt (SolarModel.zenith opt))
      by (unfold winter_tilt; rewrite Htilt; reflexivity).
    split.
    - repeat split; try assumption.
      exists (S a), n. split; [exact Hrest|]. split; [lia|].
      right. split; [lia|]. exists opt.
      replace (60 * (10 * Z.of_nat (S a - 1) / 60))%Z with m
        by (Z.div_mod_to_equations; lia).
      cbn [TrackingLogic.last_update_time TrackingLogic.current_tilt].
      split; [reflexivity|]. split; [exact Hopt|exact Ht].
    - unfold hourly, row_of.
      cbn [Is_Winter Dual_Tilt TrackingLogic.tilt TrackingLogic.winter_mode].
      rewrite Ht. split; [reflexivity|].
      split; [apply winter_tilt_range|].
      exists opt. rewrite Hhour. split; [exact Hopt|reflexivity]. }
  destruct Hlast as [[Ha Hnone]|(Ha & opt0 & Hl0 & Hopt0 & Htilt0)].
  - apply Hcommit.
    + unfold TrackingLogic.interval_not_reached. rewrite Hnone. reflexivity.
    + subst a. subst m. reflexivity.
  - cbv zeta in Hl0, Hopt0.
    set (m0 := (60 * (10 * Z.of_nat (a - 1) / 60))%Z) in *.
    destruct (Z.eq_dec (m mod 60) 0) as [Hmod|Hmod].
    + apply Hcommit.
      * unfold effective_interval. rewrite Hw.
        eapply gate_open; [exact Hl0|]. unfold m0.
        Z.div_mod_to_equations. lia.
      * Z.div_mod_to_equations. lia.
    + assert (E : TrackingLogic.interval_not_reached tracker
                    (add_minutes start m)
                    (effective_interval (temperature_at temps m) true 10)
                  = true).
      { unfold effective_interval. rewrite Hw.
        eapply gate_closed; [exact Hl0|]. unfold m0.
        Z.div_mod_to_equations. lia. }
      rewrite (update_skip _ _ _ _ _ E) in Hu. injection Hu as <- <-.
      assert (Hsame : (60 * (m / 60))%Z = m0)
        by (unfold m0; Z.div_mod_to_equations; lia).
      split.
      * repeat split; try assumption.
        exists (S a), n. split; [exact Hrest|]. split; [lia|].
        right. split; [lia|]. exists opt0.
        replace (60 * (10 * Z.of_nat (S a - 1) / 60))%Z with m0
          by (unfold m0; Z.div_mod_to_equations; lia).
        cbn [TrackingLogic.last_update_time TrackingLogic.current_tilt
             TrackingLogic.set_winter].
        split; [exact Hl0|]. split; [exact Hopt0|exact Htilt0].
      * unfold hourly, row_of.
        cbn [Is_Winter Dual_Tilt TrackingLogic.tilt TrackingLogic.winter_mode].
        rewrite Htilt0. split; [exact Hw|].
        split; [apply winter_tilt_range|].
        exists opt0. rewrite Hsame. split; [exact Hopt0|reflexivity].
Qed.

Lemma hourly_run :
  exists rows,
    simulate_day date_obj lat lon utc_offset temps true fixed_tilt
      fixed_azimuth = Ok rows
    /\ Forall2 hourly (range 0 (24 * 60) 10) rows.
Proof.
  destruct (simulate_loop_inv lat lon utc_offset temps true fixed_tilt
              fixed_azimuth start
              (hourly_inv lat lon utc_offset start) hourly hourly_step
              (range 0 (24 * 60) 10)
              (TrackingLogic.init lat lon utc_offset) [])
    as (tr & rows & Hl & HQ & _).
  - repeat split.
    exists 0%nat, 144%nat. split; [reflexivity|]. split; [lia|].
    left. split; reflexivity.
  - exists rows. split; [|exact HQ].
    eapply simulate_day_of_loop. exact Hl.
Qed.

End WinterDay.

(** X22. In a simulated day with snow detected and every temperature
    below 2 degrees, every record is in winter mode and the tracker is
    re-aimed on the full hour only: the dual-axis tilt of the record of
    minute m is the winter tilt computed from the zenith at the start of
    its hour, minute 60 * (m // 60) (the larger of the zenith and 65
    degrees, or 65 at night), and stays between 65 and 90 degrees. *)
Theorem X22_winter_day_hourly (date_obj : datetime) (lat lon utc : R)
    (t : R) (temps : list R) (ft fa : R) :
  Forall (fun x => x < 2) (t :: temps) ->
  exists rows,
    simulate_day date_obj lat lon utc (t :: temps) true ft fa = Ok rows
    /\ Forall2
         (fun m r =>
            Is_Winter r = true
            /\ 65 <= Dual_Tilt r <= 90
            /\ exists opt,
                 SolarModel.get_target_angles
                   (add_minutes (start_of_day date_obj) (60 * (m / 60)))
                   lat lon utc = Ok opt
                 /\ Dual_Tilt r = winter_tilt (SolarModel.zenith opt))
         (range 0 (24 * 60) 10) rows.
Proof.
  intro Hcold.
  pose proof (hourly_run lat lon utc (t :: temps) ft fa date_obj
                ltac:(discriminate) Hcold) as H.
  cbv zeta in H. exact H.
Qed.

End GateExtras.

(** [X21_day_without_winter_follows_sun] on the equator without snow. *)
Lemma X21_day_without_winter_follows_sun_witness :
  exists rows,
    Simulator.simulate_day Scenario.equinox 0 15 0 Scenario.freezing false
      45 90 = Py.Ok rows
    /\ Forall (fun r => Simulator.Is_Winter r = false) rows.
Proof.
  destruct (simulate_day_total Scenario.equinox 0 15 0 Scenario.freezing false
              45 90) as (rows & Hrun & _).
  - discriminate.
  - exists rows. split; [exact Hrun|].
    eapply Forall_impl;
      [|exact (X21_day_without_winter_follows_sun Scenario.equinox 0 15 0
                 Scenario.freezing false 45 90 rows (or_introl eq_refl) Hrun)].
    intros r H. exact (proj1 H).
Defined.

(** [X22_winter_day_hourly] on the equator at -5 degrees with snow. *)
Lemma X22_winter_day_hourly_witness :
  exists rows,
    Simulator.simulate_day Scenario.equinox 0 15 0 Scenario.freezing true
      45 90 = Py.Ok rows
    /\ Forall (fun r => 65 <= Simulator.Dual_Tilt r <= 90) rows.
Proof.
  destruct (X22_winter_day_hourly Scenario.equinox 0 15 0 (-5)
              (repeat (-5) 23) 45 90) as (rows & Hrun & Hrows).
  - repeat constructor; lra.
  - exists rows. split; [exact Hrun|].
    eapply Forall2_Forall_r; [|exact Hrows].
    intros m r H. exact (proj1 (proj2 H)).
Defined.

(* ===================================================================== *)
(** * Properties of the dashboard metrics *)
(* ===================================================================== *)

Section AppExtras.
Import Py Datetime Simulator Aux.

Lemma energy_single_scaled (df : list Row) (a e : R) :
  App.energy_single df a e = App.energy_kwh (map Power_Single df) * (a * e).
Proof. unfold App.energy_single, App.energy_kwh. rewrite sum_scaled. lra. Qed.

(** The percentage gain over a reference energy. *)
Lemma gain_scaled (kd kr s : R) :
  0 < s ->
  (if gtb (kr * s) 0 then (kd * s - kr * s) / (kr * s) * 100 else 0)
  = (if gtb (kr * 1) 0 then (kd * 1 - kr * 1) / (kr * 1) * 100 else 0).
Proof.
  intro Hs. destruct (Rlt_le_dec 0 kr) as [Hk|Hk].
  - replace (gtb (kr * s) 0) with true by (symmetry; apply gtb_true; nra).
    replace (gtb (kr * 1) 0) with true by (symmetry; apply gtb_true; lra).
    field. split; lra.
  - replace (gtb (kr * s) 0) with false by (symmetry; apply gtb_false; nra).
    replace (gtb (kr * 1) 0) with false by (symmetry; apply gtb_false; lra).
    reflexivity.
Qed.

(** X23. The percentage gains shown by the dashboard do not depend on the
    panel: for any panel area and efficiency with a positive product,
    the gain over the fixed mount and the gain over the single-axis
    tracker are those of a panel of area 1 and efficiency 1 (floats read
    as real numbers); a reference energy of 0 gives the gain 0 instead of
    a division by zero. *)
Theorem X23_gain_independent_of_panel (df : list Row) (a e : R) :
  0 < a * e ->
  App.gain_vs_fixed df a e = App.gain_vs_fixed df 1 1
  /\ App.gain_vs_single df a e = App.gain_vs_single df 1 1
  /\ (App.energy_fixed df a e = 0 -> App.gain_vs_fixed df a e = 0)
  /\ (App.energy_single df a e = 0 -> App.gain_vs_single df a e = 0).
Proof.
  intro Hs. unfold App.gain_vs_fixed, App.gain_vs_single. cbv zeta.
  rewrite !energy_dual_scaled, !energy_fixed_scaled, !energy_single_scaled.
  replace (1 * 1) with 1 by lra.
  split; [apply gain_scaled, Hs|]. split; [apply gain_scaled, Hs|].
  split; intros ->;
    (replace (gtb 0 0) with false by (symmetry; apply gtb_false; lra));
    reflexivity.
Qed.

Lemma gain_nonneg (ed er : R) :
  er <= ed -> 0 <= (if gtb er 0 then (ed - er) / er * 100 else 0).
Proof.
  intro H. destruct (gtb er 0) eqn:E; [|lra].
  apply gtb_true in E.
  assert (0 <= (ed - er) / er).
  { unfold Rdiv. apply Rmult_le_pos; [lra|].
    left. apply Rinv_0_lt_compat. exact E. }
  lra.
Qed.

(** X24. For a simulated day without winter mode (no snow detected, or no
    temperature below 2 degrees) and a non-negative panel area and
    efficiency, the dual-axis energy is at least the single-axis and the
    fixed-mount energy, so neither percentage gain of the dashboard is
    negative, and the CO2 saving is not negative. *)
Theorem X24_gains_nonneg_without_winter (date_obj : datetime)
    (lat lon utc : R) (temps : list R) (snow : bool) (ft fa : R)
    (rows : list Row) (a e : R) :
  snow = false \/ Forall (fun t => 2 <= t) temps ->
  simulate_day date_obj lat lon utc temps snow ft fa = Ok rows ->
  0 <= a -> 0 <= e ->
  App.energy_fixed rows a e <= App.energy_dual rows a e
  /\ App.energy_single rows a e <= App.energy_dual rows a e
  /\ 0 <= App.gain_vs_fixed rows a e
  /\ 0 <= App.gain_vs_single rows a e
  /\ 0 <= App.co2_saved rows a e.
Proof.
  intros Hnw Hrun Ha He.
  assert (Hne : temps <> []).
  { intros ->. rewrite simulate_day_empty in Hrun. discriminate. }
  assert (Htrack : Forall tracking_row rows).
  { unfold simulate_day in Hrun.
    destruct (simulate_loop _ _ _ _ _ _ _ _ _ _ _) as [[tr rs]|ex] eqn:El;
      cbn [bind] in Hrun; [|discriminate].
    injection Hrun as ->.
    eapply no_winter_loop; eauto. }
  assert (Hsingle : Forall (fun r => 0 <= Power_Single r <= Irradiance_W_m2 r)
                      rows).
  { destruct (day_rows lat lon utc temps snow ft fa date_obj Hne)
      as (rows' & Hrun' & Hrows).
    rewrite Hrun in Hrun'. injection Hrun' as <-.
    eapply Forall2_Forall_r; [|exact Hrows].
    intros m r (Hm & opt & cmd & Hopt & _ & ->).
    destruct (day_row_angles _ _ _ _ _ _ Hopt) as (Hz & _ & _).
    unfold row_of. cbn [Power_Single Irradiance_W_m2].
    pose proof (irradiance_nonneg (SolarModel.zenith opt) (proj1 Hz)).
    pose proof (single_incidence_range
                  (radians (SolarModel.tilt opt - ft))).
    split; nra. }
  assert (Hf : App.sum (map Power_Fixed rows) <= App.sum (map Power_Dual rows)).
  { apply sum_le. eapply Forall_impl; [|exact Htrack].
    intros r [_ H]. exact H. }
  assert (Hs : App.sum (map Power_Single rows)
               <= App.sum (map Power_Dual rows)).
  { apply sum_le. rewrite Forall_forall in *. intros r Hin.
    destruct (Htrack r Hin) as [Hd _]. destruct (Hsingle r Hin). lra. }
  assert (H0 : 0 <= App.sum (map Power_Single rows)).
  { apply sum_nonneg. eapply Forall_impl; [|exact Hsingle].
    intros r H. exact (proj1 H). }
  assert (Hae : 0 <= a * e) by nra.
  assert (Hef : App.energy_fixed rows a e <= App.energy_dual rows a e).
  { rewrite energy_dual_scaled, energy_fixed_scaled.
    unfold App.energy_kwh. nra. }
  assert (Hes : App.energy_single rows a e <= App.energy_dual rows a e).
  { rewrite energy_dual_scaled, energy_single_scaled.
    unfold App.energy_kwh. nra. }
  split; [exact Hef|]. split; [exact Hes|].
  split; [apply gain_nonneg, Hef|]. split; [apply gain_nonneg, Hes|].
  unfold App.co2_saved. rewrite energy_dual_scaled. unfold App.energy_kwh.
  nra.
Qed.

End AppExtras.

(** [X23_gain_independent_of_panel] for a panel of 10 m2 at 20 percent,
    on the records of the freezing day on the equator: the fixed-mount
    energy is positive, so the gain is computed by the division, and it
    is -100 percent for every panel. *)
Lemma X23_gain_independent_of_panel_witness :
  exists rows,
    Simulator.simulate_day Scenario.equinox 0 15 0 Scenario.freezing true
      45 90 = Py.Ok rows
    /\ 0 < App.energy_fixed rows 10 0.2
    /\ App.gain_vs_fixed rows 10 0.2 = App.gain_vs_fixed rows 1 1
    /\ App.gain_vs_fixed rows 1 1 = -100.
Proof.
  destruct frozen_run as (rows & Hrun & HQ).
  exists rows. split; [exact Hrun|].
  assert (Hin : In 480%Z (Py.range 0 (24 * 60) 10)).
  { unfold Py.range. apply in_map_iff. exists 48%nat.
    split; [reflexivity|]. apply in_seq. cbn. lia. }
  destruct (Forall2_In_l _ _ _ _ HQ Hin) as (r & Hr & _ & _ & H480).
  destruct (H480 eq_refl) as [Hpos _].
  assert (Hd : App.sum (map Simulator.Power_Dual rows) = 0).
  { apply sum_zero. eapply Forall2_Forall_r; [|exact HQ].
    intros a b (H & _). exact H. }
  assert (Hf : 0 < App.sum (map Simulator.Power_Fixed rows)).
  { eapply sum_pos; [|exact Hr|exact Hpos].
    eapply Forall2_Forall_r; [|exact HQ]. intros a b (_ & H & _). exact H. }
  split.
  - rewrite energy_fixed_scaled. unfold App.energy_kwh. nra.
  - split.
    + refine (proj1 (X23_gain_independent_of_panel rows 10 0.2 _)). lra.
    + unfold App.gain_vs_fixed. cbv zeta.
      rewrite energy_dual_scaled, energy_fixed_scaled.
      unfold App.energy_kwh. rewrite Hd.
      set (f := App.sum (map Simulator.Power_Fixed rows)) in *.
      set (x := f * (10 / 60) / 1000.0 * (1 * 1)).
      assert (Hx : 0 < x) by (unfold x; lra).
      replace (Py.gtb x 0) with true by (symmetry; apply gtb_true; lra).
      replace (0 * (10 / 60) / 1000.0 * (1 * 1) - x) with (- x) by lra.
      field. lra.
Defined.

(** [X24_gains_nonneg_without_winter] on the equator without snow. *)
Lemma X24_gains_nonneg_without_winter_witness :
  exists rows,
    Simulator.simulate_day Scenario.equinox 0 15 0 Scenario.freezing false
      45 90 = Py.Ok rows
    /\ 0 <= App.gain_vs_fixed rows 10 0.2.
Proof.
  destruct (simulate_day_total Scenario.equinox 0 15 0 Scenario.freezing false
              45 90) as (rows & Hrun & _).
  - discriminate.
  - exists rows. split; [exact Hrun|].
    refine (proj1 (proj2 (proj2 (X24_gains_nonneg_without_winter
              Scenario.equinox 0 15 0 Scenario.freezing false 45 90 rows
              10 0.2 (or_introl eq_refl) Hrun _ _))));
      lra.
Defined.

(* ===================================================================== *)
(** * The target angles before and after solar noon *)
(* ===================================================================== *)

Section TargetExtras.
Import Py SolarModel Aux.

(** X25. [get_target_angles] returns normally for every input; the tilt
    is the zenith angle, the hour angle is 15 degrees per hour of solar
    time from noon and lies within [-180, 180], and the declination
    within [-23.45, 23.45].  Up to solar noon the azimuth is in the
    eastern half [0, 180]; after solar noon it is in the western half
    [180, 360], or 0 on the else-branch of a sun at the zenith. *)
Theorem X25_target_angles_halves (dt : Datetime.datetime) (lat lon utc : R) :
  exists t,
    get_target_angles dt lat lon utc = Ok t
    /\ tilt t = zenith t
    /\ hour_angle_of t = 15 * (solar_time t - 12)
    /\ -180 <= hour_angle_of t <= 180
    /\ -23.45 <= declination t <= 23.45
    /\ (solar_time t <= 12 -> 0 <= azimuth t <= 180)
    /\ (12 < solar_time t -> 180 <= azimuth t <= 360 \/ azimuth t = 0).
Proof.
  destruct (get_target_angles_eq dt lat lon utc)
    as (t & Ht & Hza & Htilt & Hdec & Hst & Hh).
  exists t. split; [exact Ht|]. split; [exact Htilt|].
  pose proof (solar_time_range dt lon utc) as Hs. rewrite <- Hst in Hs.
  assert (Hha : hour_angle_of t = 15 * (solar_time t - 12))
    by (rewrite Hh, Hst; unfold hour_angle; lra).
  split; [exact Hha|]. split; [lra|].
  split; [rewrite Hdec; apply declination_range|].
  rewrite zenith_and_azimuth_eq in Hza. injection Hza as _ Ha.
  rewrite <- Hh in Ha. rewrite <- Ha.
  destruct (gtb (sin _) 0.001).
  - cbv zeta. set (g := max (-1.0) (min 1.0 _)).
    pose proof (degrees_acos_range g) as Hg.
    split; intro Hc.
    + replace (gtb (hour_angle_of t) 0) with false
        by (symmetry; apply gtb_false; lra).
      exact Hg.
    + replace (gtb (hour_angle_of t) 0) with true
        by (symmetry; apply gtb_true; lra).
      left. lra.
  - split; intro Hc; [lra|]. right. lra.
Qed.

End TargetExtras.

(* ===================================================================== *)
(** * A negative update interval; the azimuth in binary64 *)
(* ===================================================================== *)


(** In binary64 the afternoon azimuth reaches 360: for the positive
    [azimuth_deg] 2^-47 the subtraction [360 - azimuth_deg] rounds to
    360.0, and the wrap of [update] takes 360.0 to 0.0. *)
Lemma afternoon_azimuth_reaches_360 :
  PrimFloat.ltb 0 0x1p-47 = true
  /\ Binary64.afternoon_azimuth 0x1p-47 = 360%float
  /\ Binary64.wrap_azimuth 360 = 0%float.
Proof. vm_compute. repeat split. Qed.
